(** * Ombro Amigo: benefits-request portal

  A shallow embedding of the business logic of the portal:
  - the reimbursement calculator of [RequestForm.tsx],
  - the [request-management] edge function,
  - the [useRequests] hook,
  - the manager dashboard ([DashboardGestora.tsx]),
  - the submission path of the request form.

  JavaScript numbers are IEEE-754 binary64 values and are modelled by
  primitive floats; JavaScript strings are sequences of UTF-16 code
  units. *)

From Stdlib Require Import Floats.PrimFloat Floats.SpecFloat Floats.FloatOps Floats.FloatAxioms.
From Stdlib Require Import NArith ZArith Bool String Ascii List Lia.
From Stdlib Require Import Permutation Sorted.
Import ListNotations.

Set Warnings "-inexact-float".

(* ================================================================== *)
(** ** JavaScript strings *)

(** A string is its list of UTF-16 code units. *)
Definition jsstring := list N.

Module JS.

Definition code_of_ascii (c : ascii) : N := N_of_ascii c.

(** [lit s] is the string of an ASCII literal of the source. *)
Fixpoint lit (s : string) : jsstring :=
  match s with
  | EmptyString => []
  | String c s' => code_of_ascii c :: lit s'
  end.

Fixpoint eqb (a b : jsstring) : bool :=
  match a, b with
  | [], [] => true
  | x :: a', y :: b' => N.eqb x y && eqb a' b'
  | _, _ => false
  end.

(** ECMAScript WhiteSpace and LineTerminator code points, the ones
    [String.prototype.trim] strips. *)
Definition is_white_space (c : N) : bool :=
  (N.leb 9 c && N.leb c 13)          (* TAB LF VT FF CR *)
  || N.eqb c 32                      (* SPACE *)
  || N.eqb c 160                     (* NBSP *)
  || N.eqb c 5760                    (* U+1680 *)
  || (N.leb 8192 c && N.leb c 8202)  (* U+2000..U+200A *)
  || N.eqb c 8232 || N.eqb c 8233    (* LS PS *)
  || N.eqb c 8239 || N.eqb c 8287    (* U+202F U+205F *)
  || N.eqb c 12288                   (* U+3000 *)
  || N.eqb c 65279.                  (* U+FEFF *)

Fixpoint trimStart (s : jsstring) : jsstring :=
  match s with
  | [] => []
  | c :: s' => if is_white_space c then trimStart s' else s
  end.

Definition trimEnd (s : jsstring) : jsstring :=
  rev (trimStart (rev s)).

Definition trim (s : jsstring) : jsstring := trimEnd (trimStart s).

(** Truthiness of a string: only the empty string is falsy. *)
Definition truthy (s : jsstring) : bool :=
  match s with [] => false | _ :: _ => true end.

(** Truthiness of [string | null | undefined]. *)
Definition truthy_opt (s : option jsstring) : bool :=
  match s with None => false | Some s => truthy s end.

(** Decimal digits of a number, as [String(n)] prints a natural. *)
Fixpoint digits_fuel (fuel : nat) (n : N) (acc : jsstring) : jsstring :=
  match fuel with
  | O => acc
  | S fuel' =>
      let acc' := (48 + N.modulo n 10)%N :: acc in
      if N.ltb n 10 then acc' else digits_fuel fuel' (N.div n 10) acc'
  end.

Definition of_N (n : N) : jsstring :=
  digits_fuel (S (N.to_nat (N.log2 n))) n [].

End JS.

(* ================================================================== *)
(** ** The reimbursement calculator ([RequestForm.tsx]) *)

Module Calculator.

Open Scope float_scope.

Definition BASE_SALARY : float := 2018.36.
Definition SALARY_PERCENTAGE : float := 0.9.

(** [calculateReimbursement]; the second argument is not used by the
    source. *)
Definition calculateReimbursement (salary : float) (type : jsstring) : float :=
  if salary <=? 0 then 0
  else
    let maxReimbursable := salary * SALARY_PERCENTAGE in
    if maxReimbursable <=? BASE_SALARY then BASE_SALARY
    else maxReimbursable.

(** What the form shows: [calculateReimbursement(watchSalary || 0,
    watchType || '')]; [x || 0] replaces the falsy numbers (zero and
    NaN) by [0]. *)
Definition or_zero (x : float) : float :=
  if (x =? 0) || is_nan x then 0 else x.

Definition suggestedAmount (watchSalary : float) (watchType : jsstring) : float :=
  calculateReimbursement (or_zero watchSalary) watchType.

End Calculator.

(* ================================================================== *)
(** ** Data model ([integrations/supabase/types.ts]) *)

(** Instants ([timestamptz] columns, [Date.now()]) in milliseconds. *)
Definition timestamp := N.

Inductive request_status := pending | approved | rejected.

Inductive request_type :=
  psicologico | medico | odontologico | fisioterapia | outros.

Inductive user_role := solicitante | gestora.

Inductive polo_type := Sumare3M | Manaus | RibeiraoPreto | Itapetininga.

(** The enum labels, as the strings the client compares. *)
Definition polo_name (p : polo_type) : jsstring :=
  match p with
  | Sumare3M => JS.lit "3M Sumar" ++ [233%N]
  | Manaus => JS.lit "Manaus"
  | RibeiraoPreto => JS.lit "Ribeir" ++ [227%N] ++ JS.lit "o Preto"
  | Itapetininga => JS.lit "Itapetininga"
  end.

Definition status_name (s : request_status) : jsstring :=
  match s with
  | pending => JS.lit "pending"
  | approved => JS.lit "approved"
  | rejected => JS.lit "rejected"
  end.

Record Dependent := { dep_name : jsstring; dep_relationship : jsstring }.

(** The [dependents] column is [Json | null]; the client only asks
    whether it is an array. *)
Inductive Json_dependents :=
| JsonArray (l : list Dependent)
| JsonNotArray.

(** Table [users]. *)
Module users.
Record Row := {
  id : jsstring;
  auth_id : jsstring;
  name : jsstring;
  email : jsstring;
  role : user_role;
  polo : option polo_type;
  department : option jsstring
}.
End users.

(** Table [requests]. *)
Module requests.
Record Row := {
  id : jsstring;
  user_id : jsstring;
  type : request_type;
  description : jsstring;
  amount : float;
  status : request_status;
  approved_by : option jsstring;
  approved_at : option timestamp;
  rejection_reason : option jsstring;
  created_at : timestamp;
  updated_at : option timestamp;
  polo : option jsstring;
  attachments : option (list jsstring);
  dependents : Json_dependents
}.
End requests.

(** The owner's columns embedded by
    [users!requests_user_id_fkey (name, email, department, polo)]. *)
Record UserInfo := {
  ui_name : jsstring;
  ui_email : jsstring;
  ui_department : option jsstring;
  ui_polo : option polo_type
}.

(** [interface Request] of [useRequests.ts]: a row of [requests], its
    [dependents] normalised to an array, and the embedded owner. *)
Record Request := {
  row : requests.Row;
  req_dependents : list Dependent;
  req_users : option UserInfo
}.

Record Db := {
  requests_tbl : list requests.Row;
  users_tbl : list users.Row
}.

(** Who a data-store client acts as: the edge function builds its
    client from [SUPABASE_SERVICE_ROLE_KEY], the browser uses the
    signed-in session. *)
Inductive credential := ServiceRole | UserSession.

(** The object handed to [.update(...)]; a key that is not set is
    [None]. *)
Record UpdateData := {
  upd_status : request_status;
  upd_approved_at : timestamp;
  upd_rejection_reason : option jsstring
}.

(** The object handed to [.insert(...)] by [createRequest]. *)
Record InsertData := {
  ins_user_id : jsstring;
  ins_type : request_type;
  ins_description : jsstring;
  ins_amount : float;
  ins_polo : jsstring;
  ins_dependents : list Dependent;
  ins_attachments : list jsstring
}.

Record File := { file_name : jsstring; file_size : N }.

(** [{ data, error }] of [storage.upload]. *)
Record UploadResponse := {
  up_data : option jsstring;   (* [data.path] *)
  up_error : option jsstring   (* [error.message] *)
}.

Inductive toast_variant := default_variant | destructive.

Record Toast := {
  toast_title : jsstring;
  toast_description : jsstring;
  toast_variant_of : toast_variant
}.

Inductive log_level := Log | LogError.

(** Everything observable that the code does, in order. *)
Inductive Event :=
| EvConsole (lvl : log_level) (label : jsstring)
| EvUpdate (c : credential) (requestId : jsstring) (d : UpdateData)
| EvSelect (c : credential) (owner : option jsstring)
| EvInsert (c : credential) (d : InsertData)
| EvNotify (requestId : jsstring) (action : request_status)
           (rejectionReason : option jsstring)
| EvUpload (path : jsstring) (f : File)
| EvToast (t : Toast).

(* ================================================================== *)
(** ** The world the code runs in *)

(** State of the [useRequests] hook. *)
Record HookState := {
  hs_requests : list Request;
  hs_loading : bool;
  hs_error : option jsstring
}.

(** State of [DashboardGestora]. *)
Record DashState := {
  selectedRequest : option Request;
  rejectionReason_input : jsstring;
  processing : bool;
  selectedPolo : jsstring
}.

(** Values of the request form ([FormData]). *)
Record FormData := {
  fd_type : option request_type;
  fd_description : jsstring;
  fd_amount : float;
  fd_polo : jsstring;
  fd_salary : float
}.

(** State of [RequestForm]. *)
Record FormState := {
  form_values : FormData;
  form_dependents : list Dependent;
  showCalculator : bool;
  form_attachments : list File;
  uploading : bool
}.

Record World := {
  db : Db;
  trace : list Event;
  hook : HookState;
  dash : DashState;
  form : FormState
}.

(** What the surroundings answer during a run.
    - [now]: the clock ([new Date()], [Date.now()]);
    - [db_fault]: the message of the error the queries of the browser
      (the client of the signed-in user) come back with while the data
      store does not answer them;
    - [service_db_fault]: the same for the queries of the edge function
      (the client made with the service-role key), which are answered
      or not on their own;
    - [notify_throws]: the message of the exception the call of
      [send-notification-email] throws, when it throws;
    - [notify_error]: the [error] of the [{ data, error }] that call
      resolves with, when it resolves: set when the function cannot be
      reached or answers a status that is not 2xx;
    - [fresh_id]: the identifier the data store gives an inserted row;
    - [storage_upload]: the answer of object storage to
      [upload(fileName, file, ...)];
    - [profile]: the signed-in user's row of [users] ([useAuth()]);
    - [session]: the access token of [supabase.auth.getSession()]. *)
Record Env := {
  now : timestamp;
  db_fault : option jsstring;
  service_db_fault : option jsstring;
  notify_throws : option jsstring;
  notify_error : option jsstring;
  fresh_id : jsstring;
  storage_upload : jsstring -> File -> UploadResponse;
  profile : option users.Row;
  session : option jsstring
}.

Definition set_db (d : Db) (w : World) : World :=
  {| db := d; trace := trace w; hook := hook w; dash := dash w; form := form w |}.

Definition set_trace (t : list Event) (w : World) : World :=
  {| db := db w; trace := t; hook := hook w; dash := dash w; form := form w |}.

Definition set_hook (h : HookState) (w : World) : World :=
  {| db := db w; trace := trace w; hook := h; dash := dash w; form := form w |}.

Definition set_dash (d : DashState) (w : World) : World :=
  {| db := db w; trace := trace w; hook := hook w; dash := d; form := form w |}.

Definition set_form (f : FormState) (w : World) : World :=
  {| db := db w; trace := trace w; hook := hook w; dash := dash w; form := f |}.

(** *** Computations: environment, state and exceptions *)

Inductive Result (A : Type) :=
| Returned (a : A)
| Thrown (message : jsstring).

Arguments Returned {A} a.
Arguments Thrown {A} message.

Definition M (A : Type) := Env -> World -> World * Result A.

Definition ret {A} (a : A) : M A := fun _ w => (w, Returned a).

Definition bind {A B} (m : M A) (k : A -> M B) : M B :=
  fun e w =>
    match m e w with
    | (w', Returned a) => k a e w'
    | (w', Thrown msg) => (w', Thrown msg)
    end.

Definition throw {A} (message : jsstring) : M A :=
  fun _ w => (w, Thrown message).

(** [try { m } catch (error) { h error.message }] *)
Definition try_catch {A} (m : M A) (h : jsstring -> M A) : M A :=
  fun e w =>
    match m e w with
    | (w', Returned a) => (w', Returned a)
    | (w', Thrown msg) => h msg e w'
    end.

(** [try { m } finally { f }] *)
Definition try_finally {A} (m : M A) (f : M unit) : M A :=
  fun e w =>
    match m e w with
    | (w', r) =>
        match f e w' with
        | (w'', Returned _) => (w'', r)
        | (w'', Thrown msg) => (w'', Thrown msg)
        end
    end.

Declare Scope js_scope.
Delimit Scope js_scope with js.
Notation "x <- m ;; k" := (bind m (fun x => k))
  (at level 61, m at next level, right associativity) : js_scope.
Notation "m ;; k" := (bind m (fun _ => k))
  (at level 61, right associativity) : js_scope.
Open Scope js_scope.

Definition ask : M Env := fun e w => (w, Returned e).
Definition get : M World := fun _ w => (w, Returned w).
Definition modify (f : World -> World) : M unit := fun _ w => (f w, Returned tt).

Definition emit (ev : Event) : M unit :=
  modify (fun w => set_trace (trace w ++ [ev]) w).

(** [console.log(label, ...)] and [console.error(label, ...)]; the
    values printed after the label are not kept. *)
Definition console_log (label : jsstring) : M unit := emit (EvConsole Log label).
Definition console_error (label : jsstring) : M unit := emit (EvConsole LogError label).

Definition toast (title description : jsstring) (v : toast_variant) : M unit :=
  emit (EvToast {| toast_title := title; toast_description := description;
                   toast_variant_of := v |}).

(* ================================================================== *)
(** ** The data store, as the queries of the source use it *)

(** The row after [UPDATE requests SET ...]: the keys present in the
    update object are written, every other column is kept. *)
Definition apply_update (d : UpdateData) (r : requests.Row) : requests.Row :=
  {| requests.id := requests.id r;
     requests.user_id := requests.user_id r;
     requests.type := requests.type r;
     requests.description := requests.description r;
     requests.amount := requests.amount r;
     requests.status := upd_status d;
     requests.approved_by := requests.approved_by r;
     requests.approved_at := Some (upd_approved_at d);
     requests.rejection_reason :=
       match upd_rejection_reason d with
       | Some reason => Some reason
       | None => requests.rejection_reason r
       end;
     requests.created_at := requests.created_at r;
     requests.updated_at := requests.updated_at r;
     requests.polo := requests.polo r;
     requests.attachments := requests.attachments r;
     requests.dependents := requests.dependents r |}.

(** The fault that answers a query, by the key the client was made with. *)
Definition fault_of (c : credential) (e : Env) : option jsstring :=
  match c with
  | ServiceRole => service_db_fault e
  | UserSession => db_fault e
  end.

Definition has_id (requestId : jsstring) (r : requests.Row) : bool :=
  JS.eqb (requests.id r) requestId.

Definition update_rows (d : UpdateData) (requestId : jsstring)
  (rows : list requests.Row) : list requests.Row :=
  map (fun r => if has_id requestId r then apply_update d r else r) rows.

Definition single_error : jsstring :=
  JS.lit "JSON object requested, multiple (or no) rows returned".

(** [client.from('requests').update(d).eq('id', requestId).select().single()]:
    [{ data, error }].  [.single()] answers an error unless exactly one
    row comes back, and a statement that errors changes nothing. *)
Definition db_update_single (c : credential) (requestId : jsstring) (d : UpdateData)
  : M (option requests.Row * option jsstring) :=
  emit (EvUpdate c requestId d) ;;
  e <- ask ;;
  w <- get ;;
  match fault_of c e with
  | Some msg => ret (None, Some msg)
  | None =>
      let rows' := update_rows d requestId (requests_tbl (db w)) in
      match filter (has_id requestId) rows' with
      | [r] =>
          modify (set_db {| requests_tbl := rows'; users_tbl := users_tbl (db w) |}) ;;
          ret (Some r, None)
      | _ => ret (None, Some single_error)
      end
  end.

(** [ORDER BY created_at DESC]: insertion into a list that is already
    in descending order. *)
Fixpoint insert_desc (r : requests.Row) (l : list requests.Row) : list requests.Row :=
  match l with
  | [] => [r]
  | x :: l' =>
      if N.leb (requests.created_at x) (requests.created_at r)
      then r :: x :: l'
      else x :: insert_desc r l'
  end.

Fixpoint order_desc (l : list requests.Row) : list requests.Row :=
  match l with
  | [] => []
  | r :: l' => insert_desc r (order_desc l')
  end.

(** The embedded owner: the row of [users] the foreign key
    [requests_user_id_fkey] points to, if any. *)
Definition embed_user (us : list users.Row) (r : requests.Row) : option UserInfo :=
  match find (fun u => JS.eqb (users.id u) (requests.user_id r)) us with
  | Some u =>
      Some {| ui_name := users.name u; ui_email := users.email u;
              ui_department := users.department u; ui_polo := users.polo u |}
  | None => None
  end.

(** A row of the answer of [select('*, users!requests_user_id_fkey (...)')]. *)
Definition Joined : Type := requests.Row * option UserInfo.

(** The query of [fetchRequests]: optional [.eq('user_id', owner)],
    then [.order('created_at', { ascending: false })]. *)
Definition db_select_requests (c : credential) (owner : option jsstring)
  : M (option (list Joined) * option jsstring) :=
  emit (EvSelect c owner) ;;
  e <- ask ;;
  w <- get ;;
  match fault_of c e with
  | Some msg => ret (None, Some msg)
  | None =>
      let rows := requests_tbl (db w) in
      let rows :=
        match owner with
        | Some uid => filter (fun r => JS.eqb (requests.user_id r) uid) rows
        | None => rows
        end in
      ret (Some (map (fun r => (r, embed_user (users_tbl (db w)) r)) (order_desc rows)),
           None)
  end.

(** The row [INSERT] creates: the columns of the insert object, an
    identifier and a creation time from the data store, and the
    column defaults ([status] defaults to [pending]). *)
Definition inserted_row (e : Env) (d : InsertData) : requests.Row :=
  {| requests.id := fresh_id e;
     requests.user_id := ins_user_id d;
     requests.type := ins_type d;
     requests.description := ins_description d;
     requests.amount := ins_amount d;
     requests.status := pending;
     requests.approved_by := None;
     requests.approved_at := None;
     requests.rejection_reason := None;
     requests.created_at := now e;
     requests.updated_at := Some (now e);
     requests.polo := Some (ins_polo d);
     requests.attachments := Some (ins_attachments d);
     requests.dependents := JsonArray (ins_dependents d) |}.

(** [client.from('requests').insert(d).select().single()]. *)
Definition db_insert_single (c : credential) (d : InsertData)
  : M (option requests.Row * option jsstring) :=
  emit (EvInsert c d) ;;
  e <- ask ;;
  w <- get ;;
  match fault_of c e with
  | Some msg => ret (None, Some msg)
  | None =>
      let r := inserted_row e d in
      modify (set_db {| requests_tbl := requests_tbl (db w) ++ [r];
                        users_tbl := users_tbl (db w) |}) ;;
      ret (Some r, None)
  end.

(* ================================================================== *)
(** ** The edge function ([functions/request-management/index.ts]) *)

Module RequestManagement.

Inductive http_method := OPTIONS | POST | OtherMethod.

(** The [status] a body carries.  [UpdateRequestBody] declares
    ['approved' | 'rejected']; the declaration is erased at run time
    and the handler checks nothing, so the third value of the column,
    ['pending'], is written as well when a body carries it. *)
Inductive target_status := to_approved | to_rejected | to_pending.

Definition status_of (t : target_status) : request_status :=
  match t with
  | to_approved => approved
  | to_rejected => rejected
  | to_pending => pending
  end.

Record UpdateRequestBody := {
  requestId : jsstring;
  status : target_status;
  rejectionReason : option jsstring
}.

(** The parts of the incoming [Request] the handler reads:
    [req.method], [req.headers.get('Authorization')] and the outcome of
    [req.json()], which is the body or the message of the error it
    throws. *)
Record HttpRequest := {
  method : http_method;
  authorization : option jsstring;
  json : jsstring + UpdateRequestBody
}.

Inductive ResponseBody :=
| BodyNull
| BodySuccess (data : option requests.Row) (message : jsstring)
| BodyError (error : jsstring) (details : option jsstring).

Record Response := { resp_status : N; resp_body : ResponseBody }.

Definition req_json (req : HttpRequest) : M UpdateRequestBody :=
  match json req with
  | inr body => ret body
  | inl msg => throw msg
  end.

(** [supabaseClient.functions.invoke('send-notification-email', ...)]:
    the call throws, or it resolves with [{ data, error }], of which
    the [error] is kept here. *)
Definition invoke_notification (requestId : jsstring) (action : request_status)
  (rejectionReason : option jsstring) : M (option jsstring) :=
  emit (EvNotify requestId action rejectionReason) ;;
  e <- ask ;;
  match notify_throws e with
  | Some msg => throw msg
  | None => ret (notify_error e)
  end.

Definition handler (req : HttpRequest) : M Response :=
  match method req with
  | OPTIONS => ret {| resp_status := 200; resp_body := BodyNull |}
  | _ =>
    try_catch
      (let authHeader := authorization req in
       console_log (JS.lit "Auth header:") ;;
       if negb (JS.truthy_opt authHeader)
       then throw (JS.lit "Missing authorization header")
       else
         let supabaseClient := ServiceRole in
         match method req with
         | POST =>
             body <- req_json req ;;
             console_log (JS.lit "Request data:") ;;
             e <- ask ;;
             let updateData :=
               {| upd_status := status_of (status body);
                  upd_approved_at := now e;
                  upd_rejection_reason :=
                    match status body with
                    | to_rejected =>
                        if JS.truthy_opt (rejectionReason body)
                        then rejectionReason body else None
                    | to_approved | to_pending => None
                    end |} in
             console_log (JS.lit "Updating request with data:") ;;
             res <- db_update_single supabaseClient (requestId body) updateData ;;
             match res with
             | (_, Some updateError) =>
                 console_error (JS.lit "Update error:") ;;
                 throw (JS.lit "Failed to update request: " ++ updateError)
             | (updatedRequest, None) =>
                 console_log (JS.lit "Request updated successfully:") ;;
                 try_catch
                   (invoke_notification (requestId body) (status_of (status body))
                      (rejectionReason body) ;;
                    console_log (JS.lit "Email notification sent"))
                   (fun emailError =>
                      console_error (JS.lit "Failed to send email notification:")) ;;
                 ret {| resp_status := 200;
                        resp_body :=
                          BodySuccess updatedRequest
                            (JS.lit "Request " ++ status_name (status_of (status body))
                               ++ JS.lit " successfully") |}
             end
         | _ =>
             ret {| resp_status := 405;
                    resp_body := BodyError (JS.lit "Method not allowed") None |}
         end)
      (fun message =>
         console_error (JS.lit "Error in request-management function:") ;;
         ret {| resp_status := 500;
                resp_body :=
                  BodyError message
                    (Some (JS.lit "Check function logs for more information")) |})
  end.

End RequestManagement.

(* ================================================================== *)
(** ** The [useRequests] hook ([hooks/useRequests.ts]) *)

Module UseRequests.
Import RequestManagement.

Definition setRequests (l : list Request) : M unit :=
  modify (fun w => set_hook {| hs_requests := l; hs_loading := hs_loading (hook w);
                               hs_error := hs_error (hook w) |} w).

Definition setLoading (b : bool) : M unit :=
  modify (fun w => set_hook {| hs_requests := hs_requests (hook w); hs_loading := b;
                               hs_error := hs_error (hook w) |} w).

Definition setError (err : option jsstring) : M unit :=
  modify (fun w => set_hook {| hs_requests := hs_requests (hook w);
                               hs_loading := hs_loading (hook w);
                               hs_error := err |} w).

(** [{ ...request, dependents: Array.isArray(request.dependents) ?
    request.dependents : [] }] *)
Definition transform (j : Joined) : Request :=
  {| row := fst j;
     req_dependents :=
       match requests.dependents (fst j) with
       | JsonArray l => l
       | JsonNotArray => []
       end;
     req_users := snd j |}.

Definition fetchRequests : M unit :=
  e <- ask ;;
  match profile e with
  | None => ret tt
  | Some profile =>
      try_finally
        (try_catch
           (setLoading true ;;
            let owner :=
              match users.role profile with
              | solicitante => Some (users.id profile)
              | gestora => None
              end in
            res <- db_select_requests UserSession owner ;;
            match res with
            | (_, Some fetchError) => throw fetchError
            | (data, None) =>
                let transformedData :=
                  map transform (match data with Some l => l | None => [] end) in
                setRequests transformedData ;;
                setError None
            end)
           (fun err =>
              setError (Some err) ;;
              console_error (JS.lit "Error fetching requests:")))
        (setLoading false)
  end.

(** The object [createRequest] receives. *)
Record RequestData := {
  rd_type : request_type;
  rd_description : jsstring;
  rd_amount : float;
  rd_polo : jsstring;
  rd_dependents : list Dependent;
  rd_attachments : list jsstring
}.

Definition createRequest (requestData : RequestData) : M (option requests.Row) :=
  e <- ask ;;
  match profile e with
  | None => throw (JS.lit "User not authenticated")
  | Some profile =>
      res <- db_insert_single UserSession
               {| ins_user_id := users.id profile;
                  ins_type := rd_type requestData;
                  ins_description := rd_description requestData;
                  ins_amount := rd_amount requestData;
                  ins_polo := rd_polo requestData;
                  ins_dependents := rd_dependents requestData;
                  ins_attachments := rd_attachments requestData |} ;;
      match res with
      | (_, Some error) => throw error
      | (data, None) => fetchRequests ;; ret data
      end
  end.

Definition non_2xx : jsstring := JS.lit "Edge Function returned a non-2xx status code".

(** [supabase.functions.invoke('request-management', { body, headers })]:
    the function runs on the request built from the arguments; a
    status outside 200..299 comes back as [error]. *)
Definition invoke_request_management (body : UpdateRequestBody) (authorizationHeader : jsstring)
  : M (option ResponseBody * option jsstring) :=
  resp <- handler {| method := POST; authorization := Some authorizationHeader;
                     json := inr body |} ;;
  if N.leb 200 (resp_status resp) && N.ltb (resp_status resp) 300
  then ret (Some (resp_body resp), None)
  else ret (None, Some non_2xx).

Definition updateRequestStatus (requestId : jsstring) (status : target_status)
  (rejectionReason : option jsstring) : M unit :=
  try_catch
    (console_log (JS.lit "Updating request status:") ;;
     e <- ask ;;
     match session e with
     | None => throw (JS.lit "User not authenticated")
     | Some access_token =>
         res <- invoke_request_management
                  {| RequestManagement.requestId := requestId;
                     RequestManagement.status := status;
                     RequestManagement.rejectionReason := rejectionReason |}
                  (JS.lit "Bearer " ++ access_token) ;;
         match res with
         | (_, Some error) =>
             console_error (JS.lit "Edge function error:") ;;
             throw (if JS.truthy error then error
                    else JS.lit "Erro ao atualizar status da solicita"
                           ++ [231%N; 227%N] ++ JS.lit "o")
         | (data, None) =>
             console_log (JS.lit "Request status updated successfully:") ;;
             fetchRequests
         end
     end)
    (fun error =>
       console_error (JS.lit "UpdateRequestStatus error:") ;;
       throw error).

End UseRequests.

(* ================================================================== *)
(** ** The manager dashboard ([pages/DashboardGestora.tsx]) *)

Module DashboardGestora.
Import RequestManagement UseRequests.

Definition setProcessing (b : bool) : M unit :=
  modify (fun w => set_dash {| selectedRequest := selectedRequest (dash w);
                               rejectionReason_input := rejectionReason_input (dash w);
                               processing := b;
                               selectedPolo := selectedPolo (dash w) |} w).

Definition setSelectedRequest (r : option Request) : M unit :=
  modify (fun w => set_dash {| selectedRequest := r;
                               rejectionReason_input := rejectionReason_input (dash w);
                               processing := processing (dash w);
                               selectedPolo := selectedPolo (dash w) |} w).

Definition setRejectionReason (s : jsstring) : M unit :=
  modify (fun w => set_dash {| selectedRequest := selectedRequest (dash w);
                               rejectionReason_input := s;
                               processing := processing (dash w);
                               selectedPolo := selectedPolo (dash w) |} w).

Definition Solicitacao : jsstring := JS.lit "Solicita" ++ [231%N; 227%N] ++ JS.lit "o".

Definition handleApprove (requestId : jsstring) : M unit :=
  setProcessing true ;;
  try_finally
    (try_catch
       (updateRequestStatus requestId to_approved None ;;
        toast (Solicitacao ++ JS.lit " aprovada!")
              (JS.lit "O solicitante foi notificado por email.") default_variant)
       (fun message => toast (JS.lit "Erro ao aprovar") message destructive))
    (setProcessing false).

Definition handleReject (requestId : jsstring) (reason : jsstring) : M unit :=
  if negb (JS.truthy (JS.trim reason))
  then toast (JS.lit "Motivo obrigat" ++ [243%N] ++ JS.lit "rio")
             (JS.lit "Informe o motivo da recusa.") destructive
  else
    setProcessing true ;;
    try_finally
      (try_catch
         (updateRequestStatus requestId to_rejected (Some reason) ;;
          toast (Solicitacao ++ JS.lit " recusada")
                (JS.lit "O solicitante foi notificado por email.") default_variant ;;
          setSelectedRequest None ;;
          setRejectionReason [])
         (fun message => toast (JS.lit "Erro ao recusar") message destructive))
      (setProcessing false).

(** [r.users?.polo === selectedPolo] *)
Definition users_polo_is (selectedPolo : jsstring) (r : Request) : bool :=
  match req_users r with
  | Some u =>
      match ui_polo u with
      | Some p => JS.eqb (polo_name p) selectedPolo
      | None => false
      end
  | None => false
  end.

Definition filterByPolo (selectedPolo : jsstring) (requestList : list Request)
  : list Request :=
  if JS.eqb selectedPolo (JS.lit "todos") then requestList
  else filter (users_polo_is selectedPolo) requestList.

(** [acc[key] = value] on an object: the value of an existing key is
    replaced in place, a new key goes last. *)
Fixpoint obj_set {V} (key : jsstring) (value : V) (acc : list (jsstring * V))
  : list (jsstring * V) :=
  match acc with
  | [] => [(key, value)]
  | (k, v) :: acc' =>
      if JS.eqb k key then (k, value) :: acc' else (k, v) :: obj_set key value acc'
  end.

Fixpoint obj_get {V} (key : jsstring) (acc : list (jsstring * V)) : option V :=
  match acc with
  | [] => None
  | (k, v) :: acc' => if JS.eqb k key then Some v else obj_get key acc'
  end.

Definition polos : list jsstring :=
  [polo_name Sumare3M; polo_name Manaus; polo_name RibeiraoPreto;
   polo_name Itapetininga].

Definition groupByPolo (requestList : list Request) : list (jsstring * list Request) :=
  fold_left
    (fun acc polo => obj_set polo (filter (users_polo_is polo) requestList) acc)
    polos [].

End DashboardGestora.

(* ================================================================== *)
(** ** Submitting the request form ([components/RequestForm.tsx]) *)

Module RequestForm.
Import UseRequests.

(** The characters [/[^a-zA-Z0-9.\-_]/g] leaves in a file name. *)
Definition name_char (c : N) : bool :=
  (N.leb 97 c && N.leb c 122) || (N.leb 65 c && N.leb c 90)
  || (N.leb 48 c && N.leb c 57)
  || N.eqb c 46 || N.eqb c 45 || N.eqb c 95.

Definition sanitize (name : jsstring) : jsstring := filter name_char name.

(** The body of [for (const file of files)], with [uploadedUrls] as
    accumulator. *)
Fixpoint upload_each (profile_id : jsstring) (files : list File)
  (uploadedUrls : list jsstring) : M (list jsstring) :=
  match files with
  | [] => ret uploadedUrls
  | file :: files' =>
      e <- ask ;;
      let sanitizedName := sanitize (file_name file) in
      let fileName :=
        profile_id ++ JS.lit "/" ++ JS.of_N (now e) ++ JS.lit "-" ++ sanitizedName in
      emit (EvUpload fileName file) ;;
      let res := storage_upload e fileName file in
      match up_error res with
      | Some message =>
          console_error (JS.lit "Upload error:") ;;
          throw (JS.lit "Erro ao fazer upload do arquivo " ++ file_name file
                   ++ JS.lit ": " ++ message)
      | None =>
          upload_each profile_id files'
            (match up_data res with
             | Some path => uploadedUrls ++ [path]
             | None => uploadedUrls
             end)
      end
  end.

(** [profile?.id], with its truthiness. *)
Definition profile_id (e : Env) : option jsstring :=
  match profile e with
  | Some p => if JS.truthy (users.id p) then Some (users.id p) else None
  | None => None
  end.

Definition uploadFiles (files : list File) : M (list jsstring) :=
  e <- ask ;;
  match profile_id e, files with
  | None, _ | _, [] => ret []
  | Some pid, _ :: _ =>
      try_catch (upload_each pid files [])
        (fun error =>
           console_error (JS.lit "Upload files error:") ;;
           throw error)
  end.

Definition defaultValues : FormData :=
  {| fd_type := None; fd_description := []; fd_amount := 0%float;
     fd_polo := []; fd_salary := 0%float |}.

Definition setUploading (b : bool) : M unit :=
  modify (fun w => set_form {| form_values := form_values (form w);
                               form_dependents := form_dependents (form w);
                               showCalculator := showCalculator (form w);
                               form_attachments := form_attachments (form w);
                               uploading := b |} w).

(** [form.reset(); setDependents([]); setAttachments([]);
    setShowCalculator(false)] *)
Definition reset_form : M unit :=
  modify (fun w => set_form {| form_values := defaultValues;
                               form_dependents := [];
                               showCalculator := false;
                               form_attachments := [];
                               uploading := uploading (form w) |} w).

(** The validated values [handleSubmit] passes to [onSubmit]. *)
Record SubmitValues := {
  v_type : request_type;
  v_description : jsstring;
  v_amount : float;
  v_polo : jsstring
}.

Definition valid_dependent (dep : Dependent) : bool :=
  JS.truthy (JS.trim (dep_name dep)) && JS.truthy (JS.trim (dep_relationship dep)).

Definition a_solicitacao : jsstring := JS.lit "solicita" ++ [231%N; 227%N] ++ JS.lit "o".

Definition upload_warning : Toast :=
  {| toast_title := JS.lit "Aviso";
     toast_description :=
       JS.lit "Erro ao fazer upload dos anexos, mas a " ++ a_solicitacao
         ++ JS.lit " ser" ++ [225%N] ++ JS.lit " criada.";
     toast_variant_of := destructive |}.

(** The upload step of [onSubmit]: [let uploadedFiles = []; if
    (attachments.length > 0) { try { ... uploadedFiles = await
    uploadFiles(attachments) ... } catch (uploadError) { ... } }]; the
    result is the value of [uploadedFiles] after the step. *)
Definition upload_step (attachments : list File) : M (list jsstring) :=
  match attachments with
  | [] => ret []
  | _ :: _ =>
      try_catch
        (console_log (JS.lit "Iniciando upload de") ;;
         uploaded <- uploadFiles attachments ;;
         console_log (JS.lit "Upload conclu" ++ [237%N] ++ JS.lit "do. Arquivos:") ;;
         ret uploaded)
        (fun uploadError =>
           console_error (JS.lit "Erro no upload de arquivos:") ;;
           emit (EvToast upload_warning) ;;
           ret [])
  end.

Definition onSubmit (values : SubmitValues) : M unit :=
  e <- ask ;;
  match profile_id e with
  | None =>
      toast (JS.lit "Erro")
            (JS.lit "Usu" ++ [225%N] ++ JS.lit "rio n" ++ [227%N] ++ JS.lit "o encontrado")
            destructive
  | Some _ =>
      try_finally
        (try_catch
           (setUploading true ;;
            w <- get ;;
            let dependents := form_dependents (form w) in
            let attachments := form_attachments (form w) in
            let validDependents := filter valid_dependent dependents in
            uploadedFiles <- upload_step attachments ;;
            let requestData :=
              {| rd_type := v_type values;
                 rd_description := v_description values;
                 rd_amount := v_amount values;
                 rd_polo := v_polo values;
                 rd_dependents := validDependents;
                 rd_attachments := uploadedFiles |} in
            console_log (JS.lit "Dados da " ++ a_solicitacao ++ JS.lit ":") ;;
            createRequest requestData ;;
            reset_form ;;
            toast (JS.lit "Sucesso!")
                  (DashboardGestora.Solicitacao ++ JS.lit " criada com sucesso")
                  default_variant)
           (fun error =>
              console_error (JS.lit "Erro ao criar " ++ a_solicitacao ++ JS.lit ":") ;;
              toast (JS.lit "Erro")
                    (JS.lit "Erro ao criar " ++ a_solicitacao ++ JS.lit ". Tente novamente.")
                    destructive))
        (setUploading false)
  end.

End RequestForm.

(* ================================================================== *)
(** ** Sample data *)

Module Sample.
Import RequestManagement.
Local Open Scope N_scope.

Definition ana : users.Row :=
  {| users.id := JS.lit "u-ana"; users.auth_id := JS.lit "a-ana";
     users.name := JS.lit "Ana"; users.email := JS.lit "ana@example.com";
     users.role := solicitante; users.polo := Some Sumare3M;
     users.department := Some (JS.lit "RH") |}.

Definition bia : users.Row :=
  {| users.id := JS.lit "u-bia"; users.auth_id := JS.lit "a-bia";
     users.name := JS.lit "Bia"; users.email := JS.lit "bia@example.com";
     users.role := solicitante; users.polo := None;
     users.department := None |}.

Definition gil : users.Row :=
  {| users.id := JS.lit "u-gil"; users.auth_id := JS.lit "a-gil";
     users.name := JS.lit "Gil"; users.email := JS.lit "gil@example.com";
     users.role := gestora; users.polo := Some Manaus;
     users.department := None |}.

Definition mk_request (rid owner : jsstring) (st : request_status)
  (reason : option jsstring) (created : timestamp) (polo : jsstring) : requests.Row :=
  {| requests.id := rid; requests.user_id := owner; requests.type := medico;
     requests.description := JS.lit "consulta de rotina";
     requests.amount := 150.5%float; requests.status := st;
     requests.approved_by := None;
     requests.approved_at := match st with pending => None | _ => Some 50%N end;
     requests.rejection_reason := reason;
     requests.created_at := created; requests.updated_at := None;
     requests.polo := Some polo; requests.attachments := Some [];
     requests.dependents := JsonNotArray |}.

(** [r1] is pending, [r2] was approved, [r3] was rejected with a
    reason; [r1] is filed under Manaus by an owner of 3M Sumare. *)
Definition r1 := mk_request (JS.lit "r1") (JS.lit "u-ana") pending None 10 (JS.lit "Manaus").
Definition r2 := mk_request (JS.lit "r2") (JS.lit "u-bia") approved None 30 (JS.lit "Manaus").
Definition r3 :=
  mk_request (JS.lit "r3") (JS.lit "u-ana") rejected (Some (JS.lit "sem recibo")) 20
    (polo_name Sumare3M).

Definition db0 : Db :=
  {| requests_tbl := [r1; r2; r3]; users_tbl := [ana; bia; gil] |}.

Definition file (name : string) : File :=
  {| file_name := JS.lit name; file_size := 1024 |}.

(** Object storage that refuses the files named [bad.pdf] and stores
    every other file under the path it is given. *)
Definition storage0 (path : jsstring) (f : File) : UploadResponse :=
  if JS.eqb (file_name f) (JS.lit "bad.pdf")
  then {| up_data := None; up_error := Some (JS.lit "Payload too large") |}
  else {| up_data := Some path; up_error := None |}.

Definition env0 (who : option users.Row) : Env :=
  {| now := 1000; db_fault := None; service_db_fault := None;
     notify_throws := None; notify_error := None;
     fresh_id := JS.lit "r4"; storage_upload := storage0;
     profile := who;
     session := match who with Some _ => Some (JS.lit "jwt") | None => None end |}.

Definition hook0 : HookState :=
  {| hs_requests := []; hs_loading := true; hs_error := None |}.

Definition dash0 : DashState :=
  {| selectedRequest := None; rejectionReason_input := []; processing := false;
     selectedPolo := JS.lit "todos" |}.

Definition form0 (files : list File) : FormState :=
  {| form_values := RequestForm.defaultValues; form_dependents := [];
     showCalculator := false; form_attachments := files; uploading := false |}.

Definition world0 : World :=
  {| db := db0; trace := []; hook := hook0; dash := dash0; form := form0 [] |}.

Definition post (auth : option jsstring) (rid : string) (st : target_status)
  (reason : option jsstring) : HttpRequest :=
  {| method := POST; authorization := auth;
     json := inr {| requestId := JS.lit rid; status := st; rejectionReason := reason |} |}.

(** The stored status of the request with a given identifier. *)
Definition stored_status (rid : string) (w : World) : option request_status :=
  option_map requests.status (find (has_id (JS.lit rid)) (requests_tbl (db w))).

Definition stored_reason (rid : string) (w : World) : option (option jsstring) :=
  option_map requests.rejection_reason
    (find (has_id (JS.lit rid)) (requests_tbl (db w))).

End Sample.

(* ------------------------------------------------------------------ *)
(** ** Vocabulary for the edge function *)

Module HandlerSpec.
Import RequestManagement.

(** The update object the handler builds for a body. *)
Definition updateData_of (e : Env) (body : UpdateRequestBody) : UpdateData :=
  {| upd_status := status_of (status body);
     upd_approved_at := now e;
     upd_rejection_reason :=
       match status body with
       | to_rejected =>
           if JS.truthy_opt (rejectionReason body) then rejectionReason body else None
       | to_approved | to_pending => None
       end |}.

(** The table after the update a body asks for. *)
Definition updated_rows (e : Env) (w : World) (body : UpdateRequestBody)
  : list requests.Row :=
  update_rows (updateData_of e body) (requestId body) (requests_tbl (db w)).

(** The update of a body succeeds: the data store answers, and exactly
    one row, [r], comes back. *)
Definition update_succeeds (e : Env) (w : World) (body : UpdateRequestBody)
  (r : requests.Row) : Prop :=
  service_db_fault e = None
  /\ filter (has_id (requestId body)) (updated_rows e w body) = [r].

Definition is_update (ev : Event) : bool :=
  match ev with EvUpdate _ _ _ => true | _ => false end.

Definition log_of (label : string) : Event := EvConsole Log (JS.lit label).
Definition error_of (label : string) : Event := EvConsole LogError (JS.lit label).

Definition success_message (body : UpdateRequestBody) : jsstring :=
  JS.lit "Request " ++ status_name (status_of (status body)) ++ JS.lit " successfully".

(** What a successful transition leaves behind, for either outcome of
    the notification. *)
Definition world_after_success (e : Env) (w : World) (body : UpdateRequestBody) : World :=
  {| db := {| requests_tbl := updated_rows e w body; users_tbl := users_tbl (db w) |};
     trace :=
       trace w ++
       [ log_of "Auth header:"; log_of "Request data:";
         log_of "Updating request with data:";
         EvUpdate ServiceRole (requestId body) (updateData_of e body);
         log_of "Request updated successfully:";
         EvNotify (requestId body) (status_of (status body)) (rejectionReason body);
         match notify_throws e with
         | None => log_of "Email notification sent"
         | Some _ => error_of "Failed to send email notification:"
         end ];
     hook := hook w; dash := dash w; form := form w |}.

Ltac run_step :=
  unfold console_log, console_error, toast, emit, modify, bind, try_catch,
    try_finally, ret, throw, ask, get, set_trace, set_db, fault_of;
  cbn [fst snd trace db hook dash form].

(** The update of a body fails with a message: the data store is
    failing, or [.single()] does not get exactly one row. *)
Definition update_fails (e : Env) (w : World) (body : UpdateRequestBody)
  (msg : jsstring) : Prop :=
  service_db_fault e = Some msg
  \/ (service_db_fault e = None /\ msg = single_error
      /\ forall r, filter (has_id (requestId body)) (updated_rows e w body) <> [r]).

Definition error_response (msg : jsstring) : Response :=
  {| resp_status := 500;
     resp_body :=
       BodyError msg (Some (JS.lit "Check function logs for more information")) |}.

Definition world_after_failure (e : Env) (w : World) (body : UpdateRequestBody) : World :=
  {| db := db w;
     trace :=
       trace w ++
       [ log_of "Auth header:"; log_of "Request data:";
         log_of "Updating request with data:";
         EvUpdate ServiceRole (requestId body) (updateData_of e body);
         error_of "Update error:";
         error_of "Error in request-management function:" ];
     hook := hook w; dash := dash w; form := form w |}.

Definition world_after_refusal (w : World) : World :=
  {| db := db w;
     trace :=
       trace w ++
       [ log_of "Auth header:"; error_of "Error in request-management function:" ];
     hook := hook w; dash := dash w; form := form w |}.




(** The body a request carries, if it can be read, has the declared
    type: its status is 'approved' or 'rejected'. *)
Definition declared_body (req : HttpRequest) : Prop :=
  forall body, json req = inr body -> status body <> to_pending.

(** The same run with another outcome of the notification: what the
    call throws, if it throws, and the error it resolves with. *)
Definition with_notification (throws error : option jsstring) (e : Env) : Env :=
  {| now := now e; db_fault := db_fault e;
     service_db_fault := service_db_fault e;
     notify_throws := throws; notify_error := error;
     fresh_id := fresh_id e; storage_upload := storage_upload e;
     profile := profile e; session := session e |}.

End HandlerSpec.

(* ------------------------------------------------------------------ *)
(** ** Sample calls of the edge function *)

Module WorkflowSpec.
Import RequestManagement HandlerSpec Sample.

Definition bearer : option jsstring := Some (JS.lit "Bearer not-even-a-token").

(** A run in which the call of the notification throws. *)
Definition smtp_down : Env :=
  with_notification (Some (JS.lit "smtp down")) None (env0 (Some gil)).

(** A run in which the notification fails the way the client reports
    it: the call resolves, with an error. *)
Definition mail_refused : Env :=
  with_notification None (Some (JS.lit "Edge Function returned a non-2xx status code"))
    (env0 (Some gil)).

Definition is_error_log (ev : Event) : bool :=
  match ev with EvConsole LogError _ => true | _ => false end.

End WorkflowSpec.

(* ------------------------------------------------------------------ *)
(** ** Vocabulary for the dashboard *)

Module DashboardSpec.
Import RequestManagement HandlerSpec DashboardGestora Sample.

Definition reason_required : Toast :=
  {| toast_title := JS.lit "Motivo obrigat" ++ [243%N] ++ JS.lit "rio";
     toast_description := JS.lit "Informe o motivo da recusa.";
     toast_variant_of := destructive |}.

End DashboardSpec.

(* ------------------------------------------------------------------ *)
(** ** Vocabulary for branches *)

Module BranchSpec.
Import DashboardGestora Sample.

(** The branch of the owner embedded in a request ([r.users?.polo]). *)
Definition owner_polo (r : Request) : option polo_type :=
  match req_users r with
  | Some u => ui_polo u
  | None => None
  end.

Definition polo_eqb (p q : polo_type) : bool :=
  match p, q with
  | Sumare3M, Sumare3M | Manaus, Manaus
  | RibeiraoPreto, RibeiraoPreto | Itapetininga, Itapetininga => true
  | _, _ => false
  end.

Definition owner_is (p : polo_type) (r : Request) : bool :=
  match owner_polo r with
  | Some q => polo_eqb q p
  | None => false
  end.

Definition unassigned (r : Request) : bool :=
  match owner_polo r with
  | Some _ => false
  | None => true
  end.

(** The branch a request is filed under ([request.polo]). *)
Definition filed_under (p : polo_type) (r : Request) : bool :=
  match requests.polo (row r) with
  | Some name => JS.eqb name (polo_name p)
  | None => false
  end.

Ltac place_head :=
  cbn [app];
  first [ reflexivity
        | etransitivity; [apply Permutation_middle |];
          apply Permutation_app_head; place_head ].

(** The list a manager sees for the sample data. *)
Definition listed : list Request :=
  hs_requests (hook (fst (UseRequests.fetchRequests (env0 (Some gil)) world0))).

End BranchSpec.

(* ------------------------------------------------------------------ *)
(** ** Vocabulary for listing *)

Module ListingSpec.
Import UseRequests Sample.
Local Open Scope N_scope.

(** [a] was created no earlier than [b]. *)
Definition newer_first (a b : requests.Row) : Prop :=
  requests.created_at b <= requests.created_at a.

(** The filter the query carries for a viewer. *)
Definition owner_filter (p : users.Row) : option jsstring :=
  match users.role p with
  | solicitante => Some (users.id p)
  | gestora => None
  end.

(** The rows of [requests] a viewer may see. *)
Definition visible_rows (p : users.Row) (rows : list requests.Row) : list requests.Row :=
  match users.role p with
  | solicitante => filter (fun r => JS.eqb (requests.user_id r) (users.id p)) rows
  | gestora => rows
  end.

Definition join (us : list users.Row) (r : requests.Row) : Joined :=
  (r, embed_user us r).

Definition world_after_fetch (p : users.Row) (w : World) : World :=
  {| db := db w;
     trace := trace w ++ [EvSelect UserSession (owner_filter p)];
     hook :=
       {| hs_requests :=
            map transform
              (map (join (users_tbl (db w)))
                 (order_desc (visible_rows p (requests_tbl (db w)))));
          hs_loading := false;
          hs_error := None |};
     dash := dash w; form := form w |}.

(** The embedded owner carries the four profile columns of the user
    the request belongs to. *)
Definition joined_with_owner (us : list users.Row) (rq : Request) : Prop :=
  match req_users rq with
  | Some i =>
      exists u,
        In u us /\ users.id u = requests.user_id (row rq)
        /\ ui_name i = users.name u /\ ui_email i = users.email u
        /\ ui_department i = users.department u /\ ui_polo i = users.polo u
  | None => forall u, In u us -> users.id u <> requests.user_id (row rq)
  end.

End ListingSpec.

(* ------------------------------------------------------------------ *)
(** ** Vocabulary for submissions *)

Module SubmissionSpec.
Import UseRequests RequestForm Sample.

(** The storage path built for a file. *)
Definition upload_path (e : Env) (pid : jsstring) (f : File) : jsstring :=
  pid ++ JS.lit "/" ++ JS.of_N (now e) ++ JS.lit "-" ++ sanitize (file_name f).

Definition response (e : Env) (pid : jsstring) (f : File) : UploadResponse :=
  storage_upload e (upload_path e pid f) f.

Definition accepted (e : Env) (pid : jsstring) (f : File) : bool :=
  match up_error (response e pid f) with
  | None => true
  | Some _ => false
  end.

(** The paths object storage answers for a list of files. *)
Definition stored_paths (e : Env) (pid : jsstring) (files : list File) : list jsstring :=
  flat_map (fun f => match up_data (response e pid f) with
                     | Some path => [path]
                     | None => []
                     end) files.

Definition upload_events (e : Env) (pid : jsstring) (files : list File) : list Event :=
  map (fun f => EvUpload (upload_path e pid f) f) files.

Definition is_upload (ev : Event) : bool :=
  match ev with EvUpload _ _ => true | _ => false end.

Definition upload_failure (f : File) (message : jsstring) : jsstring :=
  JS.lit "Erro ao fazer upload do arquivo " ++ file_name f ++ JS.lit ": " ++ message.

Definition step_failure_trace (e : Env) (pid : jsstring) (tried : list File) : list Event :=
  [EvConsole Log (JS.lit "Iniciando upload de")]
  ++ upload_events e pid tried
  ++ [ EvConsole LogError (JS.lit "Upload error:");
       EvConsole LogError (JS.lit "Upload files error:");
       EvConsole LogError (JS.lit "Erro no upload de arquivos:");
       EvToast upload_warning ].

Definition step_success_trace (e : Env) (pid : jsstring) (files : list File) : list Event :=
  [EvConsole Log (JS.lit "Iniciando upload de")]
  ++ upload_events e pid files
  ++ [EvConsole Log (JS.lit "Upload conclu" ++ [237%N] ++ JS.lit "do. Arquivos:")].

(** The world once [setUploading(true)] has run. *)
Definition uploading_world (w : World) : World :=
  set_form {| form_values := form_values (form w);
              form_dependents := form_dependents (form w);
              showCalculator := showCalculator (form w);
              form_attachments := form_attachments (form w);
              uploading := true |} w.

(** The insert a submission makes, for the paths its upload step
    kept. *)
Definition insert_data (values : SubmitValues) (p : users.Row) (w : World)
  (files : list jsstring) : InsertData :=
  {| ins_user_id := users.id p;
     ins_type := v_type values;
     ins_description := v_description values;
     ins_amount := v_amount values;
     ins_polo := v_polo values;
     ins_dependents := filter valid_dependent (form_dependents (form w));
     ins_attachments := files |}.

Definition success_toast : Toast :=
  {| toast_title := JS.lit "Sucesso!";
     toast_description := DashboardGestora.Solicitacao ++ JS.lit " criada com sucesso";
     toast_variant_of := default_variant |}.

Definition submit_trace (values : SubmitValues) (p : users.Row) (w : World)
  (files : list jsstring) : list Event :=
  [ EvConsole Log (JS.lit "Dados da " ++ a_solicitacao ++ JS.lit ":");
    EvInsert UserSession (insert_data values p w files);
    EvSelect UserSession (ListingSpec.owner_filter p);
    EvToast success_toast ].

Definition world_after_submit (values : SubmitValues) (e : Env) (w : World)
  (p : users.Row) (t : list Event) (files : list jsstring) : World :=
  let rows := requests_tbl (db w) ++ [inserted_row e (insert_data values p w files)] in
  {| db := {| requests_tbl := rows; users_tbl := users_tbl (db w) |};
     trace := t ++ submit_trace values p w files;
     hook :=
       {| hs_requests :=
            map transform
              (map (ListingSpec.join (users_tbl (db w)))
                 (order_desc (ListingSpec.visible_rows p rows)));
          hs_loading := false;
          hs_error := None |};
     dash := dash w;
     form := {| form_values := defaultValues; form_dependents := [];
                showCalculator := false; form_attachments := [];
                uploading := false |} |}.

Definition sample_values : SubmitValues :=
  {| v_type := medico; v_description := JS.lit "consulta e exames";
     v_amount := 320%float; v_polo := polo_name Sumare3M |}.

Definition three_files : World :=
  set_form (form0 [file "a.pdf"; file "bad.pdf"; file "c.pdf"]) world0.

End SubmissionSpec.

(* ================================================================== *)
(** ** More of the dashboard and of the form *)

(** The lists and counters [DashboardGestora] derives from the
    requests of the hook. *)
Module DashboardLists.
Import DashboardGestora.

(** [r.status === s] *)
Definition status_is (s : request_status) (r : Request) : bool :=
  match requests.status (row r), s with
  | pending, pending | approved, approved | rejected, rejected => true
  | _, _ => false
  end.

Definition pendingRequests (requests : list Request) : list Request :=
  filter (status_is pending) requests.

Definition processedRequests (requests : list Request) : list Request :=
  filter (fun r => negb (status_is pending r)) requests.

(** The three counters of the statistics cards. *)
Definition pendingCount (requests : list Request) : nat :=
  List.length (pendingRequests requests).

Definition approvedCount (requests : list Request) : nat :=
  List.length (filter (status_is approved) requests).

Definition rejectedCount (requests : list Request) : nat :=
  List.length (filter (status_is rejected) requests).

Definition filteredPendingRequests (selectedPolo : jsstring) (requests : list Request) :=
  filterByPolo selectedPolo (pendingRequests requests).

Definition filteredProcessedRequests (selectedPolo : jsstring) (requests : list Request) :=
  filterByPolo selectedPolo (processedRequests requests).

Definition groupedPendingRequests (requests : list Request) :=
  groupByPolo (pendingRequests requests).

Definition groupedProcessedRequests (requests : list Request) :=
  groupByPolo (processedRequests requests).

End DashboardLists.

(** The handlers of [RequestForm] that edit the lists of dependents
    and of attachments. *)
Module FormEdits.

(** [list.filter((_, i) => i !== index)], the positions counted from
    [i].  An [index] that is not an integer equals no position, as an
    integer out of range does. *)
Fixpoint drop_position {A} (index : Z) (i : Z) (l : list A) : list A :=
  match l with
  | [] => []
  | x :: l' =>
      if Z.eqb i index then drop_position index (i + 1) l'
      else x :: drop_position index (i + 1) l'
  end.

Definition addDependent (dependents : list Dependent) : list Dependent :=
  dependents ++ [{| dep_name := []; dep_relationship := [] |}].

Definition removeDependent (index : Z) (dependents : list Dependent) : list Dependent :=
  drop_position index 0 dependents.

(** [setAttachments(prev => [...prev, ...files])] *)
Definition addAttachments (files prev : list File) : list File := prev ++ files.

(** [setAttachments(prev => prev.filter((_, i) => i !== index))] *)
Definition removeAttachment (index : Z) (prev : list File) : list File :=
  drop_position index 0 prev.

End FormEdits.

(* ------------------------------------------------------------------ *)
(** ** More vocabulary for the edge function *)

Module HandlerMoreSpec.
Import RequestManagement HandlerSpec.

Definition preflight_response : Response :=
  {| resp_status := 200; resp_body := BodyNull |}.

Definition method_not_allowed : Response :=
  {| resp_status := 405;
     resp_body := BodyError (JS.lit "Method not allowed") None |}.

Definition world_after_method (w : World) : World :=
  {| db := db w; trace := trace w ++ [log_of "Auth header:"];
     hook := hook w; dash := dash w; form := form w |}.

Definition is_notify (ev : Event) : bool :=
  match ev with EvNotify _ _ _ => true | _ => false end.

Definition is_success (r : Response) : bool :=
  match resp_body r with BodySuccess _ _ => true | _ => false end.

(** The columns of a request a transition does not write. *)
Definition same_content (r r' : requests.Row) : Prop :=
  requests.id r' = requests.id r
  /\ requests.user_id r' = requests.user_id r
  /\ requests.type r' = requests.type r
  /\ requests.description r' = requests.description r
  /\ requests.amount r' = requests.amount r
  /\ requests.approved_by r' = requests.approved_by r
  /\ requests.created_at r' = requests.created_at r
  /\ requests.updated_at r' = requests.updated_at r
  /\ requests.polo r' = requests.polo r
  /\ requests.attachments r' = requests.attachments r
  /\ requests.dependents r' = requests.dependents r.

Definition post_of (auth : option jsstring) (body : UpdateRequestBody) : HttpRequest :=
  {| method := POST; authorization := auth; json := inr body |}.

End HandlerMoreSpec.

(* ------------------------------------------------------------------ *)
(** ** More vocabulary for the hook *)

Module HookSpec.
Import RequestManagement HandlerSpec UseRequests ListingSpec.

Definition add_events (t : list Event) (w : World) : World :=
  {| db := db w; trace := trace w ++ t; hook := hook w; dash := dash w;
     form := form w |}.

Definition body_of (requestId : jsstring) (st : target_status)
  (reason : option jsstring) : UpdateRequestBody :=
  {| RequestManagement.requestId := requestId; status := st;
     rejectionReason := reason |}.

(** The world when [updateRequestStatus] reaches the edge function. *)
Definition started (w : World) : World :=
  add_events [log_of "Updating request status:"] w.

Definition world_signed_out (w : World) : World :=
  add_events [log_of "Updating request status:";
              error_of "UpdateRequestStatus error:"] w.

Definition world_update_refused (e : Env) (w : World) (body : UpdateRequestBody) : World :=
  add_events [error_of "Edge function error:";
              error_of "UpdateRequestStatus error:"]
    (world_after_failure e (started w) body).

Definition world_updated (e : Env) (w : World) (body : UpdateRequestBody)
  (p : users.Row) : World :=
  world_after_fetch p
    (add_events [log_of "Request status updated successfully:"]
       (world_after_success e (started w) body)).

Definition world_fetch_failed (msg : jsstring) (p : users.Row) (w : World) : World :=
  {| db := db w;
     trace := trace w ++ [EvSelect UserSession (owner_filter p);
                          error_of "Error fetching requests:"];
     hook := {| hs_requests := hs_requests (hook w); hs_loading := false;
                hs_error := Some msg |};
     dash := dash w; form := form w |}.

(** The world once the update has gone through and the list has been
    asked for again: fetched from the updated table, or, when the query
    of the browser is refused, left as it was with the hook in error. *)
Definition world_decided (e : Env) (w : World) (body : UpdateRequestBody)
  (p : users.Row) : World :=
  match db_fault e with
  | None => world_updated e w body p
  | Some msg =>
      world_fetch_failed msg p
        (add_events [log_of "Request status updated successfully:"]
           (world_after_success e (started w) body))
  end.

Definition insert_of (p : users.Row) (d : RequestData) : InsertData :=
  {| ins_user_id := users.id p;
     ins_type := rd_type d;
     ins_description := rd_description d;
     ins_amount := rd_amount d;
     ins_polo := rd_polo d;
     ins_dependents := rd_dependents d;
     ins_attachments := rd_attachments d |}.

Definition is_insert (ev : Event) : bool :=
  match ev with EvInsert _ _ => true | _ => false end.

(** A run in which the data store refuses every query. *)
Definition store_down : Env :=
  {| now := 1000%N; db_fault := Some (JS.lit "connection refused");
     service_db_fault := Some (JS.lit "connection refused");
     notify_throws := None; notify_error := None; fresh_id := JS.lit "r4";
     storage_upload := Sample.storage0;
     profile := Some Sample.ana; session := Some (JS.lit "jwt") |}.

(** A run in which the edge function reaches the data store and the
    browser of the manager does not. *)
Definition browser_cut_off : Env :=
  {| now := 1000%N; db_fault := Some (JS.lit "connection refused");
     service_db_fault := None;
     notify_throws := None; notify_error := None; fresh_id := JS.lit "r4";
     storage_upload := Sample.storage0;
     profile := Some Sample.gil; session := Some (JS.lit "jwt") |}.

Definition sample_data : RequestData :=
  {| rd_type := odontologico; rd_description := JS.lit "tratamento de canal";
     rd_amount := 900%float; rd_polo := polo_name Manaus;
     rd_dependents := []; rd_attachments := [] |}.

End HookSpec.

(* ------------------------------------------------------------------ *)
(** ** More vocabulary for the dashboard *)

Module DashboardMoreSpec.
Import RequestManagement HandlerSpec UseRequests DashboardGestora HookSpec.

(** The world once [setProcessing(true)] has run. *)
Definition processing_world (w : World) : World :=
  set_dash {| selectedRequest := selectedRequest (dash w);
              rejectionReason_input := rejectionReason_input (dash w);
              processing := true;
              selectedPolo := selectedPolo (dash w) |} w.

Definition is_toast (ev : Event) : bool :=
  match ev with EvToast _ => true | _ => false end.

Definition notified : jsstring := JS.lit "O solicitante foi notificado por email.".

Definition approved_toast : Toast :=
  {| toast_title := Solicitacao ++ JS.lit " aprovada!";
     toast_description := notified; toast_variant_of := default_variant |}.

Definition rejected_toast : Toast :=
  {| toast_title := Solicitacao ++ JS.lit " recusada";
     toast_description := notified; toast_variant_of := default_variant |}.

Definition approve_error (message : jsstring) : Toast :=
  {| toast_title := JS.lit "Erro ao aprovar";
     toast_description := message; toast_variant_of := destructive |}.

Definition reject_error (message : jsstring) : Toast :=
  {| toast_title := JS.lit "Erro ao recusar";
     toast_description := message; toast_variant_of := destructive |}.

(** What [updateRequestStatus] throws when it cannot carry out a
    decision: there is no session, or the update of the body fails. *)
Definition cannot_update (e : Env) (w : World) (body : UpdateRequestBody)
  (message : jsstring) : Prop :=
  (session e = None /\ message = JS.lit "User not authenticated")
  \/ (exists token msg,
        session e = Some token /\ update_fails e w body msg /\ message = non_2xx).

End DashboardMoreSpec.

(* ------------------------------------------------------------------ *)
(** ** More vocabulary for submissions *)

Module SubmissionMoreSpec.
Import UseRequests RequestForm SubmissionSpec HookSpec.

Definition no_user_toast : Toast :=
  {| toast_title := JS.lit "Erro";
     toast_description :=
       JS.lit "Usu" ++ [225%N] ++ JS.lit "rio n" ++ [227%N] ++ JS.lit "o encontrado";
     toast_variant_of := destructive |}.

Definition create_error_toast : Toast :=
  {| toast_title := JS.lit "Erro";
     toast_description :=
       JS.lit "Erro ao criar " ++ a_solicitacao ++ JS.lit ". Tente novamente.";
     toast_variant_of := destructive |}.

(** What the upload step may add to the trace for a user and a list of
    files: uploads of these files to the path built for them, console
    lines and the warning. *)
Definition step_event (e : Env) (pid : jsstring) (files : list File) (ev : Event) : Prop :=
  match ev with
  | EvUpload path f => In f files /\ path = upload_path e pid f
  | EvConsole _ _ => True
  | EvToast t => t = upload_warning
  | _ => False
  end.

(** The world after a submission whose insert the data store
    refuses. *)
Definition world_insert_failed (values : SubmitValues) (w : World) (p : users.Row)
  (t : list Event) (files : list jsstring) : World :=
  {| db := db w;
     trace :=
       t ++ [ EvConsole Log (JS.lit "Dados da " ++ a_solicitacao ++ JS.lit ":");
              EvInsert UserSession (insert_data values p w files);
              EvConsole LogError (JS.lit "Erro ao criar " ++ a_solicitacao ++ JS.lit ":");
              EvToast create_error_toast ];
     hook := hook w;
     dash := dash w;
     form := {| form_values := form_values (form w);
                form_dependents := form_dependents (form w);
                showCalculator := showCalculator (form w);
                form_attachments := form_attachments (form w);
                uploading := false |} |}.

(** The row a submission creates is one of a signed-in user, pending,
    with the submitted values and only complete dependents. *)
Definition created_by (values : SubmitValues) (e : Env) (w : World)
  (created : requests.Row) : Prop :=
  exists p deps,
    profile e = Some p
    /\ requests.user_id created = users.id p
    /\ requests.status created = pending
    /\ requests.type created = v_type values
    /\ requests.description created = v_description values
    /\ requests.amount created = v_amount values
    /\ requests.polo created = Some (v_polo values)
    /\ requests.dependents created = JsonArray deps
    /\ deps = filter valid_dependent (form_dependents (form w))
    /\ Forall (fun d => forallb JS.is_white_space (dep_name d) = false
                        /\ forallb JS.is_white_space (dep_relationship d) = false)
         deps.

End SubmissionMoreSpec.

(* ================================================================== *)
(** * Theorems *)

Module CalculatorFacts.
Import Calculator.
Open Scope float_scope.

(** C1. For every salary, the suggestion is 0 when [salary <= 0];
    otherwise, with [cap = salary * 0.9], it is the floor 2018.36 when
    [cap <= FLOOR] and [cap] otherwise.  In particular
    [suggest(2000) = 2018.36] and [suggest(3000) = 2700.0]. *)
Theorem calculateReimbursement_piecewise :
  (forall (salary : float) (type : jsstring),
      ((salary <=? 0) = true -> calculateReimbursement salary type = 0)
      /\ ((salary <=? 0) = false ->
          (salary * 0.9 <=? 2018.36) = true ->
          calculateReimbursement salary type = 2018.36)
      /\ ((salary <=? 0) = false ->
          (salary * 0.9 <=? 2018.36) = false ->
          calculateReimbursement salary type = salary * 0.9))
  /\ (forall type, calculateReimbursement 2000 type = 2018.36)
  /\ (forall type, calculateReimbursement 3000 type = 2700.0).
Proof.
  split; [| split; intros; reflexivity].
  intros salary type. unfold calculateReimbursement.
  change SALARY_PERCENTAGE with 0.9. change BASE_SALARY with 2018.36.
  repeat split; intros H.
  - now rewrite H.
  - intros H'. now rewrite H, H'.
  - intros H'. now rewrite H, H'.
Qed.

Lemma calculateReimbursement_piecewise_witness :
  calculateReimbursement (-5) [] = 0
  /\ calculateReimbursement 1000 [] = 2018.36
  /\ calculateReimbursement 5000 [] = 5000 * 0.9.
Proof.
  destruct calculateReimbursement_piecewise as [H _].
  split; [exact (proj1 (H (-5) []) eq_refl) |].
  split.
  - exact (proj1 (proj2 (H 1000 [])) eq_refl eq_refl).
  - exact (proj2 (proj2 (H 5000 [])) eq_refl eq_refl).
Defined.

Lemma float_neq_by_leb (x y pivot : float) :
  (x <=? pivot) <> (y <=? pivot) -> x <> y.
Proof. intros H E. apply H. now rewrite E. Qed.

(** The rule "if [s*0.9 <= FLOOR] then [suggest(s) = FLOOR]" fails at
    [s = 0]: there [0 * 0.9 <= 2018.36], and the suggestion is [0]; it
    fails in the same way at a negative salary. *)
Lemma suggest_zero_is_not_floor :
  (0 * SALARY_PERCENTAGE <=? BASE_SALARY) = true
  /\ calculateReimbursement 0 [] = 0
  /\ calculateReimbursement 0 [] <> BASE_SALARY
  /\ (-100 * SALARY_PERCENTAGE <=? BASE_SALARY) = true
  /\ calculateReimbursement (-100) [] <> BASE_SALARY.
Proof.
  repeat split;
    apply float_neq_by_leb with (pivot := 1); vm_compute; discriminate.
Qed.

(** C9, amended. For every salary [s] that is not [<= 0]: if
    [s*0.9 <= FLOOR] then [suggest(s) = FLOOR], else
    [suggest(s) = s*0.9]; for every [s <= 0], and so for [s = 0],
    [suggest(s) = 0]. *)
Theorem suggest_above_zero (s : float) (type : jsstring)
  (Hpos : (s <=? 0) = false) :
  (if s * SALARY_PERCENTAGE <=? BASE_SALARY
   then calculateReimbursement s type = BASE_SALARY
   else calculateReimbursement s type = s * SALARY_PERCENTAGE)
  /\ (forall s0, (s0 <=? 0) = true -> calculateReimbursement s0 type = 0)
  /\ calculateReimbursement 0 type = 0.
Proof.
  unfold calculateReimbursement. rewrite Hpos. cbv zeta.
  split; [| split].
  - destruct (s * SALARY_PERCENTAGE <=? BASE_SALARY); reflexivity.
  - intros s0 H0. now rewrite H0.
  - reflexivity.
Qed.

Lemma suggest_above_zero_witness :
  (3000 <=? 0) = false
  /\ calculateReimbursement 3000 [] = 2700
  /\ calculateReimbursement 1500.5 [] = BASE_SALARY.
Proof.
  split; [reflexivity |].
  split.
  - exact (proj1 (suggest_above_zero 3000 [] eq_refl)).
  - exact (proj1 (suggest_above_zero 1500.5 [] eq_refl)).
Defined.

End CalculatorFacts.

(* ------------------------------------------------------------------ *)
(** ** Facts about strings *)

Module JSFacts.

Lemma eqb_eq (a b : jsstring) : JS.eqb a b = true <-> a = b.
Proof.
  revert b; induction a as [| x a IH]; intros [| y b]; simpl;
    try (split; [discriminate | discriminate]); [tauto |].
  rewrite andb_true_iff, N.eqb_eq, IH.
  split; [intros [-> ->]; reflexivity | intros [= -> ->]; auto].
Qed.

Lemma eqb_neq (a b : jsstring) : JS.eqb a b = false <-> a <> b.
Proof.
  rewrite <- eqb_eq. destruct (JS.eqb a b); split; congruence.
Qed.

(** A string of white space only trims to the empty string, and only
    such a string does. *)
Lemma trimStart_blank (s : jsstring) :
  forallb JS.is_white_space s = true <-> JS.trimStart s = [].
Proof.
  induction s as [| c s IH]; simpl; [tauto |].
  destruct (JS.is_white_space c); simpl; [exact IH |].
  split; discriminate.
Qed.

Lemma trimStart_suffix (s : jsstring) :
  exists p, s = p ++ JS.trimStart s /\ forallb JS.is_white_space p = true.
Proof.
  induction s as [| c s (p & Hp & Hb)]; simpl.
  - now exists [].
  - destruct (JS.is_white_space c) eqn:E.
    + exists (c :: p). simpl. rewrite E, Hb. split; [f_equal; exact Hp | reflexivity].
    + now exists [].
Qed.

Lemma trim_blank (s : jsstring) :
  forallb JS.is_white_space s = true <-> JS.trim s = [].
Proof.
  unfold JS.trim, JS.trimEnd. split.
  - intros H. apply trimStart_blank in H. now rewrite H.
  - intros H.
    destruct (trimStart_suffix s) as (p & Hp & Hb).
    rewrite Hp, forallb_app, Hb. simpl.
    apply (f_equal (@rev N)) in H. rewrite rev_involutive in H. simpl in H.
    apply trimStart_blank in H.
    rewrite <- (rev_involutive (JS.trimStart s)).
    rewrite forallb_forall in *. intros x Hx. apply H.
    now apply in_rev in Hx.
Qed.

Lemma truthy_trim (s : jsstring) :
  JS.truthy (JS.trim s) = negb (forallb JS.is_white_space s).
Proof.
  destruct (forallb JS.is_white_space s) eqn:E.
  - apply trim_blank in E. now rewrite E.
  - destruct (JS.trim s) eqn:T; [| reflexivity].
    apply trim_blank in T. congruence.
Qed.

End JSFacts.

(* ------------------------------------------------------------------ *)
(** ** Facts about the edge function *)

Module HandlerFacts.
Import RequestManagement HandlerSpec.

Lemma handler_success (auth : option jsstring) (body : UpdateRequestBody)
  (e : Env) (w : World) (r : requests.Row) :
  JS.truthy_opt auth = true ->
  update_succeeds e w body r ->
  handler {| method := POST; authorization := auth; json := inr body |} e w
  = (world_after_success e w body,
     Returned {| resp_status := 200;
                 resp_body := BodySuccess (Some r) (success_message body) |}).
Proof.
  intros Hauth [Hfault Hone].
  unfold handler, req_json, db_update_single, invoke_notification.
  cbn [method authorization json].
  run_step. rewrite Hauth. cbn [negb]. run_step.
  rewrite Hfault. run_step.
  fold (updateData_of e body).
  unfold updated_rows in Hone. rewrite Hone. run_step.
  unfold world_after_success, updated_rows, log_of, error_of.
  destruct (notify_throws e); run_step;
    repeat rewrite <- app_assoc; reflexivity.
Qed.

Lemma update_outcome (e : Env) (w : World) (body : UpdateRequestBody) :
  (exists r, update_succeeds e w body r) \/ (exists msg, update_fails e w body msg).
Proof.
  unfold update_succeeds, update_fails.
  destruct (service_db_fault e) as [msg |] eqn:F.
  - right. exists msg. now left.
  - destruct (filter (has_id (requestId body)) (updated_rows e w body))
      as [| r [| r' l]] eqn:L.
    + right. exists single_error. right. repeat split. intros r. discriminate.
    + left. exists r. split; reflexivity.
    + right. exists single_error. right. repeat split. intros r0. discriminate.
Qed.

Lemma handler_update_failure (auth : option jsstring) (body : UpdateRequestBody)
  (e : Env) (w : World) (msg : jsstring) :
  JS.truthy_opt auth = true ->
  update_fails e w body msg ->
  handler {| method := POST; authorization := auth; json := inr body |} e w
  = (world_after_failure e w body,
     Returned (error_response (JS.lit "Failed to update request: " ++ msg))).
Proof.
  intros Hauth Hfail.
  unfold handler, req_json, db_update_single, invoke_notification.
  cbn [method authorization json].
  run_step. rewrite Hauth. cbn [negb]. run_step.
  fold (updateData_of e body).
  unfold world_after_failure, error_response, log_of, error_of.
  destruct Hfail as [F | (F & -> & N)]; rewrite F; run_step.
  - repeat rewrite <- app_assoc; reflexivity.
  - unfold updated_rows in N.
    destruct (filter (has_id (requestId body))
                (update_rows (updateData_of e body) (requestId body)
                   (requests_tbl (db w)))) as [| r [| r' l]] eqn:L;
      run_step; try (repeat rewrite <- app_assoc; reflexivity).
    exfalso. exact (N r eq_refl).
Qed.

Lemma handler_refusal (req : HttpRequest) (e : Env) (w : World) :
  method req <> OPTIONS ->
  JS.truthy_opt (authorization req) = false ->
  handler req e w
  = (world_after_refusal w,
     Returned (error_response (JS.lit "Missing authorization header"))).
Proof.
  intros Hm Hauth. unfold handler.
  destruct (method req); [congruence | |];
    run_step; rewrite Hauth; cbn [negb]; run_step;
    unfold world_after_refusal, error_response, log_of, error_of;
    repeat rewrite <- app_assoc; reflexivity.
Qed.

(** A body that cannot be read is an error before any update. *)
Lemma handler_unreadable_body (auth : option jsstring) (msg : jsstring)
  (e : Env) (w : World) :
  JS.truthy_opt auth = true ->
  handler {| method := POST; authorization := auth; json := inl msg |} e w
  = (world_after_refusal w, Returned (error_response msg)).
Proof.
  intros Hauth. unfold handler, req_json. cbn [method authorization json].
  run_step. rewrite Hauth. cbn [negb]. run_step.
  unfold world_after_refusal, error_response, log_of, error_of.
  repeat rewrite <- app_assoc; reflexivity.
Qed.

Lemma handler_other_method (req : HttpRequest) (e : Env) (w : World) :
  method req = OtherMethod ->
  JS.truthy_opt (authorization req) = true ->
  db (fst (handler req e w)) = db w
  /\ filter is_update (trace (fst (handler req e w))) = filter is_update (trace w).
Proof.
  intros Hm Hauth. unfold handler. rewrite Hm.
  run_step. rewrite Hauth. cbn [negb]. run_step.
  split; [reflexivity |].
  rewrite filter_app. cbn. apply app_nil_r.
Qed.

Lemma has_id_apply_update (d : UpdateData) (rid : jsstring) (r : requests.Row) :
  has_id rid (apply_update d r) = has_id rid r.
Proof. reflexivity. Qed.

Lemma filter_update_rows (d : UpdateData) (rid : jsstring) (rows : list requests.Row) :
  filter (has_id rid) (update_rows d rid rows)
  = map (apply_update d) (filter (has_id rid) rows).
Proof.
  induction rows as [| r rows IH]; [reflexivity |].
  unfold update_rows in *. cbn [map filter].
  destruct (has_id rid r) eqn:E.
  - rewrite has_id_apply_update, E. cbn [map]. now rewrite IH.
  - rewrite E. exact IH.
Qed.

(** The row a successful update returns is the stored row with that
    identifier, updated. *)
Lemma update_succeeds_inv (e : Env) (w : World) (body : UpdateRequestBody)
  (r : requests.Row) :
  update_succeeds e w body r ->
  exists r0,
    filter (has_id (requestId body)) (requests_tbl (db w)) = [r0]
    /\ In r0 (requests_tbl (db w))
    /\ requests.id r0 = requestId body
    /\ r = apply_update (updateData_of e body) r0
    /\ In r (updated_rows e w body).
Proof.
  intros [_ H]. unfold updated_rows in *. rewrite filter_update_rows in H.
  destruct (filter (has_id (requestId body)) (requests_tbl (db w)))
    as [| r0 [| r1 l]] eqn:L; try discriminate.
  injection H as <-. exists r0.
  assert (Hin : In r0 (filter (has_id (requestId body)) (requests_tbl (db w))))
    by (rewrite L; now left).
  apply filter_In in Hin. destruct Hin as [Hin Hid].
  repeat split; auto.
  - now apply JSFacts.eqb_eq.
  - unfold update_rows. apply in_map_iff. exists r0. now rewrite Hid.
Qed.





(** The data store after any call: untouched, or updated as the body
    asks. *)
Lemma handler_db (req : HttpRequest) (e : Env) (w : World) :
  db (fst (handler req e w)) = db w
  \/ exists body,
       json req = inr body
       /\ db (fst (handler req e w))
          = {| requests_tbl := updated_rows e w body; users_tbl := users_tbl (db w) |}.
Proof.
  destruct req as [m auth j].
  destruct m.
  - left. reflexivity.
  - destruct (JS.truthy_opt auth) eqn:Hauth.
    + destruct j as [msg | body].
      * left. now rewrite handler_unreadable_body.
      * destruct (update_outcome e w body) as [[r Hr] | [msg Hm]].
        -- right. exists body. now rewrite (handler_success _ _ _ _ _ Hauth Hr).
        -- left. now rewrite (handler_update_failure _ _ _ _ _ Hauth Hm).
    + left. rewrite handler_refusal; [reflexivity | discriminate | exact Hauth].
  - destruct (JS.truthy_opt auth) eqn:Hauth.
    + left. now apply handler_other_method.
    + left. rewrite handler_refusal; [reflexivity | discriminate | exact Hauth].
Qed.

End HandlerFacts.

(* ------------------------------------------------------------------ *)
(** ** The approval workflow *)

Module Workflow.
Import RequestManagement HandlerSpec HandlerFacts Sample WorkflowSpec.




(** With a header present, a call for an identifier no row has is
    answered by an error and changes nothing. *)
Lemma error_response_with_header_present :
  let req := post bearer "no-such-request" to_approved None in
  let out := handler req (env0 (Some gil)) world0 in
  let garbled :=
    {| method := POST; authorization := bearer;
       json := inl (JS.lit "Unexpected end of JSON input") |} in
  JS.truthy_opt (authorization req) = true
  /\ snd out
     = Returned (error_response (JS.lit "Failed to update request: " ++ single_error))
  /\ db (fst out) = db world0
  /\ snd (handler garbled (env0 (Some gil)) world0)
     = Returned (error_response (JS.lit "Unexpected end of JSON input"))
  /\ db (fst (handler garbled (env0 (Some gil)) world0)) = db world0.
Proof. repeat split. Qed.

(** C4, amended. For a POST, the handler answers an error without
    issuing any update when the Authorization header is absent or
    empty.  With a non-empty header, whatever it holds, a body that
    cannot be read is an error before any update, and for a readable
    body the update is issued through the service-role client; the
    answer is a success when that update succeeds, and otherwise an
    error with the data store unchanged. *)
Theorem handler_checks_header_presence_only (req : HttpRequest) (e : Env) (w : World)
  (Hpost : method req = POST) :
  let w' := fst (handler req e w) in
  let res := snd (handler req e w) in
  (JS.truthy_opt (authorization req) = false ->
     res = Returned (error_response (JS.lit "Missing authorization header"))
     /\ db w' = db w
     /\ filter is_update (trace w') = filter is_update (trace w))
  /\ (JS.truthy_opt (authorization req) = true ->
      forall msg, json req = inl msg ->
        res = Returned (error_response msg)
        /\ db w' = db w
        /\ filter is_update (trace w') = filter is_update (trace w))
  /\ (JS.truthy_opt (authorization req) = true ->
      forall body, json req = inr body ->
        filter is_update (trace w')
        = filter is_update (trace w)
            ++ [EvUpdate ServiceRole (requestId body) (updateData_of e body)]
        /\ (forall header,
              JS.truthy header = true ->
              handler {| method := POST; authorization := Some header;
                         json := inr body |} e w
              = handler req e w)
        /\ ((exists r,
               update_succeeds e w body r
               /\ res = Returned {| resp_status := 200;
                                    resp_body := BodySuccess (Some r) (success_message body) |}
               /\ requests_tbl (db w') = updated_rows e w body)
            \/ (exists msg,
                  update_fails e w body msg
                  /\ res = Returned (error_response
                                       (JS.lit "Failed to update request: " ++ msg))
                  /\ db w' = db w))).
Proof.
  destruct req as [m auth j]. cbn in Hpost. subst m. cbn [authorization json].
  split.
  - intros Hauth.
    rewrite handler_refusal; [| discriminate | exact Hauth].
    cbn [fst snd]. repeat split.
    unfold world_after_refusal. cbn [trace].
    rewrite filter_app. cbn. apply app_nil_r.
  - split.
    { intros Hauth msg ->.
      rewrite (handler_unreadable_body _ _ _ _ Hauth). cbn [fst snd].
      repeat split.
      unfold world_after_refusal. cbn [trace].
      rewrite filter_app. cbn. apply app_nil_r. }
    intros Hauth body ->.
    destruct (update_outcome e w body) as [[r Hr] | [msg Hm]].
    + rewrite (handler_success _ _ _ _ _ Hauth Hr). cbn [fst snd].
      repeat split.
      * unfold world_after_success. cbn [trace]. rewrite filter_app.
        cbn. destruct (notify_throws e); reflexivity.
      * intros header Hh. now apply handler_success.
      * left. exists r. split; [exact Hr | split; reflexivity].
    + rewrite (handler_update_failure _ _ _ _ _ Hauth Hm). cbn [fst snd].
      repeat split.
      * unfold world_after_failure. cbn [trace]. rewrite filter_app. reflexivity.
      * intros header Hh. now apply handler_update_failure.
      * right. exists msg. split; [exact Hm | split; reflexivity].
Qed.

Lemma handler_checks_header_presence_only_witness :
  let req := post bearer "r1" to_approved None in
  method req = POST
  /\ (exists r,
        snd (handler req (env0 (Some ana)) world0)
        = Returned {| resp_status := 200;
                      resp_body := BodySuccess (Some r) (success_message
                                     {| requestId := JS.lit "r1"; status := to_approved;
                                        rejectionReason := None |}) |}).
Proof.
  split; [reflexivity |].
  destruct (handler_checks_header_presence_only
              (post bearer "r1" to_approved None) (env0 (Some ana)) world0 eq_refl)
    as (_ & _ & H).
  destruct (H eq_refl _ eq_refl) as (_ & _ & [(r & _ & Hres & _) | (msg & Hf & _)]).
  - exists r. exact Hres.
  - exfalso. destruct Hf as [F | (_ & _ & N)]; [discriminate F |].
    exact (N _ eq_refl).
Defined.

(** Approving a request that had been rejected with a reason succeeds
    and leaves that reason in place. *)
Lemma approval_keeps_old_rejection_reason :
  let out := handler (post bearer "r3" to_approved None) (env0 (Some gil)) world0 in
  stored_status "r3" world0 = Some rejected
  /\ (exists data msg,
        snd out = Returned {| resp_status := 200; resp_body := BodySuccess data msg |})
  /\ stored_status "r3" (fst out) = Some approved
  /\ stored_reason "r3" (fst out) = Some (Some (JS.lit "sem recibo"))
  /\ stored_reason "r3" (fst out) <> Some None.
Proof.
  cbv zeta. split; [reflexivity |]. split; [eexists; eexists; reflexivity |].
  split; [reflexivity |]. split; [reflexivity | discriminate].
Qed.

(** C5, amended. After a successful approval the record has
    status 'approved' and [approved_at] set to the time of the
    transition; its [rejection_reason] is the one it had before, so it
    is null when it was null. *)
Theorem approval_sets_status_and_time (req : HttpRequest) (body : UpdateRequestBody)
  (e : Env) (w : World) (resp : Response)
  (Hpost : method req = POST)
  (Hbody : json req = inr body)
  (Happrove : status body = to_approved)
  (Hres : snd (handler req e w) = Returned resp)
  (Hok : resp_status resp = 200%N) :
  exists r0 r',
    In r0 (requests_tbl (db w))
    /\ requests.id r0 = requestId body
    /\ resp_body resp = BodySuccess (Some r') (success_message body)
    /\ In r' (requests_tbl (db (fst (handler req e w))))
    /\ requests.id r' = requestId body
    /\ requests.status r' = approved
    /\ requests.approved_at r' = Some (now e)
    /\ requests.rejection_reason r' = requests.rejection_reason r0
    /\ (requests.rejection_reason r0 = None -> requests.rejection_reason r' = None).
Proof.
  destruct req as [m auth j]. cbn in Hpost, Hbody. subst m j.
  destruct (JS.truthy_opt auth) eqn:Hauth.
  - destruct (update_outcome e w body) as [[r Hr] | [msg Hm]].
    + rewrite (handler_success _ _ _ _ _ Hauth Hr) in *. cbn [fst snd] in *.
      injection Hres as <-.
      destruct (update_succeeds_inv e w body r Hr) as (r0 & _ & Hin & Hid & -> & Hin').
      exists r0, (apply_update (updateData_of e body) r0).
      unfold world_after_success. cbn [db requests_tbl resp_body].
      repeat split; auto.
      * cbn. now rewrite Happrove.
      * cbn. now rewrite Happrove.
      * cbn. now rewrite Happrove.
    + rewrite (handler_update_failure _ _ _ _ _ Hauth Hm) in Hres.
      cbn [fst snd] in Hres. injection Hres as <-. discriminate Hok.
  - rewrite handler_refusal in Hres; [| discriminate | exact Hauth].
    cbn [snd] in Hres. injection Hres as <-. discriminate Hok.
Qed.

Lemma approval_sets_status_and_time_witness :
  exists r',
    In r' (requests_tbl (db (fst (handler (post bearer "r1" to_approved None)
                                    (env0 (Some gil)) world0))))
    /\ requests.id r' = JS.lit "r1"
    /\ requests.status r' = approved
    /\ requests.approved_at r' = Some 1000%N
    /\ requests.rejection_reason r' = None.
Proof.
  destruct (@approval_sets_status_and_time
              (post bearer "r1" to_approved None)
              {| requestId := JS.lit "r1"; status := to_approved; rejectionReason := None |}
              (env0 (Some gil)) world0
              {| resp_status := 200;
                 resp_body :=
                   BodySuccess
                     (Some (apply_update
                              {| upd_status := approved; upd_approved_at := 1000%N;
                                 upd_rejection_reason := None |} r1))
                     (JS.lit "Request approved successfully") |}
              eq_refl eq_refl eq_refl eq_refl eq_refl)
    as (r0 & r' & _ & _ & _ & Hin & Hid & Hst & Hat & _ & _).
  exists r'. repeat split; auto.
  revert Hin Hid. cbn. intros [<- | [<- | [<- | []]]]; intros; try reflexivity; discriminate.
Defined.

(** C6. The claim holds of the answer and of the stored status, and
    of a failure the call throws; it does not hold of a failure the
    call resolves with.  Here the update of [r1] succeeds and the
    notification resolves with an error: the handler answers success
    and the approval is stored, but the error is never read, nothing
    is logged as failed, and the log says 'Email notification sent'. *)
Theorem notification_error_is_logged_as_sent :
  let req := post bearer "r1" to_approved None in
  let out := handler req mail_refused world0 in
  notify_error mail_refused
  = Some (JS.lit "Edge Function returned a non-2xx status code")
  /\ snd out
     = Returned
         {| resp_status := 200;
            resp_body :=
              BodySuccess
                (Some (apply_update
                         {| upd_status := approved; upd_approved_at := 1000%N;
                            upd_rejection_reason := None |} r1))
                (JS.lit "Request approved successfully") |}
  /\ stored_status "r1" (fst out) = Some approved
  /\ trace (fst out)
     = [ log_of "Auth header:"; log_of "Request data:";
         log_of "Updating request with data:";
         EvUpdate ServiceRole (JS.lit "r1")
           {| upd_status := approved; upd_approved_at := 1000%N;
              upd_rejection_reason := None |};
         log_of "Request updated successfully:";
         EvNotify (JS.lit "r1") approved None;
         log_of "Email notification sent" ]
  /\ filter is_error_log (trace (fst out)) = [].
Proof. repeat split. Qed.

End Workflow.

(* ------------------------------------------------------------------ *)
(** ** The dashboard: rejection reasons and branches *)

Module DashboardFacts.
Import RequestManagement HandlerSpec HandlerFacts DashboardGestora Sample WorkflowSpec DashboardSpec.

Lemma handleReject_blank (requestId reason : jsstring) (e : Env) (w : World) :
  forallb JS.is_white_space reason = true ->
  handleReject requestId reason e w
  = (set_trace (trace w ++ [EvToast reason_required]) w, Returned tt).
Proof.
  intros Hblank. unfold handleReject.
  rewrite JSFacts.truthy_trim, Hblank. reflexivity.
Qed.

(** The endpoint carries out a rejection that has no reason, missing
    or empty: the answer is a success and the stored status changes. *)
Lemma rejection_without_reason_is_carried_out :
  let missing := handler (post WorkflowSpec.bearer "r1" to_rejected None)
                   (env0 (Some gil)) world0 in
  let empty := handler (post WorkflowSpec.bearer "r1" to_rejected (Some []))
                 (env0 (Some gil)) world0 in
  stored_status "r1" world0 = Some pending
  /\ (exists data msg,
        snd missing = Returned {| resp_status := 200; resp_body := BodySuccess data msg |})
  /\ stored_status "r1" (fst missing) = Some rejected
  /\ (exists data msg,
        snd empty = Returned {| resp_status := 200; resp_body := BodySuccess data msg |})
  /\ stored_status "r1" (fst empty) = Some rejected.
Proof.
  cbv zeta. split; [reflexivity |].
  split; [eexists; eexists; reflexivity |]. split; [reflexivity |].
  split; [eexists; eexists; reflexivity |]. reflexivity.
Qed.

(** C2, amended. A rejection asked from the dashboard with a reason
    that is empty or white space only is refused with a validation
    message before anything is sent, and the stored records stay as
    they are.  The endpoint itself asks for no reason: a POST for
    'rejected' whose reason is missing or empty is carried out when its
    update succeeds, and leaves the stored [rejection_reason] as it
    was. *)
Theorem rejection_reason_checked_by_dashboard (requestId reason : jsstring)
  (e : Env) (w : World)
  (Hblank : forallb JS.is_white_space reason = true) :
  let w' := fst (handleReject requestId reason e w) in
  snd (handleReject requestId reason e w) = Returned tt
  /\ db w' = db w
  /\ trace w' = trace w ++ [EvToast reason_required]
  /\ hook w' = hook w /\ dash w' = dash w
  /\ (forall auth body r,
        JS.truthy_opt auth = true ->
        status body = to_rejected ->
        JS.truthy_opt (rejectionReason body) = false ->
        update_succeeds e w body r ->
        let out := handler {| method := POST; authorization := auth;
                              json := inr body |} e w in
        snd out = Returned {| resp_status := 200;
                              resp_body := BodySuccess (Some r) (success_message body) |}
        /\ In r (requests_tbl (db (fst out)))
        /\ requests.status r = rejected
        /\ exists r0,
             In r0 (requests_tbl (db w))
             /\ requests.id r0 = RequestManagement.requestId body
             /\ requests.rejection_reason r = requests.rejection_reason r0).
Proof.
  cbv zeta. rewrite (handleReject_blank _ _ _ _ Hblank). cbn [fst snd].
  do 5 (split; [reflexivity |]).
  intros auth body r Hauth Hrejected Hnoreason Hupd.
  rewrite (handler_success _ _ _ _ _ Hauth Hupd). cbn [fst snd].
  destruct (update_succeeds_inv e w body r Hupd) as (r0 & _ & Hin0 & Hid & -> & Hin).
  split; [reflexivity |]. split; [exact Hin |].
  split.
  - cbn. now rewrite Hrejected.
  - exists r0. repeat split; auto.
    cbn. now rewrite Hrejected, Hnoreason.
Qed.

Lemma rejection_reason_checked_by_dashboard_witness :
  let blank := [32%N; 9%N; 160%N] in
  forallb JS.is_white_space blank = true
  /\ db (fst (handleReject (JS.lit "r1") blank (env0 (Some gil)) world0)) = db world0
  /\ trace (fst (handleReject (JS.lit "r1") blank (env0 (Some gil)) world0))
     = [EvToast reason_required].
Proof.
  cbv zeta. split; [reflexivity |].
  destruct (rejection_reason_checked_by_dashboard (JS.lit "r1") [32%N; 9%N; 160%N]
              (env0 (Some gil)) world0 eq_refl)
    as (_ & Hdb & Htrace & _).
  split; [exact Hdb | exact Htrace].
Defined.

End DashboardFacts.

(* ------------------------------------------------------------------ *)
(** ** Filtering and grouping by branch *)

Module Branches.
Import DashboardGestora Sample BranchSpec.

Lemma polo_name_eqb (p q : polo_type) :
  JS.eqb (polo_name p) (polo_name q) = polo_eqb p q.
Proof. destruct p, q; reflexivity. Qed.

Lemma polo_name_not_todos (p : polo_type) :
  JS.eqb (polo_name p) (JS.lit "todos") = false.
Proof. destruct p; reflexivity. Qed.

Lemma owner_is_iff (p : polo_type) (r : Request) :
  owner_is p r = true <-> owner_polo r = Some p.
Proof.
  unfold owner_is. destruct (owner_polo r) as [q |]; [| split; discriminate].
  destruct q, p; cbn; split; congruence.
Qed.

Lemma users_polo_is_name (p : polo_type) (r : Request) :
  users_polo_is (polo_name p) r = owner_is p r.
Proof.
  unfold users_polo_is, owner_is, owner_polo.
  destruct (req_users r) as [u |]; [| reflexivity].
  destruct (ui_polo u) as [q |]; [| reflexivity].
  apply polo_name_eqb.
Qed.

Lemma filterByPolo_branch (p : polo_type) (l : list Request) :
  filterByPolo (polo_name p) l = filter (owner_is p) l.
Proof.
  unfold filterByPolo. rewrite polo_name_not_todos.
  apply filter_ext. intros r. apply users_polo_is_name.
Qed.

Lemma groupByPolo_entries (l : list Request) :
  groupByPolo l
  = [ (polo_name Sumare3M, filter (owner_is Sumare3M) l);
      (polo_name Manaus, filter (owner_is Manaus) l);
      (polo_name RibeiraoPreto, filter (owner_is RibeiraoPreto) l);
      (polo_name Itapetininga, filter (owner_is Itapetininga) l) ].
Proof.
  rewrite <- !filterByPolo_branch. unfold filterByPolo.
  rewrite !polo_name_not_todos. reflexivity.
Qed.

Lemma split_by_owner (l : list Request) :
  Permutation l
    (filter (owner_is Sumare3M) l ++ filter (owner_is Manaus) l
     ++ filter (owner_is RibeiraoPreto) l ++ filter (owner_is Itapetininga) l
     ++ filter unassigned l).
Proof.
  induction l as [| a l IH]; [reflexivity |].
  etransitivity; [apply perm_skip, IH |].
  cbn [filter].
  assert (Hown : forall p, owner_is p a
                           = match owner_polo a with
                             | Some q => polo_eqb q p
                             | None => false
                             end) by reflexivity.
  assert (Hun : unassigned a
                = match owner_polo a with Some _ => false | None => true end)
    by reflexivity.
  rewrite !Hown, Hun.
  destruct (owner_polo a) as [[] |]; cbn [polo_eqb]; place_head.
Qed.

(** Two requests are filed under Manaus, and the Manaus tab shows
    none of them: the tab goes by the branch of the owner. *)
Lemma filter_ignores_request_polo :
  map (fun r => requests.id (row r)) (filter (filed_under Manaus) listed)
  = [JS.lit "r2"; JS.lit "r1"]
  /\ filterByPolo (polo_name Manaus) listed = []
  /\ filterByPolo (polo_name Manaus) listed <> filter (filed_under Manaus) listed.
Proof.
  split; [reflexivity |]. split; [reflexivity |].
  intros H. apply (f_equal (@List.length Request)) in H. discriminate H.
Qed.

(** C10, amended. For every list of requests and every branch, the
    filter returns, in order, exactly the requests whose owner's
    profile ([users.polo]) is of that branch, which is also the group
    of the branch; the tab 'todos' keeps the list; and the groups of
    the four branches together with the requests whose owner has no
    branch are a rearrangement of the list. *)
Theorem filterByPolo_goes_by_owner (l : list Request) (p : polo_type) :
  filterByPolo (polo_name p) l = filter (owner_is p) l
  /\ (forall r, In r (filterByPolo (polo_name p) l)
                <-> In r l /\ owner_polo r = Some p)
  /\ obj_get (polo_name p) (groupByPolo l) = Some (filterByPolo (polo_name p) l)
  /\ map fst (groupByPolo l) = polos
  /\ filterByPolo (JS.lit "todos") l = l
  /\ Permutation l (concat (map snd (groupByPolo l)) ++ filter unassigned l).
Proof.
  split; [apply filterByPolo_branch |].
  split.
  { intros r. rewrite filterByPolo_branch, filter_In, owner_is_iff. tauto. }
  split.
  { rewrite groupByPolo_entries, filterByPolo_branch. destruct p; reflexivity. }
  split; [now rewrite groupByPolo_entries |].
  split; [reflexivity |].
  rewrite groupByPolo_entries. cbn [map snd concat].
  rewrite app_nil_r, <- !app_assoc. apply split_by_owner.
Qed.

End Branches.

(* ------------------------------------------------------------------ *)
(** ** Listing requests *)

Module Listing.
Import UseRequests Sample ListingSpec.
Local Open Scope N_scope.

Lemma insert_desc_perm (r : requests.Row) (l : list requests.Row) :
  Permutation (r :: l) (insert_desc r l).
Proof.
  induction l as [| x l IH]; cbn [insert_desc]; [reflexivity |].
  destruct (requests.created_at x <=? requests.created_at r); [reflexivity |].
  rewrite perm_swap. now apply perm_skip.
Qed.

Lemma order_desc_perm (l : list requests.Row) : Permutation l (order_desc l).
Proof.
  induction l as [| r l IH]; cbn [order_desc]; [reflexivity |].
  rewrite <- insert_desc_perm. now apply perm_skip.
Qed.

Lemma insert_desc_sorted (r : requests.Row) (l : list requests.Row) :
  StronglySorted newer_first l -> StronglySorted newer_first (insert_desc r l).
Proof.
  induction 1 as [| x l Hl IH Hx]; cbn [insert_desc].
  - repeat constructor.
  - destruct (requests.created_at x <=? requests.created_at r) eqn:E.
    + apply N.leb_le in E. constructor; [now constructor |].
      constructor; [exact E |].
      eapply Forall_impl; [| exact Hx].
      unfold newer_first. intros y Hy. lia.
    + apply N.leb_gt in E. constructor; [exact IH |].
      rewrite <- insert_desc_perm. constructor; [| exact Hx].
      unfold newer_first. lia.
Qed.

Lemma order_desc_sorted (l : list requests.Row) :
  StronglySorted newer_first (order_desc l).
Proof.
  induction l; cbn [order_desc]; [constructor | now apply insert_desc_sorted].
Qed.

Lemma fetchRequests_ok (e : Env) (w : World) (p : users.Row) :
  profile e = Some p ->
  db_fault e = None ->
  fetchRequests e w = (world_after_fetch p w, Returned tt).
Proof.
  intros Hp Hdb. unfold fetchRequests, db_select_requests.
  unfold setLoading, setRequests, setError.
  HandlerSpec.run_step. rewrite Hp. HandlerSpec.run_step.
  rewrite Hdb. HandlerSpec.run_step.
  unfold world_after_fetch, visible_rows, owner_filter, set_hook, join.
  destruct (users.role p); reflexivity.
Qed.

Lemma fetchRequests_signed_out (e : Env) (w : World) :
  profile e = None -> fetchRequests e w = (w, Returned tt).
Proof.
  intros Hp. unfold fetchRequests. HandlerSpec.run_step. now rewrite Hp.
Qed.

Lemma transform_join_owner (us : list users.Row) (r : requests.Row) :
  joined_with_owner us (transform (join us r)).
Proof.
  unfold joined_with_owner, transform, join, embed_user. cbn [req_users row fst snd].
  destruct (find (fun u => JS.eqb (users.id u) (requests.user_id r)) us) as [u |] eqn:F.
  - apply find_some in F. destruct F as [Hin Hid]. apply JSFacts.eqb_eq in Hid.
    exists u. cbn. repeat split; auto.
  - intros u Hin Hid. apply (find_none _ _ F) in Hin. cbn in Hin.
    apply JSFacts.eqb_neq in Hin. contradiction.
Qed.

Lemma map_row_transform_join (us : list users.Row) (rows : list requests.Row) :
  map row (map transform (map (join us) rows)) = rows.
Proof.
  induction rows as [| r rows IH]; [reflexivity |].
  cbn [map]. now rewrite IH.
Qed.

(** Signed out, [fetchRequests] returns normally and touches nothing:
    no exception, no error in the state of the hook. *)
Lemma signed_out_list_does_not_fail :
  profile (env0 None) = None
  /\ fetchRequests (env0 None) world0 = (world0, Returned tt)
  /\ hs_error (hook (fst (fetchRequests (env0 None) world0))) = None.
Proof. repeat split. Qed.

(** C7, amended. For a signed-in viewer whose query the data store
    answers, [fetchRequests] lists only the rows the viewer owns when
    the role is 'solicitante' and all rows when it is 'gestora'; each
    listed request carries the owner's name, email, department and
    polo, and the list is in descending order of creation time.  With
    no signed-in viewer it returns without listing and without
    failing. *)
Theorem fetchRequests_lists (e : Env) (w : World) (p : users.Row)
  (Hviewer : profile e = Some p)
  (Hstore : db_fault e = None) :
  let w' := fst (fetchRequests e w) in
  let listed := hs_requests (hook w') in
  snd (fetchRequests e w) = Returned tt
  /\ hs_error (hook w') = None
  /\ (users.role p = solicitante ->
      Permutation (map row listed)
        (filter (fun r => JS.eqb (requests.user_id r) (users.id p))
           (requests_tbl (db w)))
      /\ Forall (fun rq => requests.user_id (row rq) = users.id p) listed)
  /\ (users.role p = gestora ->
      Permutation (map row listed) (requests_tbl (db w)))
  /\ Forall (joined_with_owner (users_tbl (db w))) listed
  /\ StronglySorted newer_first (map row listed)
  /\ (forall e0 w0, profile e0 = None -> fetchRequests e0 w0 = (w0, Returned tt)).
Proof.
  cbv zeta. rewrite (fetchRequests_ok e w p Hviewer Hstore).
  cbn [fst snd hook hs_requests hs_error world_after_fetch].
  rewrite map_row_transform_join.
  split; [reflexivity |]. split; [reflexivity |].
  split.
  { intros Hrole. unfold visible_rows. rewrite Hrole.
    split; [symmetry; apply order_desc_perm |].
    apply Forall_forall. intros rq Hin.
    apply (in_map row) in Hin. rewrite map_row_transform_join in Hin.
    apply (Permutation_in _ (Permutation_sym (order_desc_perm _))) in Hin.
    apply filter_In in Hin. now apply JSFacts.eqb_eq. }
  split.
  { intros Hrole. unfold visible_rows. rewrite Hrole.
    symmetry; apply order_desc_perm. }
  split.
  { apply Forall_forall. intros rq Hin.
    apply in_map_iff in Hin. destruct Hin as (j & <- & Hj).
    apply in_map_iff in Hj. destruct Hj as (r & <- & _).
    apply transform_join_owner. }
  split; [apply order_desc_sorted |].
  intros e0 w0. apply fetchRequests_signed_out.
Qed.

Lemma fetchRequests_lists_witness :
  map (fun rq => requests.id (row rq))
    (hs_requests (hook (fst (fetchRequests (env0 (Some ana)) world0))))
  = [JS.lit "r3"; JS.lit "r1"]
  /\ Forall (fun rq => requests.user_id (row rq) = users.id ana)
       (hs_requests (hook (fst (fetchRequests (env0 (Some ana)) world0))))
  /\ Permutation
       (map row (hs_requests (hook (fst (fetchRequests (env0 (Some gil)) world0)))))
       (requests_tbl db0).
Proof.
  split; [reflexivity |].
  split.
  - exact (proj2 (proj1 (proj2 (proj2 (fetchRequests_lists (env0 (Some ana)) world0 ana
                                         eq_refl eq_refl))) eq_refl)).
  - exact (proj1 (proj2 (proj2 (proj2 (fetchRequests_lists (env0 (Some gil)) world0 gil
                                         eq_refl eq_refl)))) eq_refl).
Defined.

End Listing.

(* ------------------------------------------------------------------ *)
(** ** Attachments of a submission *)

Module Submission.
Import UseRequests RequestForm Sample SubmissionSpec.

Lemma upload_each_all (e : Env) (pid : jsstring) (files : list File) :
  forallb (accepted e pid) files = true ->
  forall (acc : list jsstring) (w : World),
    upload_each pid files acc e w
    = (set_trace (trace w ++ upload_events e pid files) w,
       Returned (acc ++ stored_paths e pid files)).
Proof.
  induction files as [| f files IH]; intros Hall acc w.
  - cbn. rewrite !app_nil_r. destruct w; reflexivity.
  - cbn [forallb] in Hall. apply andb_true_iff in Hall. destruct Hall as [Hf Hall].
    cbn [upload_each]. HandlerSpec.run_step.
    unfold accepted, response, upload_path in Hf.
    destruct (up_error _) eqn:E in Hf; [discriminate |]. rewrite E.
    rewrite (IH Hall). unfold set_trace. cbn [trace db hook dash form].
    cbn [upload_events stored_paths map flat_map].
    fold (upload_path e pid f). fold (response e pid f).
    fold (upload_events e pid files). fold (stored_paths e pid files).
    destruct (up_data (response e pid f));
      rewrite <- !app_assoc; cbn [app]; reflexivity.
Qed.

Lemma upload_each_stops (e : Env) (pid : jsstring) (pre rest : list File)
  (bad : File) (message : jsstring) :
  forallb (accepted e pid) pre = true ->
  up_error (response e pid bad) = Some message ->
  forall (acc : list jsstring) (w : World),
    upload_each pid (pre ++ bad :: rest) acc e w
    = (set_trace (trace w ++ upload_events e pid (pre ++ [bad])
                    ++ [EvConsole LogError (JS.lit "Upload error:")]) w,
       Thrown (upload_failure bad message)).
Proof.
  induction pre as [| f pre IH]; intros Hall Hbad acc w.
  - cbn [app upload_each]. HandlerSpec.run_step.
    unfold response, upload_path in Hbad. rewrite Hbad.
    HandlerSpec.run_step. cbn [upload_events map].
    rewrite <- !app_assoc. reflexivity.
  - cbn [forallb] in Hall. apply andb_true_iff in Hall. destruct Hall as [Hf Hall].
    cbn [app upload_each]. HandlerSpec.run_step.
    unfold accepted, response, upload_path in Hf.
    destruct (up_error _) eqn:E in Hf; [discriminate |]. rewrite E.
    rewrite (IH Hall Hbad). unfold set_trace. cbn [trace db hook dash form].
    cbn [upload_events map]. fold (upload_path e pid f).
    rewrite <- !app_assoc. reflexivity.
Qed.

Lemma upload_step_stops (e : Env) (pid : jsstring) (pre rest : list File)
  (bad : File) (message : jsstring) (w : World) :
  profile_id e = Some pid ->
  forallb (accepted e pid) pre = true ->
  up_error (response e pid bad) = Some message ->
  upload_step (pre ++ bad :: rest) e w
  = (set_trace (trace w ++ step_failure_trace e pid (pre ++ [bad])) w, Returned []).
Proof.
  intros Hpid Hall Hbad.
  assert (Hcons : exists f fs, pre ++ bad :: rest = f :: fs)
    by (destruct pre; cbn; eauto).
  destruct Hcons as (f & fs & Hcons).
  unfold upload_step, uploadFiles. rewrite Hcons.
  HandlerSpec.run_step. rewrite Hpid. rewrite <- Hcons.
  HandlerSpec.run_step.
  rewrite (upload_each_stops e pid pre rest bad message Hall Hbad).
  unfold set_trace, step_failure_trace. cbn [trace db hook dash form].
  rewrite <- !app_assoc. reflexivity.
Qed.

Lemma upload_step_all (e : Env) (pid : jsstring) (files : list File) (w : World) :
  profile_id e = Some pid ->
  files <> [] ->
  forallb (accepted e pid) files = true ->
  upload_step files e w
  = (set_trace (trace w ++ step_success_trace e pid files) w,
     Returned (stored_paths e pid files)).
Proof.
  intros Hpid Hne Hall.
  destruct files as [| f fs]; [congruence |].
  unfold upload_step, uploadFiles.
  HandlerSpec.run_step. rewrite Hpid.
  HandlerSpec.run_step.
  rewrite (upload_each_all e pid (f :: fs) Hall).
  unfold set_trace, step_success_trace. cbn [trace db hook dash form app].
  rewrite <- !app_assoc. reflexivity.
Qed.

Lemma profile_id_of (e : Env) (p : users.Row) :
  profile e = Some p -> JS.truthy (users.id p) = true ->
  profile_id e = Some (users.id p).
Proof. intros Hp Hid. unfold profile_id. now rewrite Hp, Hid. Qed.

Lemma onSubmit_creates (values : SubmitValues) (e : Env) (w : World)
  (p : users.Row) (t : list Event) (files : list jsstring) :
  profile e = Some p ->
  JS.truthy (users.id p) = true ->
  db_fault e = None ->
  upload_step (form_attachments (form w)) e (uploading_world w)
  = (set_trace t (uploading_world w), Returned files) ->
  onSubmit values e w = (world_after_submit values e w p t files, Returned tt).
Proof.
  intros Hp Hid Hdb Hstep.
  unfold onSubmit. HandlerSpec.run_step.
  rewrite (profile_id_of e p Hp Hid).
  unfold setUploading. HandlerSpec.run_step.
  fold (uploading_world w). cbn [form uploading_world set_form form_attachments].
  rewrite Hstep.
  unfold createRequest, db_insert_single. HandlerSpec.run_step.
  rewrite Hp. HandlerSpec.run_step. rewrite Hdb. HandlerSpec.run_step.
  rewrite (Listing.fetchRequests_ok e _ p Hp Hdb).
  unfold reset_form. HandlerSpec.run_step.
  unfold world_after_submit, ListingSpec.world_after_fetch, submit_trace, insert_data,
    uploading_world, set_form, set_trace.
  cbn [db trace hook dash form uploading form_dependents requests_tbl users_tbl].
  rewrite <- !app_assoc. reflexivity.
Qed.

Lemma filter_upload_events (e : Env) (pid : jsstring) (files : list File) :
  filter is_upload (upload_events e pid files) = upload_events e pid files.
Proof.
  unfold upload_events.
  induction files as [| f files IH]; [reflexivity |].
  cbn [map filter is_upload]. now rewrite IH.
Qed.

Lemma uploads_of_failed_step (e : Env) (pid : jsstring) (tried : list File) :
  filter is_upload (step_failure_trace e pid tried) = upload_events e pid tried.
Proof.
  unfold step_failure_trace. rewrite !filter_app, filter_upload_events.
  cbn. apply app_nil_r.
Qed.

Lemma uploads_of_successful_step (e : Env) (pid : jsstring) (files : list File) :
  filter is_upload (step_success_trace e pid files) = upload_events e pid files.
Proof.
  unfold step_success_trace. rewrite !filter_app, filter_upload_events.
  cbn. apply app_nil_r.
Qed.

(** The first of three files is stored, the second is refused: the
    request is created, and its attachments are empty rather than the
    path of the first file. *)
Lemma failed_upload_loses_stored_files :
  let w' := fst (onSubmit sample_values (env0 (Some ana)) three_files) in
  up_data (response (env0 (Some ana)) (users.id ana) (file "a.pdf"))
  = Some (JS.lit "u-ana/1000-a.pdf")
  /\ up_error (response (env0 (Some ana)) (users.id ana) (file "a.pdf")) = None
  /\ map requests.id (requests_tbl (db w')) = map JS.lit ["r1"; "r2"; "r3"; "r4"]%string
  /\ map requests.attachments (skipn 3 (requests_tbl (db w'))) = [Some []]
  /\ map requests.attachments (skipn 3 (requests_tbl (db w')))
     <> [Some [JS.lit "u-ana/1000-a.pdf"]].
Proof.
  cbv zeta. repeat split. discriminate.
Qed.

(** C8, amended. With attachments, the files are uploaded one after
    the other in their order.  When the upload of one of them fails, no
    later file is tried, the user is warned and the request is still
    created, with an empty [attachments]: the files stored before the
    failure are not attached.  When every upload succeeds the request
    is created with the paths of all of them. *)
Theorem failed_upload_creates_request_without_attachments
  (values : SubmitValues) (e : Env) (w : World) (p : users.Row)
  (pre rest : list File) (bad : File) (message : jsstring)
  (Hviewer : profile e = Some p)
  (Hid : JS.truthy (users.id p) = true)
  (Hstore : db_fault e = None)
  (Hfiles : form_attachments (form w) = pre ++ bad :: rest)
  (Hpre : forallb (accepted e (users.id p)) pre = true)
  (Hbad : up_error (response e (users.id p) bad) = Some message) :
  let w' := fst (onSubmit values e w) in
  snd (onSubmit values e w) = Returned tt
  /\ (exists created,
        requests_tbl (db w') = requests_tbl (db w) ++ [created]
        /\ created = inserted_row e (insert_data values p w [])
        /\ requests.attachments created = Some []
        /\ requests.status created = pending)
  /\ filter is_upload (trace w')
     = filter is_upload (trace w) ++ upload_events e (users.id p) (pre ++ [bad])
  /\ In (EvToast upload_warning) (trace w')
  /\ In (EvToast success_toast) (trace w')
  /\ (forall w0,
        form_attachments (form w0) <> [] ->
        forallb (accepted e (users.id p)) (form_attachments (form w0)) = true ->
        let w0' := fst (onSubmit values e w0) in
        let paths := stored_paths e (users.id p) (form_attachments (form w0)) in
        requests_tbl (db w0')
        = requests_tbl (db w0) ++ [inserted_row e (insert_data values p w0 paths)]
        /\ filter is_upload (trace w0')
           = filter is_upload (trace w0)
               ++ upload_events e (users.id p) (form_attachments (form w0))).
Proof.
  cbv zeta.
  assert (Hpid := profile_id_of e p Hviewer Hid).
  assert (Hstep := upload_step_stops e (users.id p) pre rest bad message
                     (uploading_world w) Hpid Hpre Hbad).
  rewrite <- Hfiles in Hstep at 1.
  rewrite (onSubmit_creates values e w p _ [] Hviewer Hid Hstore Hstep).
  cbn [fst snd]. unfold world_after_submit. cbn [db trace requests_tbl].
  split; [reflexivity |].
  split; [eexists; repeat split |].
  split.
  { rewrite !filter_app, uploads_of_failed_step. cbn. now rewrite app_nil_r. }
  split.
  { apply in_or_app. left. apply in_or_app. right.
    unfold step_failure_trace. apply in_or_app. right. apply in_or_app. right.
    cbn. tauto. }
  split.
  { apply in_or_app. right. cbn. tauto. }
  intros w0 Hne Hall.
  assert (Hstep0 := upload_step_all e (users.id p) (form_attachments (form w0))
                      (uploading_world w0) Hpid Hne Hall).
  rewrite (onSubmit_creates values e w0 p _ _ Hviewer Hid Hstore Hstep0).
  cbn [fst]. unfold world_after_submit. cbn [db trace requests_tbl].
  split; [reflexivity |].
  rewrite !filter_app, uploads_of_successful_step. cbn. now rewrite app_nil_r.
Qed.

Lemma failed_upload_creates_request_without_attachments_witness :
  let w' := fst (onSubmit sample_values (env0 (Some ana)) three_files) in
  filter is_upload (trace w')
  = upload_events (env0 (Some ana)) (users.id ana) [file "a.pdf"; file "bad.pdf"]
  /\ exists created,
       requests_tbl (db w') = requests_tbl db0 ++ [created]
       /\ requests.attachments created = Some [].
Proof.
  cbv zeta.
  destruct (@failed_upload_creates_request_without_attachments
              sample_values (env0 (Some ana)) three_files ana
              [file "a.pdf"] [file "c.pdf"] (file "bad.pdf")
              (JS.lit "Payload too large")
              eq_refl eq_refl eq_refl eq_refl eq_refl eq_refl)
    as (_ & (created & Hrows & _ & Hatt & _) & Hup & _).
  split; [exact Hup |].
  exists created. split; [exact Hrows | exact Hatt].
Defined.

End Submission.

(* ------------------------------------------------------------------ *)
(** ** More about the edge function *)

Module HandlerMore.
Import RequestManagement HandlerSpec HandlerFacts HandlerMoreSpec Sample WorkflowSpec.

Lemma handler_method_not_allowed (req : HttpRequest) (e : Env) (w : World) :
  method req = OtherMethod ->
  JS.truthy_opt (authorization req) = true ->
  handler req e w = (world_after_method w, Returned method_not_allowed).
Proof.
  intros Hm Hauth. unfold handler. rewrite Hm.
  run_step. rewrite Hauth. reflexivity.
Qed.

(** Every way a call of the handler can go. *)
Lemma handler_cases (req : HttpRequest) (e : Env) (w : World) :
  (method req = OPTIONS /\ handler req e w = (w, Returned preflight_response))
  \/ (method req <> OPTIONS /\ JS.truthy_opt (authorization req) = false
      /\ handler req e w
         = (world_after_refusal w,
            Returned (error_response (JS.lit "Missing authorization header"))))
  \/ (method req = OtherMethod /\ JS.truthy_opt (authorization req) = true
      /\ handler req e w = (world_after_method w, Returned method_not_allowed))
  \/ (exists msg,
        method req = POST /\ JS.truthy_opt (authorization req) = true
        /\ json req = inl msg
        /\ handler req e w = (world_after_refusal w, Returned (error_response msg)))
  \/ (exists body msg,
        method req = POST /\ JS.truthy_opt (authorization req) = true
        /\ json req = inr body /\ update_fails e w body msg
        /\ handler req e w
           = (world_after_failure e w body,
              Returned (error_response (JS.lit "Failed to update request: " ++ msg))))
  \/ (exists body r,
        method req = POST /\ JS.truthy_opt (authorization req) = true
        /\ json req = inr body /\ update_succeeds e w body r
        /\ handler req e w
           = (world_after_success e w body,
              Returned {| resp_status := 200;
                          resp_body := BodySuccess (Some r) (success_message body) |})).
Proof.
  destruct req as [m auth j]. cbn [method authorization json].
  destruct m.
  - left. split; reflexivity.
  - destruct (JS.truthy_opt auth) eqn:Hauth.
    + destruct j as [msg | body].
      * do 3 right. left. exists msg. repeat split.
        now apply handler_unreadable_body.
      * destruct (update_outcome e w body) as [[r Hr] | [msg Hm]].
        -- do 5 right. exists body, r.
           split; [reflexivity |]. split; [reflexivity |]. split; [reflexivity |].
           split; [exact Hr | now apply handler_success].
        -- do 4 right. left. exists body, msg.
           split; [reflexivity |]. split; [reflexivity |]. split; [reflexivity |].
           split; [exact Hm | now apply handler_update_failure].
    + right. left. split; [discriminate |]. split; [reflexivity |].
      apply handler_refusal; [discriminate | exact Hauth].
  - destruct (JS.truthy_opt auth) eqn:Hauth.
    + do 2 right. left. split; [reflexivity |]. split; [reflexivity |].
      now apply handler_method_not_allowed.
    + right. left. split; [discriminate |]. split; [reflexivity |].
      apply handler_refusal; [discriminate | exact Hauth].
Qed.

(** X1. The handler never lets an exception escape: every call is
    answered, with status 200, 405 or 500.  It only adds events to the
    trace and touches neither the table of users nor any state of the
    client. *)
Theorem handler_always_answers (req : HttpRequest) (e : Env) (w : World) :
  exists resp t,
    snd (handler req e w) = Returned resp
    /\ (resp_status resp = 200 \/ resp_status resp = 405 \/ resp_status resp = 500)%N
    /\ trace (fst (handler req e w)) = trace w ++ t
    /\ users_tbl (db (fst (handler req e w))) = users_tbl (db w)
    /\ List.length (requests_tbl (db (fst (handler req e w))))
       = List.length (requests_tbl (db w))
    /\ hook (fst (handler req e w)) = hook w
    /\ dash (fst (handler req e w)) = dash w
    /\ form (fst (handler req e w)) = form w.
Proof.
  destruct (handler_cases req e w)
    as [(_ & ->) | [(_ & _ & ->) | [(_ & _ & ->) | [(msg & _ & _ & _ & ->)
       | [(body & msg & _ & _ & _ & _ & ->) | (body & r & _ & _ & _ & _ & ->)]]]]];
    cbn [fst snd].
  - exists preflight_response, []. rewrite app_nil_r. repeat split; auto.
  - eexists; eexists. repeat split; auto.
  - eexists; eexists. repeat split; auto.
  - eexists; eexists. repeat split; auto.
  - eexists; eexists. repeat split; auto.
  - eexists; eexists. split; [reflexivity |]. split; [auto |].
    split; [reflexivity |]. split; [reflexivity |].
    split; [| repeat split].
    cbn [world_after_success db requests_tbl]. unfold updated_rows, update_rows.
    apply length_map.
Qed.

(** X2. Only a POST updates.  For any other method the data store is
    left alone and neither an update nor a notification is issued:
    OPTIONS is answered 200 with an empty body whatever the headers,
    and another method gets 405, or 500 when the Authorization header
    is missing, since the header is looked at first. *)
Theorem only_post_updates (req : HttpRequest) (e : Env) (w : World)
  (Hmethod : method req <> POST) :
  let w' := fst (handler req e w) in
  db w' = db w
  /\ filter is_update (trace w') = filter is_update (trace w)
  /\ filter is_notify (trace w') = filter is_notify (trace w)
  /\ snd (handler req e w)
     = Returned
         match method req with
         | OPTIONS => preflight_response
         | _ =>
             if JS.truthy_opt (authorization req) then method_not_allowed
             else error_response (JS.lit "Missing authorization header")
         end
  /\ (method req = OPTIONS -> w' = w).
Proof.
  cbv zeta.
  destruct (handler_cases req e w)
    as [(Hm & ->) | [(Hm & Hauth & ->) | [(Hm & Hauth & ->) | [(msg & Hm & _)
       | [(body & msg & Hm & _) | (body & r & Hm & _)]]]]];
    try contradiction; cbn [fst snd].
  - rewrite Hm. repeat split.
  - rewrite Hauth. unfold world_after_refusal. cbn [db trace].
    rewrite !filter_app. cbn. rewrite !app_nil_r.
    destruct (method req); try contradiction; repeat split; discriminate.
  - rewrite Hm, Hauth. unfold world_after_method. cbn [db trace].
    rewrite !filter_app. cbn. rewrite !app_nil_r.
    repeat split; discriminate.
Qed.

Lemma only_post_updates_witness :
  let get := {| method := OtherMethod; authorization := None;
                json := inl (JS.lit "no body") |} in
  db (fst (handler get (env0 (Some gil)) world0)) = db world0
  /\ snd (handler get (env0 (Some gil)) world0)
     = Returned (error_response (JS.lit "Missing authorization header")).
Proof.
  cbv zeta.
  destruct (@only_post_updates
              {| method := OtherMethod; authorization := None;
                 json := inl (JS.lit "no body") |}
              (env0 (Some gil)) world0 ltac:(discriminate))
    as (Hdb & _ & _ & Hres & _).
  split; [exact Hdb | exact Hres].
Defined.

Lemma apply_update_twice (d : UpdateData) (r : requests.Row) :
  apply_update d (apply_update d r) = apply_update d r.
Proof.
  unfold apply_update. cbn. destruct (upd_rejection_reason d); reflexivity.
Qed.

Lemma update_rows_twice (d : UpdateData) (rid : jsstring) (rows : list requests.Row) :
  update_rows d rid (update_rows d rid rows) = update_rows d rid rows.
Proof.
  unfold update_rows. rewrite map_map. apply map_ext. intros r.
  destruct (has_id rid r) eqn:E.
  - now rewrite has_id_apply_update, E, apply_update_twice.
  - now rewrite E.
Qed.

Lemma apply_update_content (d : UpdateData) (r : requests.Row) :
  same_content r (apply_update d r).
Proof. unfold same_content. cbn. repeat split. Qed.

Lemma same_content_refl (r : requests.Row) : same_content r r.
Proof. unfold same_content. repeat split. Qed.

(** X3. Serving the same request a second time changes nothing more:
    the data store after two calls is the data store after one, and
    the second answer is the first. *)
Theorem handler_idempotent (req : HttpRequest) (e : Env) (w : World) :
  let w1 := fst (handler req e w) in
  db (fst (handler req e w1)) = db w1
  /\ snd (handler req e w1) = snd (handler req e w).
Proof.
  cbv zeta.
  destruct (handler_cases req e w)
    as [(Hm & H) | [(Hm & Hauth & H) | [(Hm & Hauth & H) | [(msg & Hm & Hauth & Hj & H)
       | [(body & msg & Hm & Hauth & Hj & Hf & H)
       | (body & r & Hm & Hauth & Hj & Hs & H)]]]]];
    rewrite H; cbn [fst snd]; destruct req as [m auth j];
    cbn [method authorization json] in *; subst.
  - split; reflexivity.
  - rewrite handler_refusal; auto.
  - rewrite handler_method_not_allowed; auto.
  - rewrite handler_unreadable_body; auto.
  - rewrite (handler_update_failure auth body e (world_after_failure e w body) msg Hauth Hf).
    split; reflexivity.
  - assert (Hs' : update_succeeds e (world_after_success e w body) body r).
    { destruct Hs as [Hfault Hone]. split; [exact Hfault |].
      unfold updated_rows in *. cbn [world_after_success db requests_tbl].
      unfold updated_rows. now rewrite update_rows_twice. }
    rewrite (handler_success auth body e _ r Hauth Hs'). cbn [fst snd].
    split; [| reflexivity].
    cbn [world_after_success db requests_tbl users_tbl]. unfold updated_rows.
    cbn [world_after_success db requests_tbl]. unfold updated_rows.
    now rewrite update_rows_twice.
Qed.

(** X4. A transition writes the status, the time and possibly the
    reason, and nothing else: whatever the call, every stored request
    keeps its identifier, owner, type, description, amount, approver,
    creation and modification time, polo, attachments and dependents,
    and no request is added, removed or moved. *)
Theorem handler_keeps_content (req : HttpRequest) (e : Env) (w : World) :
  Forall2
    (fun r r' =>
       requests.id r' = requests.id r
       /\ requests.user_id r' = requests.user_id r
       /\ requests.type r' = requests.type r
       /\ requests.description r' = requests.description r
       /\ requests.amount r' = requests.amount r
       /\ requests.approved_by r' = requests.approved_by r
       /\ requests.created_at r' = requests.created_at r
       /\ requests.updated_at r' = requests.updated_at r
       /\ requests.polo r' = requests.polo r
       /\ requests.attachments r' = requests.attachments r
       /\ requests.dependents r' = requests.dependents r)
    (requests_tbl (db w))
    (requests_tbl (db (fst (handler req e w)))).
Proof.
  change (Forall2 same_content (requests_tbl (db w))
            (requests_tbl (db (fst (handler req e w))))).
  destruct (handler_db req e w) as [-> | (body & _ & ->)].
  - induction (requests_tbl (db w)); constructor; auto using same_content_refl.
  - cbn [db requests_tbl]. unfold updated_rows, update_rows.
    induction (requests_tbl (db w)) as [| r rows IH]; cbn [map]; constructor; auto.
    destruct (has_id (requestId body) r);
      [apply apply_update_content | apply same_content_refl].
Qed.

(** X5. A successful rejection that carries a non-empty reason stores
    that reason with status 'rejected' and writes the time of the
    decision into [approved_at], the column approvals use; the row
    returned to the caller is the stored row. *)
Theorem rejection_stores_reason (auth : option jsstring) (body : UpdateRequestBody)
  (reason : jsstring) (e : Env) (w : World) (r : requests.Row)
  (Hauth : JS.truthy_opt auth = true)
  (Hrejected : status body = to_rejected)
  (Hreason : rejectionReason body = Some reason)
  (Hnonempty : reason <> [])
  (Hupdate : update_succeeds e w body r) :
  let out := handler {| method := POST; authorization := auth; json := inr body |} e w in
  snd out = Returned {| resp_status := 200;
                        resp_body := BodySuccess (Some r) (success_message body) |}
  /\ In r (requests_tbl (db (fst out)))
  /\ requests.id r = requestId body
  /\ requests.status r = rejected
  /\ requests.rejection_reason r = Some reason
  /\ requests.approved_at r = Some (now e).
Proof.
  cbv zeta. rewrite (handler_success _ _ _ _ _ Hauth Hupdate). cbn [fst snd].
  destruct (update_succeeds_inv e w body r Hupdate) as (r0 & _ & _ & Hid & -> & Hin).
  split; [reflexivity |]. split; [exact Hin |].
  split; [exact Hid |].
  cbn. rewrite Hrejected, Hreason. cbn.
  destruct reason; [congruence |]. repeat split.
Qed.

Lemma rejection_stores_reason_witness :
  let out := handler (post bearer "r1" to_rejected (Some (JS.lit "sem nota fiscal")))
               (env0 (Some gil)) world0 in
  stored_status "r1" (fst out) = Some rejected
  /\ stored_reason "r1" (fst out) = Some (Some (JS.lit "sem nota fiscal"))
  /\ exists r, In r (requests_tbl (db (fst out)))
               /\ requests.rejection_reason r = Some (JS.lit "sem nota fiscal")
               /\ requests.approved_at r = Some 1000%N.
Proof.
  cbv zeta. split; [reflexivity |]. split; [reflexivity |].
  destruct (@rejection_stores_reason bearer
              {| requestId := JS.lit "r1"; status := to_rejected;
                 rejectionReason := Some (JS.lit "sem nota fiscal") |}
              (JS.lit "sem nota fiscal") (env0 (Some gil)) world0
              (apply_update
                 {| upd_status := rejected; upd_approved_at := 1000%N;
                    upd_rejection_reason := Some (JS.lit "sem nota fiscal") |} r1)
              eq_refl eq_refl eq_refl ltac:(discriminate) (conj eq_refl eq_refl))
    as (_ & Hin & _ & _ & Hreason & Hat).
  eexists. split; [exact Hin |]. split; [exact Hreason | exact Hat].
Defined.

(** X6. The notifier is called at most once per call, and only after
    an update that succeeded: a call that is refused, that fails, or
    that is not a POST sends no notification.  When it is called it
    gets the identifier, the decision and the reason exactly as the
    body gave them. *)
Theorem notifier_called_once_on_success (req : HttpRequest) (e : Env) (w : World) :
  exists resp,
    snd (handler req e w) = Returned resp
    /\ filter is_notify (trace (fst (handler req e w)))
       = filter is_notify (trace w)
           ++ match json req with
              | inr body =>
                  if is_success resp
                  then [EvNotify (requestId body) (status_of (status body))
                          (rejectionReason body)]
                  else []
              | inl _ => []
              end
    /\ (is_success resp = true ->
        exists body r,
          json req = inr body /\ update_succeeds e w body r
          /\ In r (requests_tbl (db (fst (handler req e w))))).
Proof.
  destruct (handler_cases req e w)
    as [(Hm & H) | [(Hm & Hauth & H) | [(Hm & Hauth & H) | [(msg & Hm & Hauth & Hj & H)
       | [(body & msg & Hm & Hauth & Hj & Hf & H)
       | (body & r & Hm & Hauth & Hj & Hs & H)]]]]];
    rewrite H; cbn [fst snd]; eexists; (split; [reflexivity |]);
    unfold is_success; cbn [resp_body preflight_response error_response
                            method_not_allowed world_after_refusal
                            world_after_method world_after_failure
                            world_after_success trace].
  - split; [| discriminate]. destruct (json req); now rewrite app_nil_r.
  - split; [| discriminate]. rewrite filter_app. cbn. destruct (json req); reflexivity.
  - split; [| discriminate]. rewrite filter_app. cbn. destruct (json req); reflexivity.
  - split; [| discriminate]. rewrite filter_app, Hj. reflexivity.
  - split; [| discriminate]. rewrite filter_app, Hj. reflexivity.
  - split.
    + rewrite filter_app, Hj. cbn. destruct (notify_throws e); reflexivity.
    + intros _. exists body, r. split; [exact Hj |]. split; [exact Hs |].
      destruct (update_succeeds_inv e w body r Hs) as (r0 & _ & _ & _ & _ & Hin).
      exact Hin.
Qed.

(** X30. After an update that succeeded, nothing the notification
    does reaches the answer or the data store: whether the call
    throws, resolves with an error or resolves without one, the
    handler answers 200 with the updated row and the update is stored.
    Only the last line of the log differs: a failure the call throws
    is caught and logged as 'Failed to send email notification:'; a
    call that resolves is logged as 'Email notification sent', also
    when it resolves with an error. *)
Theorem notification_never_alters_result (auth : option jsstring)
  (body : UpdateRequestBody) (e : Env) (w : World) (r : requests.Row)
  (Hauth : JS.truthy_opt auth = true)
  (Hupdate : update_succeeds e w body r) :
  forall throws error : option jsstring,
    let out := handler (post_of auth body) (with_notification throws error e) w in
    snd out
    = Returned {| resp_status := 200;
                  resp_body := BodySuccess (Some r) (success_message body) |}
    /\ requests_tbl (db (fst out)) = updated_rows e w body
    /\ In r (requests_tbl (db (fst out)))
    /\ users_tbl (db (fst out)) = users_tbl (db w)
    /\ trace (fst out)
       = trace w ++
         [ log_of "Auth header:"; log_of "Request data:";
           log_of "Updating request with data:";
           EvUpdate ServiceRole (requestId body) (updateData_of e body);
           log_of "Request updated successfully:";
           EvNotify (requestId body) (status_of (status body)) (rejectionReason body);
           match throws with
           | Some _ => error_of "Failed to send email notification:"
           | None => log_of "Email notification sent"
           end ].
Proof.
  intros throws error. cbv zeta. unfold post_of.
  assert (Hupdate' : update_succeeds (with_notification throws error e) w body r)
    by exact Hupdate.
  rewrite (handler_success _ _ _ _ _ Hauth Hupdate').
  cbn [fst snd]. unfold world_after_success.
  cbn [db trace requests_tbl users_tbl with_notification notify_throws].
  destruct (update_succeeds_inv e w body r Hupdate) as (r0 & _ & _ & _ & _ & Hin).
  split; [reflexivity |]. split; [reflexivity |]. split; [exact Hin |].
  split; [reflexivity |].
  destruct throws; reflexivity.
Qed.

Lemma notification_never_alters_result_witness :
  let req := post bearer "r1" to_rejected (Some (JS.lit "fora do prazo")) in
  stored_status "r1" (fst (handler req smtp_down world0)) = Some rejected
  /\ (exists data msg,
        snd (handler req smtp_down world0)
        = Returned {| resp_status := 200; resp_body := BodySuccess data msg |})
  /\ In (error_of "Failed to send email notification:")
       (trace (fst (handler req smtp_down world0)))
  /\ snd (handler req mail_refused world0) = snd (handler req smtp_down world0)
  /\ db (fst (handler req mail_refused world0)) = db (fst (handler req smtp_down world0)).
Proof.
  cbv zeta.
  destruct (@notification_never_alters_result bearer
              {| requestId := JS.lit "r1"; status := to_rejected;
                 rejectionReason := Some (JS.lit "fora do prazo") |}
              (env0 (Some gil)) world0
              (apply_update
                 {| upd_status := rejected; upd_approved_at := 1000%N;
                    upd_rejection_reason := Some (JS.lit "fora do prazo") |} r1)
              eq_refl (conj eq_refl eq_refl) (Some (JS.lit "smtp down")) None)
    as (Hres & _ & _ & _ & Htrace).
  split; [reflexivity |].
  split; [eexists; eexists; exact Hres |].
  split; [| split; reflexivity].
  unfold smtp_down, post. change (post_of ?a ?b) with
    {| method := POST; authorization := a; json := inr b |} in Htrace.
  rewrite Htrace. apply in_or_app. right. cbn. tauto.
Defined.

End HandlerMore.

(* ------------------------------------------------------------------ *)
(** ** More about the hook *)

Module HookMore.
Import RequestManagement HandlerSpec HandlerFacts HandlerMoreSpec UseRequests.
Import ListingSpec Listing HookSpec Sample WorkflowSpec.

Lemma fetchRequests_fault (e : Env) (w : World) (p : users.Row) (msg : jsstring) :
  profile e = Some p ->
  db_fault e = Some msg ->
  fetchRequests e w = (world_fetch_failed msg p w, Returned tt).
Proof.
  intros Hp Hdb. unfold fetchRequests, db_select_requests.
  unfold setLoading, setRequests, setError.
  run_step. rewrite Hp. run_step. rewrite Hdb. run_step.
  unfold world_fetch_failed, owner_filter, set_hook, error_of.
  cbn [db trace hook dash form hs_requests hs_loading hs_error].
  rewrite <- !app_assoc. destruct (users.role p); reflexivity.
Qed.

Lemma bearer_truthy (token : jsstring) :
  JS.truthy_opt (@Some jsstring (JS.lit "Bearer " ++ token)) = true.
Proof. reflexivity. Qed.

Lemma updateRequestStatus_signed_out (requestId : jsstring) (st : target_status)
  (reason : option jsstring) (e : Env) (w : World) :
  session e = None ->
  updateRequestStatus requestId st reason e w
  = (world_signed_out w, Thrown (JS.lit "User not authenticated")).
Proof.
  intros Hs. unfold updateRequestStatus. run_step. rewrite Hs. run_step.
  unfold world_signed_out, add_events, log_of, error_of.
  rewrite <- !app_assoc. reflexivity.
Qed.

Lemma updateRequestStatus_refused (requestId : jsstring) (st : target_status)
  (reason : option jsstring) (e : Env) (w : World) (token msg : jsstring) :
  session e = Some token ->
  update_fails e w (body_of requestId st reason) msg ->
  updateRequestStatus requestId st reason e w
  = (world_update_refused e w (body_of requestId st reason), Thrown non_2xx).
Proof.
  intros Hs Hf. unfold updateRequestStatus, invoke_request_management.
  run_step. rewrite Hs. run_step.
  fold (body_of requestId st reason).
  assert (Hf' : update_fails e (started w) (body_of requestId st reason) msg) by exact Hf.
  change {| db := db w;
            trace := trace w ++ [EvConsole Log (JS.lit "Updating request status:")];
            hook := hook w; dash := dash w; form := form w |} with (started w).
  rewrite (handler_update_failure _ _ _ _ _ (bearer_truthy token) Hf').
  cbn [resp_status error_response].
  change ((200 <=? 500)%N && (500 <? 300)%N) with false. cbv iota.
  run_step. change (JS.truthy non_2xx) with true. cbv iota.
  unfold world_update_refused, add_events, error_of.
  cbn [db trace hook dash form world_after_failure].
  rewrite <- !app_assoc. reflexivity.
Qed.

Lemma updateRequestStatus_ok (requestId : jsstring) (st : target_status)
  (reason : option jsstring) (e : Env) (w : World) (token : jsstring)
  (p : users.Row) (r : requests.Row) :
  session e = Some token ->
  profile e = Some p ->
  update_succeeds e w (body_of requestId st reason) r ->
  updateRequestStatus requestId st reason e w
  = (world_decided e w (body_of requestId st reason) p, Returned tt).
Proof.
  intros Hs Hp Hu. unfold updateRequestStatus, invoke_request_management.
  run_step. rewrite Hs. run_step.
  fold (body_of requestId st reason).
  assert (Hu' : update_succeeds e (started w) (body_of requestId st reason) r) by exact Hu.
  change {| db := db w;
            trace := trace w ++ [EvConsole Log (JS.lit "Updating request status:")];
            hook := hook w; dash := dash w; form := form w |} with (started w).
  rewrite (handler_success _ _ _ _ _ (bearer_truthy token) Hu').
  cbn [resp_status].
  change ((200 <=? 200)%N && (200 <? 300)%N) with true. cbv iota.
  run_step. unfold world_decided.
  destruct (db_fault e) as [msg |] eqn:Hdb.
  - rewrite (fetchRequests_fault e _ p msg Hp Hdb). reflexivity.
  - rewrite (fetchRequests_ok e _ p Hp Hdb). reflexivity.
Qed.

Lemma listed_after_update (requestId : jsstring) (st : target_status)
  (reason : option jsstring) (e : Env) (w : World) (p : users.Row) (rq : Request) :
  In rq (hs_requests (hook (world_updated e w (body_of requestId st reason) p))) ->
  requests.id (row rq) = requestId ->
  requests.status (row rq) = status_of st.
Proof.
  unfold world_updated, world_after_fetch.
  cbn [db hook hs_requests world_after_success add_events requests_tbl users_tbl started].
  intros Hin Hid.
  apply (in_map row) in Hin. rewrite map_row_transform_join in Hin.
  apply (Permutation_in _ (Permutation_sym (order_desc_perm _))) in Hin.
  assert (Hin' : In (row rq) (updated_rows e w (body_of requestId st reason))).
  { revert Hin. unfold visible_rows. destruct (users.role p); [| auto].
    intros Hin. now apply filter_In in Hin. }
  unfold updated_rows, update_rows in Hin'. apply in_map_iff in Hin'.
  destruct Hin' as (r0 & Hr0 & _).
  destruct (has_id (RequestManagement.requestId (body_of requestId st reason)) r0) eqn:E.
  - rewrite <- Hr0. reflexivity.
  - subst r0. unfold has_id in E. cbn in E. apply JSFacts.eqb_neq in E. contradiction.
Qed.

(** X7. Without a session [updateRequestStatus] throws
    'User not authenticated' before anything is sent: no update is
    issued, and the data store and the list of the hook stay as they
    are. *)
Theorem updateRequestStatus_needs_session (requestId : jsstring) (st : target_status)
  (reason : option jsstring) (e : Env) (w : World)
  (Hsession : session e = None) :
  let w' := fst (updateRequestStatus requestId st reason e w) in
  snd (updateRequestStatus requestId st reason e w)
  = Thrown (JS.lit "User not authenticated")
  /\ db w' = db w
  /\ hook w' = hook w
  /\ filter is_update (trace w') = filter is_update (trace w).
Proof.
  cbv zeta. rewrite (updateRequestStatus_signed_out _ _ _ _ _ Hsession).
  cbn [fst snd]. repeat split.
  unfold world_signed_out, add_events. cbn [trace].
  rewrite filter_app. cbn. apply app_nil_r.
Qed.

Lemma updateRequestStatus_needs_session_witness :
  snd (updateRequestStatus (JS.lit "r1") to_approved None (env0 None) world0)
  = Thrown (JS.lit "User not authenticated")
  /\ db (fst (updateRequestStatus (JS.lit "r1") to_approved None (env0 None) world0))
     = db0.
Proof.
  destruct (updateRequestStatus_needs_session (JS.lit "r1") to_approved None
              (env0 None) world0 eq_refl) as (Hres & Hdb & _).
  split; [exact Hres | exact Hdb].
Defined.

(** X8. When the update of a signed-in user succeeds,
    [updateRequestStatus] returns with the data store updated and the
    hook no longer loading, whether or not the list can be fetched
    again.  The update is made by the edge function and the list is
    fetched by the browser, and each query is answered on its own.
    When the query of the browser is answered, the list is a
    rearrangement of the rows the viewer may see in the updated table,
    so the request shows its new status, and the hook is not in error.
    When it is refused, the list is left as it was before the
    decision, and the hook is in error with the message of the data
    store. *)
Theorem updateRequestStatus_refreshes (requestId : jsstring) (st : target_status)
  (reason : option jsstring) (e : Env) (w : World) (token : jsstring)
  (p : users.Row) (r : requests.Row)
  (Hsession : session e = Some token)
  (Hviewer : profile e = Some p)
  (Hupdate : update_succeeds e w (body_of requestId st reason) r) :
  let w' := fst (updateRequestStatus requestId st reason e w) in
  snd (updateRequestStatus requestId st reason e w) = Returned tt
  /\ requests_tbl (db w') = updated_rows e w (body_of requestId st reason)
  /\ hs_loading (hook w') = false
  /\ (db_fault e = None ->
        Permutation (map row (hs_requests (hook w')))
          (visible_rows p (requests_tbl (db w')))
        /\ (forall rq, In rq (hs_requests (hook w')) ->
                       requests.id (row rq) = requestId ->
                       requests.status (row rq) = status_of st)
        /\ hs_error (hook w') = None)
  /\ (forall msg, db_fault e = Some msg ->
        hs_requests (hook w') = hs_requests (hook w)
        /\ hs_error (hook w') = Some msg).
Proof.
  cbv zeta.
  rewrite (updateRequestStatus_ok _ _ _ _ _ _ _ _ Hsession Hviewer Hupdate).
  cbn [fst snd]. unfold world_decided.
  destruct (db_fault e) as [msg |] eqn:Hdb.
  - split; [reflexivity |]. split; [reflexivity |]. split; [reflexivity |].
    split; [discriminate |].
    intros msg' Hmsg. injection Hmsg as <-. split; reflexivity.
  - split; [reflexivity |]. split; [reflexivity |]. split; [reflexivity |].
    split; [| discriminate].
    intros _. split; [| split; [| reflexivity]].
    + unfold world_updated, world_after_fetch.
      cbn [db hook hs_requests world_after_success add_events requests_tbl
           users_tbl started].
      rewrite map_row_transform_join. symmetry. apply order_desc_perm.
    + intros rq Hin Hid. exact (listed_after_update _ _ _ _ _ _ _ Hin Hid).
Qed.

Lemma updateRequestStatus_refreshes_witness :
  let w' := fst (updateRequestStatus (JS.lit "r1") to_approved None
                   (env0 (Some gil)) world0) in
  map (fun rq => (requests.id (row rq), requests.status (row rq)))
    (hs_requests (hook w'))
  = [(JS.lit "r2", approved); (JS.lit "r3", rejected); (JS.lit "r1", approved)]
  /\ Permutation (map row (hs_requests (hook w'))) (requests_tbl (db w'))
  /\ (let stale := fst (updateRequestStatus (JS.lit "r1") to_approved None
                          browser_cut_off world0) in
      stored_status "r1" stale = Some approved
      /\ hs_requests (hook stale) = []
      /\ hs_error (hook stale) = Some (JS.lit "connection refused")).
Proof.
  cbv zeta. split; [reflexivity |]. split.
  - destruct (@updateRequestStatus_refreshes (JS.lit "r1") to_approved None
                (env0 (Some gil)) world0 (JS.lit "jwt") gil
                (apply_update {| upd_status := approved; upd_approved_at := 1000%N;
                                 upd_rejection_reason := None |} r1)
                eq_refl eq_refl (conj eq_refl eq_refl))
      as (_ & _ & _ & Hanswered & _).
    exact (proj1 (Hanswered eq_refl)).
  - split; [reflexivity |].
    destruct (@updateRequestStatus_refreshes (JS.lit "r1") to_approved None
                browser_cut_off world0 (JS.lit "jwt") gil
                (apply_update {| upd_status := approved; upd_approved_at := 1000%N;
                                 upd_rejection_reason := None |} r1)
                eq_refl eq_refl (conj eq_refl eq_refl))
      as (_ & _ & _ & _ & Hrefused).
    exact (Hrefused (JS.lit "connection refused") eq_refl).
Defined.

(** X9. When the edge function answers an error, [updateRequestStatus]
    throws the generic message of a non-2xx answer, not the message of
    the function; the data store is unchanged and the list is not
    fetched again. *)
Theorem updateRequestStatus_failure (requestId : jsstring) (st : target_status)
  (reason : option jsstring) (e : Env) (w : World) (token msg : jsstring)
  (Hsession : session e = Some token)
  (Hfails : update_fails e w (body_of requestId st reason) msg) :
  let w' := fst (updateRequestStatus requestId st reason e w) in
  snd (updateRequestStatus requestId st reason e w)
  = Thrown (JS.lit "Edge Function returned a non-2xx status code")
  /\ db w' = db w
  /\ hook w' = hook w
  /\ filter (fun ev => match ev with EvSelect _ _ => true | _ => false end) (trace w')
     = filter (fun ev => match ev with EvSelect _ _ => true | _ => false end) (trace w).
Proof.
  cbv zeta. rewrite (updateRequestStatus_refused _ _ _ _ _ _ _ Hsession Hfails).
  cbn [fst snd]. repeat split.
  cbn [trace world_update_refused add_events world_after_failure started].
  rewrite !filter_app. cbn. now rewrite !app_nil_r.
Qed.

Lemma updateRequestStatus_failure_witness :
  snd (updateRequestStatus (JS.lit "missing") to_approved None (env0 (Some gil)) world0)
  = Thrown (JS.lit "Edge Function returned a non-2xx status code")
  /\ db (fst (updateRequestStatus (JS.lit "missing") to_approved None
                (env0 (Some gil)) world0)) = db0.
Proof.
  destruct (@updateRequestStatus_failure (JS.lit "missing") to_approved None
              (env0 (Some gil)) world0 (JS.lit "jwt") single_error eq_refl
              (or_intror (conj eq_refl (conj eq_refl
                 (fun r (H : [] = [r]) => nil_cons H)))))
    as (Hres & Hdb & _).
  split; [exact Hres | exact Hdb].
Defined.

(** X10. For a signed-in viewer [fetchRequests] never throws and never
    writes to the data store, and it always ends with [loading] false.
    The error of the hook is the error of the query, if any; when the
    query fails the list fetched before is kept and the failure is
    logged. *)
Theorem fetchRequests_settles (e : Env) (w : World) (p : users.Row)
  (Hviewer : profile e = Some p) :
  let w' := fst (fetchRequests e w) in
  snd (fetchRequests e w) = Returned tt
  /\ db w' = db w
  /\ hs_loading (hook w') = false
  /\ hs_error (hook w') = db_fault e
  /\ (forall msg, db_fault e = Some msg ->
        hs_requests (hook w') = hs_requests (hook w)
        /\ trace w' = trace w ++ [EvSelect UserSession (owner_filter p);
                                  error_of "Error fetching requests:"]).
Proof.
  cbv zeta. destruct (db_fault e) as [msg |] eqn:Hdb.
  - rewrite (fetchRequests_fault e w p msg Hviewer Hdb). cbn [fst snd].
    repeat split; congruence.
  - rewrite (fetchRequests_ok e w p Hviewer Hdb). cbn [fst snd].
    repeat split; congruence.
Qed.

Lemma fetchRequests_settles_witness :
  let w' := fst (fetchRequests store_down world0) in
  hs_error (hook w') = Some (JS.lit "connection refused")
  /\ hs_loading (hook w') = false
  /\ hs_requests (hook w') = hs_requests (hook world0).
Proof.
  cbv zeta.
  destruct (fetchRequests_settles store_down world0 ana eq_refl)
    as (_ & _ & Hload & Herr & Hkeep).
  split; [exact Herr |]. split; [exact Hload |].
  exact (proj1 (Hkeep _ eq_refl)).
Defined.

Lemma createRequest_ok (d : RequestData) (e : Env) (w : World) (p : users.Row) :
  profile e = Some p ->
  db_fault e = None ->
  createRequest d e w
  = (world_after_fetch p
       {| db := {| requests_tbl :=
                     requests_tbl (db w) ++ [inserted_row e (insert_of p d)];
                   users_tbl := users_tbl (db w) |};
          trace := trace w ++ [EvInsert UserSession (insert_of p d)];
          hook := hook w; dash := dash w; form := form w |},
     Returned (Some (inserted_row e (insert_of p d)))).
Proof.
  intros Hp Hdb. unfold createRequest, db_insert_single.
  run_step. rewrite Hp. run_step. rewrite Hdb. run_step.
  fold (insert_of p d).
  rewrite (fetchRequests_ok e _ p Hp Hdb). reflexivity.
Qed.

(** X11. For a signed-in user and a data store that answers,
    [createRequest] adds exactly one row after the existing ones and
    returns it.  The row is pending and belongs to the signed-in user
    whatever the data passed, it carries the given type, description,
    amount, polo, dependents and attachments, and it is in the list
    the hook shows afterwards. *)
Theorem createRequest_creates_pending (d : RequestData) (e : Env) (w : World)
  (p : users.Row)
  (Hviewer : profile e = Some p)
  (Hstore : db_fault e = None) :
  let w' := fst (createRequest d e w) in
  exists created,
    snd (createRequest d e w) = Returned (Some created)
    /\ requests_tbl (db w') = requests_tbl (db w) ++ [created]
    /\ requests.status created = pending
    /\ requests.user_id created = users.id p
    /\ requests.rejection_reason created = None
    /\ requests.approved_at created = None
    /\ requests.type created = rd_type d
    /\ requests.description created = rd_description d
    /\ requests.amount created = rd_amount d
    /\ requests.polo created = Some (rd_polo d)
    /\ requests.attachments created = Some (rd_attachments d)
    /\ requests.dependents created = JsonArray (rd_dependents d)
    /\ (exists rq, In rq (hs_requests (hook w')) /\ row rq = created
                   /\ req_dependents rq = rd_dependents d).
Proof.
  cbv zeta. rewrite (createRequest_ok d e w p Hviewer Hstore). cbn [fst snd].
  exists (inserted_row e (insert_of p d)).
  do 12 (split; [reflexivity |]).
  unfold world_after_fetch. cbn [hook hs_requests db requests_tbl users_tbl].
  set (rows := requests_tbl (db w) ++ [inserted_row e (insert_of p d)]).
  assert (Hin : In (inserted_row e (insert_of p d)) (order_desc (visible_rows p rows))).
  { apply (Permutation_in _ (order_desc_perm _)).
    unfold visible_rows. destruct (users.role p).
    - apply filter_In. split.
      + apply in_or_app. right. now left.
      + apply JSFacts.eqb_eq. reflexivity.
    - apply in_or_app. right. now left. }
  exists (transform (join (users_tbl (db w)) (inserted_row e (insert_of p d)))).
  split; [| split; reflexivity].
  apply in_map. apply in_map. exact Hin.
Qed.

Lemma createRequest_creates_pending_witness :
  let w' := fst (createRequest sample_data (env0 (Some ana)) world0) in
  map (fun rq => (requests.id (row rq), requests.status (row rq)))
    (hs_requests (hook w'))
  = [(JS.lit "r4", pending); (JS.lit "r3", rejected); (JS.lit "r1", pending)]
  /\ exists created,
       requests_tbl (db w') = requests_tbl db0 ++ [created]
       /\ requests.status created = pending
       /\ requests.user_id created = users.id ana.
Proof.
  cbv zeta. split; [reflexivity |].
  destruct (createRequest_creates_pending sample_data (env0 (Some ana)) world0 ana
              eq_refl eq_refl)
    as (created & _ & Hrows & Hst & Hown & _).
  exists created. split; [exact Hrows |]. split; [exact Hst | exact Hown].
Defined.

(** X12. [createRequest] creates nothing when nobody is signed in or
    when the data store fails: it throws ('User not authenticated', or
    the error of the insert), the data store and the list of the hook
    stay as they are, and signed out not even an insert is sent. *)
Theorem createRequest_refuses (d : RequestData) (e : Env) (w : World)
  (Hcannot : profile e = None \/ db_fault e <> None) :
  let w' := fst (createRequest d e w) in
  (exists msg, snd (createRequest d e w) = Thrown msg
               /\ (profile e = None -> msg = JS.lit "User not authenticated")
               /\ (profile e <> None -> db_fault e = Some msg))
  /\ db w' = db w
  /\ hook w' = hook w
  /\ (profile e = None -> w' = w).
Proof.
  cbv zeta. unfold createRequest, db_insert_single. run_step.
  destruct (profile e) as [p |] eqn:Hp.
  - destruct Hcannot as [Hc | Hc]; [discriminate |].
    run_step. destruct (db_fault e) as [msg |] eqn:Hdb; [| congruence].
    run_step. split; [| repeat split; discriminate].
    exists msg. split; [reflexivity |]. split; [discriminate | reflexivity].
  - split; [| repeat split].
    exists (JS.lit "User not authenticated").
    split; [reflexivity |]. split; [reflexivity | congruence].
Qed.

Lemma createRequest_refuses_witness :
  snd (createRequest sample_data (env0 None) world0)
  = Thrown (JS.lit "User not authenticated")
  /\ fst (createRequest sample_data (env0 None) world0) = world0
  /\ db (fst (createRequest sample_data store_down world0)) = db0.
Proof.
  split; [reflexivity |].
  split.
  - destruct (createRequest_refuses sample_data (env0 None) world0
                (or_introl eq_refl)) as (_ & _ & _ & Hsame).
    exact (Hsame eq_refl).
  - assert (Hdown : db_fault store_down <> None) by discriminate.
    destruct (createRequest_refuses sample_data store_down world0
                (or_intror Hdown)) as (_ & Hdb & _).
    exact Hdb.
Defined.

End HookMore.

(* ------------------------------------------------------------------ *)
(** ** More about the dashboard *)

Module DashboardMore.
Import RequestManagement HandlerSpec HandlerFacts HandlerMoreSpec UseRequests.
Import DashboardGestora ListingSpec Listing HookSpec HookMore DashboardSpec.
Import DashboardMoreSpec DashboardLists Sample WorkflowSpec.

Ltac run_dash :=
  unfold setProcessing, setSelectedRequest, setRejectionReason, set_dash;
  run_step.

Lemma handleApprove_returned (requestId : jsstring) (e : Env) (w w2 : World) :
  updateRequestStatus requestId to_approved None e (processing_world w)
  = (w2, Returned tt) ->
  handleApprove requestId e w
  = ({| db := db w2; trace := trace w2 ++ [EvToast approved_toast];
        hook := hook w2;
        dash := {| selectedRequest := selectedRequest (dash w2);
                   rejectionReason_input := rejectionReason_input (dash w2);
                   processing := false;
                   selectedPolo := selectedPolo (dash w2) |};
        form := form w2 |}, Returned tt).
Proof.
  intros H. unfold handleApprove. run_dash.
  change {| db := db w; trace := trace w; hook := hook w;
            dash := {| selectedRequest := selectedRequest (dash w);
                       rejectionReason_input := rejectionReason_input (dash w);
                       processing := true;
                       selectedPolo := selectedPolo (dash w) |};
            form := form w |} with (processing_world w).
  rewrite H. reflexivity.
Qed.

Lemma handleApprove_thrown (requestId : jsstring) (e : Env) (w w2 : World)
  (message : jsstring) :
  updateRequestStatus requestId to_approved None e (processing_world w)
  = (w2, Thrown message) ->
  handleApprove requestId e w
  = ({| db := db w2; trace := trace w2 ++ [EvToast (approve_error message)];
        hook := hook w2;
        dash := {| selectedRequest := selectedRequest (dash w2);
                   rejectionReason_input := rejectionReason_input (dash w2);
                   processing := false;
                   selectedPolo := selectedPolo (dash w2) |};
        form := form w2 |}, Returned tt).
Proof.
  intros H. unfold handleApprove. run_dash.
  change {| db := db w; trace := trace w; hook := hook w;
            dash := {| selectedRequest := selectedRequest (dash w);
                       rejectionReason_input := rejectionReason_input (dash w);
                       processing := true;
                       selectedPolo := selectedPolo (dash w) |};
            form := form w |} with (processing_world w).
  rewrite H. reflexivity.
Qed.

Lemma updateRequestStatus_cannot (requestId : jsstring) (st : target_status)
  (reason : option jsstring) (e : Env) (w : World) (message : jsstring) :
  cannot_update e w (body_of requestId st reason) message ->
  exists w2,
    updateRequestStatus requestId st reason e w = (w2, Thrown message)
    /\ db w2 = db w /\ hook w2 = hook w /\ dash w2 = dash w /\ form w2 = form w
    /\ filter is_toast (trace w2) = filter is_toast (trace w)
    /\ filter is_update (trace w2) = filter is_update (trace w)
         ++ match session e with
            | Some _ => [EvUpdate ServiceRole requestId
                           (updateData_of e (body_of requestId st reason))]
            | None => []
            end.
Proof.
  intros [(Hs & ->) | (token & msg & Hs & Hf & ->)].
  - exists (world_signed_out w).
    split; [now apply updateRequestStatus_signed_out |].
    rewrite Hs. do 4 (split; [reflexivity |]).
    cbn [trace world_signed_out add_events]. rewrite !filter_app. cbn.
    now rewrite !app_nil_r.
  - exists (world_update_refused e w (body_of requestId st reason)).
    split; [now apply (updateRequestStatus_refused _ _ _ _ _ token msg) |].
    rewrite Hs. do 4 (split; [reflexivity |]).
    cbn [trace world_update_refused add_events world_after_failure started].
    rewrite !filter_app. cbn. rewrite !app_nil_r. split; reflexivity.
Qed.

(** X13. An approval whose update goes through ends with the data
    store updated, [processing] false and the one toast of an
    approval; the request opened in the dialog and the text typed as
    reason are left as they were, so the dialog stays open.  All of
    this holds whether or not the list can be fetched again.  When
    the query of the browser is answered, the list is fetched again
    from the updated table; when it is refused, the list is left as it
    was, the hook is in error, and the toast of an approval is shown
    all the same. *)
Theorem handleApprove_success (requestId : jsstring) (e : Env) (w : World)
  (token : jsstring) (p : users.Row) (r : requests.Row)
  (Hsession : session e = Some token)
  (Hviewer : profile e = Some p)
  (Hupdate : update_succeeds e w (body_of requestId to_approved None) r) :
  let w' := fst (handleApprove requestId e w) in
  snd (handleApprove requestId e w) = Returned tt
  /\ requests_tbl (db w') = updated_rows e w (body_of requestId to_approved None)
  /\ requests.status r = approved /\ In r (requests_tbl (db w'))
  /\ processing (dash w') = false
  /\ selectedRequest (dash w') = selectedRequest (dash w)
  /\ rejectionReason_input (dash w') = rejectionReason_input (dash w)
  /\ filter is_toast (trace w') = filter is_toast (trace w) ++ [EvToast approved_toast]
  /\ (db_fault e = None ->
        Permutation (map row (hs_requests (hook w')))
          (visible_rows p (requests_tbl (db w')))
        /\ hs_error (hook w') = None)
  /\ (forall msg, db_fault e = Some msg ->
        hs_requests (hook w') = hs_requests (hook w)
        /\ hs_error (hook w') = Some msg).
Proof.
  cbv zeta.
  assert (Hu : update_succeeds e (processing_world w)
                 (body_of requestId to_approved None) r) by exact Hupdate.
  rewrite (handleApprove_returned _ _ _ _
             (updateRequestStatus_ok _ _ _ _ _ _ _ _ Hsession Hviewer Hu)).
  cbn [fst snd db trace hook dash processing selectedRequest rejectionReason_input].
  destruct (update_succeeds_inv e w _ r Hupdate) as (r0 & _ & _ & _ & Hr & Hin).
  unfold world_decided.
  destruct (db_fault e) as [msg |] eqn:Hdb;
    unfold world_updated, world_after_fetch, world_fetch_failed;
    cbn [db hook dash trace hs_requests hs_error world_after_success add_events
         started requests_tbl users_tbl processing_world set_dash selectedRequest
         rejectionReason_input];
    (split; [reflexivity |]); (split; [reflexivity |]);
    (split; [rewrite Hr; reflexivity |]); (split; [exact Hin |]);
    do 3 (split; [reflexivity |]);
    (split; [rewrite !filter_app; cbn; destruct (notify_throws e); cbn;
             now rewrite !app_nil_r |]).
  - split; [discriminate |].
    intros msg' Hmsg. injection Hmsg as <-. split; reflexivity.
  - split; [| discriminate].
    intros _. split; [| reflexivity].
    rewrite map_row_transform_join. symmetry. apply order_desc_perm.
Qed.

Lemma handleApprove_success_witness :
  let w' := fst (handleApprove (JS.lit "r1") (env0 (Some gil)) world0) in
  let stale := fst (handleApprove (JS.lit "r1") browser_cut_off world0) in
  stored_status "r1" w' = Some approved
  /\ processing (dash w') = false
  /\ filter is_toast (trace w') = [EvToast approved_toast]
  /\ stored_status "r1" stale = Some approved
  /\ hs_requests (hook stale) = []
  /\ filter is_toast (trace stale) = [EvToast approved_toast].
Proof.
  cbv zeta. split; [reflexivity |].
  destruct (@handleApprove_success (JS.lit "r1") (env0 (Some gil)) world0
              (JS.lit "jwt") gil
              (apply_update {| upd_status := approved; upd_approved_at := 1000%N;
                               upd_rejection_reason := None |} r1)
              eq_refl eq_refl (conj eq_refl eq_refl))
    as (_ & _ & _ & _ & Hproc & _ & _ & Htoast & _).
  split; [exact Hproc |]. split; [exact Htoast |]. split; [reflexivity |].
  destruct (@handleApprove_success (JS.lit "r1") browser_cut_off world0
              (JS.lit "jwt") gil
              (apply_update {| upd_status := approved; upd_approved_at := 1000%N;
                               upd_rejection_reason := None |} r1)
              eq_refl eq_refl (conj eq_refl eq_refl))
    as (_ & _ & _ & _ & _ & _ & _ & Hstale & _ & Hrefused).
  split; [exact (proj1 (Hrefused (JS.lit "connection refused") eq_refl)) | exact Hstale].
Defined.

(** X14. An approval that cannot be carried out, for want of a session
    or because the update fails, does not throw: the data store and
    the list stay as they are, [processing] ends false, and the one
    toast shown is the destructive 'Erro ao aprovar' with the message
    thrown by the hook. *)
Theorem handleApprove_failure (requestId : jsstring) (e : Env) (w : World)
  (message : jsstring)
  (Hcannot : cannot_update e w (body_of requestId to_approved None) message) :
  let w' := fst (handleApprove requestId e w) in
  snd (handleApprove requestId e w) = Returned tt
  /\ db w' = db w
  /\ hook w' = hook w
  /\ processing (dash w') = false
  /\ selectedRequest (dash w') = selectedRequest (dash w)
  /\ filter is_toast (trace w')
     = filter is_toast (trace w) ++ [EvToast (approve_error message)].
Proof.
  cbv zeta.
  assert (Hc : cannot_update e (processing_world w)
                 (body_of requestId to_approved None) message) by exact Hcannot.
  destruct (updateRequestStatus_cannot _ _ _ _ _ _ Hc)
    as (w2 & Hrun & Hdb & Hhook & Hdash & _ & Htoast & _).
  rewrite (handleApprove_thrown _ _ _ _ _ Hrun).
  cbn [fst snd db trace hook dash processing selectedRequest].
  rewrite Hdb, Hhook, Hdash, filter_app, Htoast.
  repeat split.
Qed.

Lemma handleApprove_failure_witness :
  let w' := fst (handleApprove (JS.lit "r1") (env0 None) world0) in
  db w' = db0
  /\ filter is_toast (trace w')
     = [EvToast (approve_error (JS.lit "User not authenticated"))].
Proof.
  cbv zeta.
  destruct (@handleApprove_failure (JS.lit "r1") (env0 None) world0
              (JS.lit "User not authenticated")
              (or_introl (conj eq_refl eq_refl)))
    as (_ & Hdb & _ & _ & _ & Htoast).
  split; [exact Hdb | exact Htoast].
Defined.

Lemma handleReject_returned (requestId reason : jsstring) (e : Env) (w w2 : World) :
  forallb JS.is_white_space reason = false ->
  updateRequestStatus requestId to_rejected (Some reason) e (processing_world w)
  = (w2, Returned tt) ->
  handleReject requestId reason e w
  = ({| db := db w2; trace := trace w2 ++ [EvToast rejected_toast];
        hook := hook w2;
        dash := {| selectedRequest := None; rejectionReason_input := [];
                   processing := false;
                   selectedPolo := selectedPolo (dash w2) |};
        form := form w2 |}, Returned tt).
Proof.
  intros Hb H. unfold handleReject. rewrite JSFacts.truthy_trim, Hb. cbn [negb].
  run_dash.
  change {| db := db w; trace := trace w; hook := hook w;
            dash := {| selectedRequest := selectedRequest (dash w);
                       rejectionReason_input := rejectionReason_input (dash w);
                       processing := true;
                       selectedPolo := selectedPolo (dash w) |};
            form := form w |} with (processing_world w).
  rewrite H. reflexivity.
Qed.

Lemma handleReject_thrown (requestId reason : jsstring) (e : Env) (w w2 : World)
  (message : jsstring) :
  forallb JS.is_white_space reason = false ->
  updateRequestStatus requestId to_rejected (Some reason) e (processing_world w)
  = (w2, Thrown message) ->
  handleReject requestId reason e w
  = ({| db := db w2; trace := trace w2 ++ [EvToast (reject_error message)];
        hook := hook w2;
        dash := {| selectedRequest := selectedRequest (dash w2);
                   rejectionReason_input := rejectionReason_input (dash w2);
                   processing := false;
                   selectedPolo := selectedPolo (dash w2) |};
        form := form w2 |}, Returned tt).
Proof.
  intros Hb H. unfold handleReject. rewrite JSFacts.truthy_trim, Hb. cbn [negb].
  run_dash.
  change {| db := db w; trace := trace w; hook := hook w;
            dash := {| selectedRequest := selectedRequest (dash w);
                       rejectionReason_input := rejectionReason_input (dash w);
                       processing := true;
                       selectedPolo := selectedPolo (dash w) |};
            form := form w |} with (processing_world w).
  rewrite H. reflexivity.
Qed.

(** X15. A rejection with a reason that is not blank, when its update
    goes through, stores status 'rejected' with the reason exactly as
    typed (it is not trimmed), shows the one toast of a rejection,
    closes the dialog by clearing the selected request, empties the
    reason field and ends with [processing] false.  All of this holds
    whether or not the list can be fetched again.  When the query of
    the browser is answered, the list is fetched again from the
    updated table; when it is refused, the list is left as it was and
    the hook is in error. *)
Theorem handleReject_success (requestId reason : jsstring) (e : Env) (w : World)
  (token : jsstring) (p : users.Row) (r : requests.Row)
  (Hreason : forallb JS.is_white_space reason = false)
  (Hsession : session e = Some token)
  (Hviewer : profile e = Some p)
  (Hupdate : update_succeeds e w (body_of requestId to_rejected (Some reason)) r) :
  let w' := fst (handleReject requestId reason e w) in
  snd (handleReject requestId reason e w) = Returned tt
  /\ requests_tbl (db w')
     = updated_rows e w (body_of requestId to_rejected (Some reason))
  /\ In r (requests_tbl (db w'))
  /\ requests.status r = rejected
  /\ requests.rejection_reason r = Some reason
  /\ selectedRequest (dash w') = None
  /\ rejectionReason_input (dash w') = []
  /\ processing (dash w') = false
  /\ filter is_toast (trace w') = filter is_toast (trace w) ++ [EvToast rejected_toast]
  /\ (db_fault e = None ->
        Permutation (map row (hs_requests (hook w')))
          (visible_rows p (requests_tbl (db w')))
        /\ hs_error (hook w') = None)
  /\ (forall msg, db_fault e = Some msg ->
        hs_requests (hook w') = hs_requests (hook w)
        /\ hs_error (hook w') = Some msg).
Proof.
  cbv zeta.
  assert (Hu : update_succeeds e (processing_world w)
                 (body_of requestId to_rejected (Some reason)) r) by exact Hupdate.
  rewrite (handleReject_returned _ _ _ _ _ Hreason
             (updateRequestStatus_ok _ _ _ _ _ _ _ _ Hsession Hviewer Hu)).
  cbn [fst snd db trace hook dash processing selectedRequest rejectionReason_input].
  destruct (update_succeeds_inv e w _ r Hupdate) as (r0 & _ & _ & _ & Hr & Hin).
  assert (Hkept : requests.rejection_reason r = Some reason).
  { rewrite Hr. cbn. destruct reason; [discriminate Hreason | reflexivity]. }
  unfold world_decided.
  destruct (db_fault e) as [msg |] eqn:Hdb;
    unfold world_updated, world_after_fetch, world_fetch_failed;
    cbn [db hook dash trace hs_requests hs_error world_after_success add_events
         started requests_tbl users_tbl processing_world set_dash];
    (split; [reflexivity |]); (split; [reflexivity |]); (split; [exact Hin |]);
    (split; [rewrite Hr; reflexivity |]); (split; [exact Hkept |]);
    do 3 (split; [reflexivity |]);
    (split; [rewrite !filter_app; cbn; destruct (notify_throws e); cbn;
             now rewrite !app_nil_r |]).
  - split; [discriminate |].
    intros msg' Hmsg. injection Hmsg as <-. split; reflexivity.
  - split; [| discriminate].
    intros _. split; [| reflexivity].
    rewrite map_row_transform_join. symmetry. apply order_desc_perm.
Qed.

Lemma handleReject_success_witness :
  let reason := JS.lit " valor acima do teto " in
  let w' := fst (handleReject (JS.lit "r1") reason (env0 (Some gil)) world0) in
  let stale := fst (handleReject (JS.lit "r1") reason browser_cut_off world0) in
  stored_status "r1" w' = Some rejected
  /\ stored_reason "r1" w' = Some (Some reason)
  /\ selectedRequest (dash w') = None
  /\ filter is_toast (trace w') = [EvToast rejected_toast]
  /\ stored_status "r1" stale = Some rejected
  /\ hs_requests (hook stale) = []
  /\ hs_error (hook stale) = Some (JS.lit "connection refused").
Proof.
  cbv zeta. split; [reflexivity |]. split; [reflexivity |].
  destruct (@handleReject_success (JS.lit "r1") (JS.lit " valor acima do teto ")
              (env0 (Some gil)) world0 (JS.lit "jwt") gil
              (apply_update {| upd_status := rejected; upd_approved_at := 1000%N;
                               upd_rejection_reason :=
                                 Some (JS.lit " valor acima do teto ") |} r1)
              eq_refl eq_refl eq_refl (conj eq_refl eq_refl))
    as (_ & _ & _ & _ & _ & Hsel & _ & _ & Htoast & _).
  split; [exact Hsel |]. split; [exact Htoast |]. split; [reflexivity |].
  destruct (@handleReject_success (JS.lit "r1") (JS.lit " valor acima do teto ")
              browser_cut_off world0 (JS.lit "jwt") gil
              (apply_update {| upd_status := rejected; upd_approved_at := 1000%N;
                               upd_rejection_reason :=
                                 Some (JS.lit " valor acima do teto ") |} r1)
              eq_refl eq_refl eq_refl (conj eq_refl eq_refl))
    as (_ & _ & _ & _ & _ & _ & _ & _ & _ & _ & Hrefused).
  exact (Hrefused (JS.lit "connection refused") eq_refl).
Defined.

(** X16. A rejection with a reason that cannot be carried out does not
    throw and changes no record; the dialog stays open with the reason
    still in the field, [processing] ends false, and the one toast is
    the destructive 'Erro ao recusar' with the message thrown by the
    hook. *)
Theorem handleReject_failure (requestId reason : jsstring) (e : Env) (w : World)
  (message : jsstring)
  (Hreason : forallb JS.is_white_space reason = false)
  (Hcannot : cannot_update e w (body_of requestId to_rejected (Some reason)) message) :
  let w' := fst (handleReject requestId reason e w) in
  snd (handleReject requestId reason e w) = Returned tt
  /\ db w' = db w
  /\ hook w' = hook w
  /\ selectedRequest (dash w') = selectedRequest (dash w)
  /\ rejectionReason_input (dash w') = rejectionReason_input (dash w)
  /\ processing (dash w') = false
  /\ filter is_toast (trace w')
     = filter is_toast (trace w) ++ [EvToast (reject_error message)].
Proof.
  cbv zeta.
  assert (Hc : cannot_update e (processing_world w)
                 (body_of requestId to_rejected (Some reason)) message) by exact Hcannot.
  destruct (updateRequestStatus_cannot _ _ _ _ _ _ Hc)
    as (w2 & Hrun & Hdb & Hhook & Hdash & _ & Htoast & _).
  rewrite (handleReject_thrown _ _ _ _ _ _ Hreason Hrun).
  cbn [fst snd db trace hook dash processing selectedRequest rejectionReason_input].
  rewrite Hdb, Hhook, Hdash, filter_app, Htoast.
  repeat split.
Qed.

Lemma handleReject_failure_witness :
  let w' := fst (handleReject (JS.lit "nope") (JS.lit "duplicada")
                   (env0 (Some gil)) world0) in
  db w' = db0
  /\ filter is_toast (trace w') = [EvToast (reject_error non_2xx)].
Proof.
  cbv zeta.
  assert (Hf : update_fails (env0 (Some gil)) world0
                 (body_of (JS.lit "nope") to_rejected (Some (JS.lit "duplicada")))
                 single_error).
  { right. split; [reflexivity |]. split; [reflexivity |]. intros r. discriminate. }
  destruct (@handleReject_failure (JS.lit "nope") (JS.lit "duplicada")
              (env0 (Some gil)) world0 non_2xx eq_refl
              (or_intror (ex_intro _ (JS.lit "jwt")
                            (ex_intro _ single_error
                               (conj eq_refl (conj Hf eq_refl))))))
    as (_ & Hdb & _ & _ & _ & _ & Htoast).
  split; [exact Hdb | exact Htoast].
Defined.

End DashboardMore.

(* ------------------------------------------------------------------ *)
(** ** The lists of the dashboard *)

Module ListsMore.
Import DashboardGestora DashboardLists BranchSpec Branches.

Lemma filter_split {A} (f : A -> bool) (l : list A) :
  Permutation l (filter f l ++ filter (fun x => negb (f x)) l).
Proof.
  induction l as [| a l IH]; [reflexivity |].
  cbn [filter]. destruct (f a); cbn [negb app].
  - now apply perm_skip.
  - now apply Permutation_cons_app.
Qed.

(** X17. The two columns of the dashboard split the requests: every
    request is either pending or processed, never both, so the columns
    together are a rearrangement of the list, and the three counters
    (pending, approved, rejected) add up to the number of requests. *)
Theorem dashboard_columns_split (requests : list Request) :
  Permutation requests (pendingRequests requests ++ processedRequests requests)
  /\ (forall r, In r (pendingRequests requests) -> In r (processedRequests requests)
                -> False)
  /\ (forall r, In r (processedRequests requests)
                <-> In r requests /\ requests.status (row r) <> pending)
  /\ (pendingCount requests + approvedCount requests + rejectedCount requests
      = List.length requests)%nat
  /\ (List.length (processedRequests requests)
      = approvedCount requests + rejectedCount requests)%nat.
Proof.
  split; [apply filter_split |].
  split.
  { intros r H1 H2. apply filter_In in H1. apply filter_In in H2.
    destruct H1 as [_ H1], H2 as [_ H2]. rewrite H1 in H2. discriminate. }
  split.
  { intros r. unfold processedRequests. rewrite filter_In. unfold status_is.
    destruct (requests.status (row r)); cbn; split; intros [H1 H2];
      split; auto; congruence. }
  unfold pendingCount, approvedCount, rejectedCount, pendingRequests, processedRequests.
  induction requests as [| a l [IH1 IH2]]; [split; reflexivity |].
  cbn [filter].
  destruct (status_is pending a) eqn:P, (status_is approved a) eqn:A,
    (status_is rejected a) eqn:R;
    unfold status_is in P, A, R; destruct (requests.status (row a));
    try discriminate; cbn [negb List.length]; split; lia.
Qed.

Lemma users_polo_is_unknown (sel : jsstring) (r : Request) :
  (forall p, sel <> polo_name p) -> users_polo_is sel r = false.
Proof.
  intros H. unfold users_polo_is.
  destruct (req_users r) as [u |]; [| reflexivity].
  destruct (ui_polo u) as [p |]; [| reflexivity].
  apply JSFacts.eqb_neq. intros E. apply (H p). now symmetry.
Qed.

Lemma filter_filter {A} (f g : A -> bool) (l : list A) :
  filter f (filter g l) = filter (fun x => g x && f x) l.
Proof.
  induction l as [| a l IH]; [reflexivity |].
  cbn [filter]. destruct (g a); cbn [andb filter]; [destruct (f a) |]; now rewrite IH.
Qed.

(** X18. Filtering by tab composes freely with the status columns and
    with itself: it may be applied before or after the split into
    pending and processed, and applying it twice is applying it once.
    The tabs of two different branches have no request in common, and
    a tab name that is neither 'todos' nor a branch shows nothing. *)
Theorem filterByPolo_composes (selectedPolo : jsstring) (requests : list Request) :
  filterByPolo selectedPolo (pendingRequests requests)
  = pendingRequests (filterByPolo selectedPolo requests)
  /\ filterByPolo selectedPolo (processedRequests requests)
     = processedRequests (filterByPolo selectedPolo requests)
  /\ filterByPolo selectedPolo (filterByPolo selectedPolo requests)
     = filterByPolo selectedPolo requests
  /\ (forall p q, p <> q ->
        filterByPolo (polo_name p) (filterByPolo (polo_name q) requests) = [])
  /\ (selectedPolo <> JS.lit "todos" ->
      (forall p, selectedPolo <> polo_name p) ->
      filterByPolo selectedPolo requests = []).
Proof.
  assert (Hdisjoint : forall p q, p <> q ->
            filterByPolo (polo_name p) (filterByPolo (polo_name q) requests) = []).
  { intros p q Hpq. rewrite !filterByPolo_branch, filter_filter.
    induction requests as [| a l IH]; [reflexivity |].
    cbn [filter]. rewrite IH.
    destruct (owner_is q a) eqn:Eq, (owner_is p a) eqn:Ep; try reflexivity.
    apply owner_is_iff in Eq. apply owner_is_iff in Ep. congruence. }
  split; [| split; [| split; [| split; [exact Hdisjoint |]]]];
    unfold filterByPolo, pendingRequests, processedRequests;
    destruct (JS.eqb selectedPolo (JS.lit "todos")) eqn:T; try reflexivity.
  - rewrite !filter_filter. apply filter_ext; intros; apply andb_comm.
  - rewrite !filter_filter. apply filter_ext; intros; apply andb_comm.
  - rewrite filter_filter. apply filter_ext.
    intros r; now destruct (users_polo_is selectedPolo r).
  - intros H. apply JSFacts.eqb_eq in T. contradiction.
  - intros _ Hno. clear Hdisjoint.
    induction requests as [| a l IH]; [reflexivity |].
    cbn [filter]. rewrite (users_polo_is_unknown _ a Hno). apply IH.
Qed.

(** X19. Grouping counts every request at most once: the sizes of the
    four groups plus the number of requests whose owner has no branch
    give the size of the list, a request is in the group of its
    owner's branch only, and a key that is not a branch has no
    group. *)
Theorem groupByPolo_counts (requests : list Request) :
  (list_sum (map (fun g => List.length (snd g)) (groupByPolo requests))
   + List.length (filter unassigned requests)
   = List.length requests)%nat
  /\ (forall p q r,
        obj_get (polo_name p) (groupByPolo requests) = Some q ->
        In r q -> In r requests /\ owner_polo r = Some p)
  /\ (forall key, (forall p, key <> polo_name p) ->
                  obj_get key (groupByPolo requests) = None).
Proof.
  rewrite groupByPolo_entries.
  split.
  { assert (Hlen := Permutation_length (split_by_owner requests)).
    rewrite !length_app in Hlen. cbn [map snd]. unfold list_sum.
    cbn [fold_right]. lia. }
  split.
  { intros p q r Hq Hin.
    assert (q = filter (owner_is p) requests).
    { destruct p; cbn in Hq; congruence. }
    subst q. apply filter_In in Hin. rewrite owner_is_iff in Hin. exact Hin. }
  intros key Hkey. cbn [obj_get].
  rewrite !(proj2 (JSFacts.eqb_neq _ _)); auto.
Qed.

End ListsMore.

(* ------------------------------------------------------------------ *)
(** ** More about submissions *)

Module SubmissionMore.
Import UseRequests RequestForm SubmissionSpec Submission HandlerSpec HookSpec.
Import ListingSpec Listing SubmissionMoreSpec Sample.

Lemma profile_id_inv (e : Env) (pid : jsstring) :
  profile_id e = Some pid ->
  exists p, profile e = Some p /\ users.id p = pid /\ JS.truthy pid = true.
Proof.
  unfold profile_id. destruct (profile e) as [p |]; [| discriminate].
  destruct (JS.truthy (users.id p)) eqn:T; [| discriminate].
  intros [= <-]. exists p. auto.
Qed.

Lemma first_refused {A} (f : A -> bool) (l : list A) :
  forallb f l = false ->
  exists pre bad rest, l = pre ++ bad :: rest /\ forallb f pre = true /\ f bad = false.
Proof.
  induction l as [| a l IH]; [discriminate |].
  cbn [forallb]. destruct (f a) eqn:E; cbn [andb].
  - intros H. destruct (IH H) as (pre & bad & rest & -> & Hpre & Hbad).
    exists (a :: pre), bad, rest. cbn [forallb app]. rewrite E, Hpre. auto.
  - intros _. exists [], a, l. auto.
Qed.

Lemma upload_events_step (e : Env) (pid : jsstring) (tried files : list File) :
  incl tried files -> Forall (step_event e pid files) (upload_events e pid tried).
Proof.
  intros Hincl. unfold upload_events. apply Forall_forall. intros ev Hev.
  apply in_map_iff in Hev. destruct Hev as (g & <- & Hg). cbn. auto.
Qed.

(** The upload step never throws and only adds to the trace: uploads
    of the files of the form, one after the other up to the first one
    refused, console lines and possibly the warning.  It keeps the
    paths of all the files when all are accepted, and none
    otherwise. *)
Lemma upload_step_frame (e : Env) (pid : jsstring) (files : list File) (w : World) :
  profile_id e = Some pid ->
  exists t paths tried rest,
    upload_step files e w = (set_trace (trace w ++ t) w, Returned paths)
    /\ files = tried ++ rest
    /\ filter is_upload t = upload_events e pid tried
    /\ Forall (step_event e pid files) t
    /\ (forallb (accepted e pid) files = true ->
        rest = [] /\ paths = stored_paths e pid files)
    /\ (forallb (accepted e pid) files = false -> paths = []).
Proof.
  intros Hpid. destruct files as [| f fs].
  - exists [], [], [], []. cbn. rewrite app_nil_r. destruct w.
    repeat split; auto; try discriminate.
  - destruct (forallb (accepted e pid) (f :: fs)) eqn:Hall.
    + exists (step_success_trace e pid (f :: fs)), (stored_paths e pid (f :: fs)),
        (f :: fs), [].
      split; [apply upload_step_all; [exact Hpid | discriminate | exact Hall] |].
      split; [now rewrite app_nil_r |].
      split; [apply uploads_of_successful_step |].
      split; [| split; [auto | discriminate]].
      unfold step_success_trace. apply Forall_app. split; [repeat constructor |].
      apply Forall_app. split; [| repeat constructor].
      apply upload_events_step. apply incl_refl.
    + destruct (first_refused _ _ Hall) as (pre & bad & rest & Heq & Hpre & Hbad).
      unfold accepted in Hbad.
      destruct (up_error (response e pid bad)) as [msg |] eqn:Hmsg; [| discriminate].
      exists (step_failure_trace e pid (pre ++ [bad])), [], (pre ++ [bad]), rest.
      split; [rewrite Heq; now apply (upload_step_stops e pid pre rest bad msg) |].
      split; [now rewrite <- app_assoc |].
      split; [apply uploads_of_failed_step |].
      split; [| split; [discriminate | auto]].
      unfold step_failure_trace. apply Forall_app. split; [repeat constructor |].
      apply Forall_app. split; [| repeat constructor].
      apply upload_events_step. rewrite Heq. intros x Hx.
      apply in_app_or in Hx. apply in_or_app.
      destruct Hx as [Hx | [<- | []]]; [now left | right; now left].
Qed.

Lemma onSubmit_no_profile (values : SubmitValues) (e : Env) (w : World) :
  profile_id e = None ->
  onSubmit values e w = (add_events [EvToast no_user_toast] w, Returned tt).
Proof.
  intros Hp. unfold onSubmit. run_step. rewrite Hp. reflexivity.
Qed.

Lemma onSubmit_insert_fails (values : SubmitValues) (e : Env) (w : World)
  (p : users.Row) (t : list Event) (files : list jsstring) (msg : jsstring) :
  profile e = Some p ->
  JS.truthy (users.id p) = true ->
  db_fault e = Some msg ->
  upload_step (form_attachments (form w)) e (uploading_world w)
  = (set_trace t (uploading_world w), Returned files) ->
  onSubmit values e w = (world_insert_failed values w p t files, Returned tt).
Proof.
  intros Hp Hid Hdb Hstep.
  unfold onSubmit. run_step.
  rewrite (profile_id_of e p Hp Hid).
  unfold setUploading. run_step.
  fold (uploading_world w). cbn [form uploading_world set_form form_attachments].
  rewrite Hstep.
  unfold createRequest, db_insert_single. run_step.
  rewrite Hp. run_step. rewrite Hdb. run_step.
  unfold world_insert_failed, create_error_toast, insert_data, uploading_world,
    set_form, set_trace.
  cbn [db trace hook dash form uploading form_dependents form_values
       showCalculator form_attachments].
  rewrite <- !app_assoc. reflexivity.
Qed.

Lemma valid_dependents_complete (deps : list Dependent) :
  Forall (fun d => forallb JS.is_white_space (dep_name d) = false
                   /\ forallb JS.is_white_space (dep_relationship d) = false)
    (filter valid_dependent deps).
Proof.
  apply Forall_forall. intros d Hd. apply filter_In in Hd. destruct Hd as [_ Hd].
  unfold valid_dependent in Hd. rewrite !JSFacts.truthy_trim in Hd.
  apply andb_true_iff in Hd. destruct Hd as [H1 H2].
  apply negb_true_iff in H1. apply negb_true_iff in H2. auto.
Qed.

Lemma created_by_insert (values : SubmitValues) (e : Env) (w : World)
  (p : users.Row) (files : list jsstring) :
  profile e = Some p ->
  created_by values e w (inserted_row e (insert_data values p w files)).
Proof.
  intros Hp. exists p, (filter valid_dependent (form_dependents (form w))).
  do 9 (split; [reflexivity || exact Hp |]).
  apply valid_dependents_complete.
Qed.

(** X20. Whatever the uploads and the data store do, [onSubmit] does
    not throw, leaves the users and the dashboard alone, and adds at
    most one request.  A request it adds comes last, is pending,
    belongs to the signed-in user, has the submitted type, description,
    amount and polo, and keeps only the dependents whose name and
    relationship are not blank.  With a signed-in user it always ends
    with [uploading] false. *)
Theorem onSubmit_outcome (values : SubmitValues) (e : Env) (w : World) :
  let w' := fst (onSubmit values e w) in
  snd (onSubmit values e w) = Returned tt
  /\ users_tbl (db w') = users_tbl (db w)
  /\ dash w' = dash w
  /\ (requests_tbl (db w') = requests_tbl (db w)
      \/ exists created,
           requests_tbl (db w') = requests_tbl (db w) ++ [created]
           /\ created_by values e w created)
  /\ (profile_id e <> None -> uploading (form w') = false).
Proof.
  cbv zeta. destruct (profile_id e) as [pid |] eqn:Hpid.
  - destruct (profile_id_inv e pid Hpid) as (p & Hp & <- & Hid).
    destruct (upload_step_frame e (users.id p) (form_attachments (form w))
                (uploading_world w) Hpid) as (t & paths & tried & rest & Hrun & _).
    destruct (db_fault e) as [msg |] eqn:Hdb.
    + rewrite (onSubmit_insert_fails values e w p _ paths msg Hp Hid Hdb Hrun).
      cbn [fst snd]. repeat split. now left.
    + rewrite (onSubmit_creates values e w p _ paths Hp Hid Hdb Hrun).
      cbn [fst snd]. unfold world_after_submit. cbn [db dash form users_tbl requests_tbl uploading].
      repeat split. right. eexists. split; [reflexivity |].
      now apply created_by_insert.
  - rewrite (onSubmit_no_profile values e w Hpid). cbn [fst snd].
    repeat split; [now left | congruence].
Qed.

(** X21. Without a signed-in user, or with a profile whose identifier
    is empty, [onSubmit] only shows the toast 'Usuario nao
    encontrado': nothing is uploaded or inserted and the form keeps
    everything typed into it. *)
Theorem onSubmit_without_profile (values : SubmitValues) (e : Env) (w : World)
  (Hnobody : profile e = None \/ exists p, profile e = Some p /\ users.id p = []) :
  let w' := fst (onSubmit values e w) in
  snd (onSubmit values e w) = Returned tt
  /\ trace w' = trace w ++ [EvToast no_user_toast]
  /\ db w' = db w /\ hook w' = hook w /\ form w' = form w /\ dash w' = dash w.
Proof.
  cbv zeta.
  assert (Hpid : profile_id e = None).
  { unfold profile_id. destruct Hnobody as [-> | (p & -> & ->)]; reflexivity. }
  rewrite (onSubmit_no_profile values e w Hpid). repeat split.
Qed.

Lemma onSubmit_without_profile_witness :
  let ghost := {| users.id := []; users.auth_id := JS.lit "a"; users.name := JS.lit "X";
                  users.email := JS.lit "x@example.com"; users.role := solicitante;
                  users.polo := None; users.department := None |} in
  db (fst (onSubmit sample_values (env0 (Some ghost)) three_files)) = db0
  /\ trace (fst (onSubmit sample_values (env0 None) three_files))
     = [EvToast no_user_toast].
Proof.
  cbv zeta. split.
  - destruct (onSubmit_without_profile sample_values
                (env0 (Some {| users.id := []; users.auth_id := JS.lit "a";
                               users.name := JS.lit "X";
                               users.email := JS.lit "x@example.com";
                               users.role := solicitante;
                               users.polo := None; users.department := None |}))
                three_files
                (or_intror (ex_intro _ _ (conj eq_refl eq_refl))))
      as (_ & _ & Hdb & _).
    exact Hdb.
  - destruct (onSubmit_without_profile sample_values (env0 None) three_files
                (or_introl eq_refl)) as (_ & Htrace & _).
    exact Htrace.
Defined.

(** X22. When the insert is refused by the data store, [onSubmit]
    shows the destructive toast of a failed creation and keeps the
    form as it was, with its values, dependents and attachments, so
    that the user can send it again; no request is created and the
    list is not fetched.  The files were uploaded before the insert all
    the same: when object storage accepts them all, they are all
    stored with no request to belong to. *)
Theorem onSubmit_store_failure (values : SubmitValues) (e : Env) (w : World)
  (p : users.Row) (msg : jsstring)
  (Hviewer : profile e = Some p)
  (Hid : JS.truthy (users.id p) = true)
  (Hstore : db_fault e = Some msg) :
  let w' := fst (onSubmit values e w) in
  snd (onSubmit values e w) = Returned tt
  /\ db w' = db w
  /\ hook w' = hook w
  /\ form_values (form w') = form_values (form w)
  /\ form_dependents (form w') = form_dependents (form w)
  /\ form_attachments (form w') = form_attachments (form w)
  /\ uploading (form w') = false
  /\ exists t tried rest,
       trace w' = trace w ++ t ++ [EvToast create_error_toast]
       /\ form_attachments (form w) = tried ++ rest
       /\ filter is_upload t = upload_events e (users.id p) tried
       /\ (forallb (accepted e (users.id p)) (form_attachments (form w)) = true ->
           rest = []).
Proof.
  cbv zeta.
  assert (Hpid := profile_id_of e p Hviewer Hid).
  destruct (upload_step_frame e (users.id p) (form_attachments (form w))
              (uploading_world w) Hpid)
    as (t & paths & tried & rest & Hrun & Hfiles & Hup & _ & Hall & _).
  rewrite (onSubmit_insert_fails values e w p _ paths msg Hviewer Hid Hstore Hrun).
  cbn [fst snd]. unfold world_insert_failed.
  cbn [db hook form trace form_values form_dependents form_attachments uploading].
  do 7 (split; [reflexivity |]).
  exists (t ++ [ EvConsole Log (JS.lit "Dados da " ++ a_solicitacao ++ JS.lit ":");
                 EvInsert UserSession (insert_data values p w paths);
                 EvConsole LogError
                   (JS.lit "Erro ao criar " ++ a_solicitacao ++ JS.lit ":") ]),
    tried, rest.
  split.
  { cbn [uploading_world set_form trace]. rewrite <- !app_assoc. reflexivity. }
  split; [exact Hfiles |].
  split.
  { rewrite filter_app, Hup. cbn [filter is_upload]. apply app_nil_r. }
  intros H. exact (proj1 (Hall H)).
Qed.

Lemma onSubmit_store_failure_witness :
  let two := set_form (form0 [file "a.pdf"; file "c.pdf"]) world0 in
  let w' := fst (onSubmit sample_values store_down two) in
  db w' = db0
  /\ form_attachments (form w') = [file "a.pdf"; file "c.pdf"]
  /\ uploading (form w') = false.
Proof.
  cbv zeta.
  destruct (@onSubmit_store_failure sample_values store_down
              (set_form (form0 [file "a.pdf"; file "c.pdf"]) world0) ana
              (JS.lit "connection refused") eq_refl eq_refl eq_refl)
    as (_ & Hdb & _ & _ & _ & Hfiles & Hup & _).
  split; [exact Hdb |]. split; [exact Hfiles | exact Hup].
Defined.

(** X23. For a signed-in user and a data store that answers, a
    submission always creates its request, whatever object storage
    does: the request carries the paths of all the attachments when
    every upload succeeded and no attachment otherwise.  The form is
    then back to its initial state, the new request is in the list
    the hook shows, and the run ends with the toast of success. *)
Theorem onSubmit_success_resets (values : SubmitValues) (e : Env) (w : World)
  (p : users.Row)
  (Hviewer : profile e = Some p)
  (Hid : JS.truthy (users.id p) = true)
  (Hstore : db_fault e = None) :
  let w' := fst (onSubmit values e w) in
  let files := form_attachments (form w) in
  exists created,
    requests_tbl (db w') = requests_tbl (db w) ++ [created]
    /\ created_by values e w created
    /\ requests.attachments created
       = Some (if forallb (accepted e (users.id p)) files
               then stored_paths e (users.id p) files else [])
    /\ form w' = {| form_values := defaultValues; form_dependents := [];
                    showCalculator := false; form_attachments := [];
                    uploading := false |}
    /\ (exists rq, In rq (hs_requests (hook w')) /\ row rq = created)
    /\ hs_error (hook w') = None
    /\ exists t, trace w' = trace w ++ t ++ [EvToast success_toast].
Proof.
  cbv zeta.
  assert (Hpid := profile_id_of e p Hviewer Hid).
  destruct (upload_step_frame e (users.id p) (form_attachments (form w))
              (uploading_world w) Hpid)
    as (t & paths & tried & rest & Hrun & _ & _ & _ & Hall & Hnot).
  rewrite (onSubmit_creates values e w p _ paths Hviewer Hid Hstore Hrun).
  cbn [fst]. unfold world_after_submit.
  cbn [db hook form trace requests_tbl users_tbl hs_requests hs_error].
  exists (inserted_row e (insert_data values p w paths)).
  split; [reflexivity |].
  split; [now apply created_by_insert |].
  split.
  { cbn [inserted_row requests.attachments insert_data ins_attachments].
    destruct (forallb (accepted e (users.id p)) (form_attachments (form w))).
    - now rewrite (proj2 (Hall eq_refl)).
    - now rewrite (Hnot eq_refl). }
  split; [reflexivity |].
  split.
  { set (created := inserted_row e (insert_data values p w paths)).
    exists (transform (join (users_tbl (db w)) created)).
    split; [| reflexivity].
    apply in_map. apply in_map.
    apply (Permutation_in _ (order_desc_perm _)).
    unfold visible_rows. destruct (users.role p).
    - apply filter_In. split.
      + apply in_or_app. right. now left.
      + apply JSFacts.eqb_eq. reflexivity.
    - apply in_or_app. right. now left. }
  split; [reflexivity |].
  exists (t ++ [ EvConsole Log (JS.lit "Dados da " ++ a_solicitacao ++ JS.lit ":");
                 EvInsert UserSession (insert_data values p w paths);
                 EvSelect UserSession (owner_filter p) ]).
  cbn [uploading_world set_form trace]. unfold submit_trace.
  rewrite <- !app_assoc. reflexivity.
Qed.

Lemma onSubmit_success_resets_witness :
  let two := set_form (form0 [file "a.pdf"; file "c.pdf"]) world0 in
  let w' := fst (onSubmit sample_values (env0 (Some ana)) two) in
  map requests.attachments (skipn 3 (requests_tbl (db w')))
  = [Some [JS.lit "u-ana/1000-a.pdf"; JS.lit "u-ana/1000-c.pdf"]]
  /\ form_attachments (form w') = []
  /\ uploading (form w') = false.
Proof.
  cbv zeta. split; [reflexivity |].
  destruct (@onSubmit_success_resets sample_values (env0 (Some ana))
              (set_form (form0 [file "a.pdf"; file "c.pdf"]) world0) ana
              eq_refl eq_refl eq_refl)
    as (created & _ & _ & _ & Hform & _).
  rewrite Hform. split; reflexivity.
Defined.

Lemma stored_paths_length (e : Env) (pid : jsstring) (files : list File) :
  (List.length (stored_paths e pid files) <= List.length files)%nat.
Proof.
  unfold stored_paths. induction files as [| f files IH]; [apply le_n |].
  cbn [flat_map]. rewrite length_app.
  destruct (up_data (response e pid f)); cbn [List.length]; lia.
Qed.

(** X24. [uploadFiles] does nothing and returns no path when there is
    no file or no usable profile.  Otherwise it uploads the files in
    order: when all are accepted it returns their paths, at most one
    per file; when one is refused it stops there and throws a message
    that names that file and carries the message of object storage. *)
Theorem uploadFiles_result (files : list File) (e : Env) (w : World) :
  (files = [] \/ profile_id e = None -> uploadFiles files e w = (w, Returned []))
  /\ (forall pid,
        profile_id e = Some pid ->
        forallb (accepted e pid) files = true ->
        snd (uploadFiles files e w) = Returned (stored_paths e pid files)
        /\ (List.length (stored_paths e pid files) <= List.length files)%nat
        /\ filter is_upload (trace (fst (uploadFiles files e w)))
           = filter is_upload (trace w) ++ upload_events e pid files)
  /\ (forall pid,
        profile_id e = Some pid ->
        forallb (accepted e pid) files = false ->
        exists pre bad rest message,
          files = pre ++ bad :: rest
          /\ up_error (response e pid bad) = Some message
          /\ snd (uploadFiles files e w)
             = Thrown (JS.lit "Erro ao fazer upload do arquivo " ++ file_name bad
                         ++ JS.lit ": " ++ message)
          /\ filter is_upload (trace (fst (uploadFiles files e w)))
             = filter is_upload (trace w) ++ upload_events e pid (pre ++ [bad])).
Proof.
  split; [| split].
  - intros [-> | Hp]; unfold uploadFiles; run_step.
    + destruct (profile_id e); reflexivity.
    + rewrite Hp. reflexivity.
  - intros pid Hp Hall. destruct files as [| f fs].
    + unfold uploadFiles. run_step. rewrite Hp. cbn.
      rewrite app_nil_r. repeat split. apply le_n.
    + unfold uploadFiles. run_step. rewrite Hp. run_step.
      rewrite (upload_each_all e pid (f :: fs) Hall). cbn [fst snd].
      split; [reflexivity |]. split; [apply stored_paths_length |].
      unfold set_trace. cbn [trace]. now rewrite filter_app, filter_upload_events.
  - intros pid Hp Hall.
    destruct (first_refused _ _ Hall) as (pre & bad & rest & Heq & Hpre & Hbad).
    unfold accepted in Hbad.
    destruct (up_error (response e pid bad)) as [msg |] eqn:Hmsg; [| discriminate].
    exists pre, bad, rest, msg. split; [exact Heq |]. split; [exact Hmsg |].
    subst files.
    assert (Hrun : uploadFiles (pre ++ bad :: rest) e w
                   = (set_trace
                        (trace w ++ upload_events e pid (pre ++ [bad])
                           ++ [EvConsole LogError (JS.lit "Upload error:");
                               EvConsole LogError (JS.lit "Upload files error:")]) w,
                      Thrown (upload_failure bad msg))).
    { unfold uploadFiles. run_step. rewrite Hp.
      assert (Hstop := upload_each_stops e pid pre rest bad msg Hpre Hmsg [] w).
      destruct pre as [| f pre']; cbn [app] in *; run_step; rewrite Hstop;
        run_step; unfold set_trace; cbn [trace db hook dash form];
        rewrite <- !app_assoc; reflexivity. }
    rewrite Hrun. cbn [fst snd set_trace trace].
    split; [reflexivity |].
    rewrite !filter_app, filter_upload_events. cbn. now rewrite !app_nil_r.
Qed.

Lemma digits_are_digits (fuel : nat) :
  forall (n : N) (acc : jsstring),
    Forall (fun c => name_char c = true /\ c <> 47%N) acc ->
    Forall (fun c => name_char c = true /\ c <> 47%N) (JS.digits_fuel fuel n acc).
Proof.
  induction fuel as [| fuel IH]; intros n acc Hacc; [exact Hacc |].
  cbn [JS.digits_fuel].
  assert (Hd : name_char (48 + n mod 10) = true /\ (48 + n mod 10 <> 47)%N).
  { assert (Hlt : (n mod 10 < 10)%N) by (apply N.mod_lt; discriminate).
    set (m := (n mod 10)%N) in *. clearbody m.
    split; [| lia]. unfold name_char.
    assert (H1 : (48 <=? 48 + m)%N = true) by (apply N.leb_le; lia).
    assert (H2 : (48 + m <=? 57)%N = true) by (apply N.leb_le; lia).
    rewrite H1, H2. cbn. now rewrite !orb_true_r. }
  destruct (n <? 10)%N; [constructor; auto | apply IH; constructor; auto].
Qed.

Lemma name_char_not_slash (c : N) : name_char c = true -> c <> 47%N.
Proof. intros H ->. discriminate H. Qed.

(** X25. The storage path of an attachment is the identifier of the
    user, a slash, and then a name made only of letters, digits, dots,
    hyphens and underscores: whatever the file is called, nothing after
    the user's folder is a slash, so the name cannot reach another
    folder.  Cleaning a name twice is cleaning it once. *)
Theorem upload_path_scoped (e : Env) (pid : jsstring) (f : File) :
  (exists rest,
     upload_path e pid f = pid ++ [47%N] ++ rest
     /\ Forall (fun c => name_char c = true) rest
     /\ ~ In 47%N rest
     /\ exists stamp, rest = stamp ++ [45%N] ++ sanitize (file_name f))
  /\ sanitize (sanitize (file_name f)) = sanitize (file_name f)
  /\ Forall (fun c => name_char c = true) (sanitize (file_name f)).
Proof.
  assert (Hs : Forall (fun c => name_char c = true /\ c <> 47%N) (sanitize (file_name f))).
  { apply Forall_forall. intros c Hc. apply filter_In in Hc. destruct Hc as [_ Hc].
    split; [exact Hc | now apply name_char_not_slash]. }
  assert (Hrest : Forall (fun c => name_char c = true /\ c <> 47%N)
                    (JS.of_N (now e) ++ [45%N] ++ sanitize (file_name f))).
  { apply Forall_app. split; [apply digits_are_digits; constructor |].
    apply Forall_app. split; [| exact Hs].
    constructor; [split; [reflexivity | discriminate] | constructor]. }
  split; [| split].
  - exists (JS.of_N (now e) ++ [45%N] ++ sanitize (file_name f)).
    split; [reflexivity |].
    split; [eapply Forall_impl; [| exact Hrest]; intros c [H _]; exact H |].
    split; [| eexists; reflexivity].
    intros Hin. rewrite Forall_forall in Hrest. destruct (Hrest _ Hin) as [_ H].
    now apply H.
  - clear Hs Hrest. unfold sanitize.
    induction (file_name f) as [| c l IH]; [reflexivity |].
    cbn [filter]. destruct (name_char c) eqn:E; [| exact IH].
    cbn [filter]. now rewrite E, IH.
  - eapply Forall_impl; [| exact Hs]. intros c [H _]. exact H.
Qed.

End SubmissionMore.

(* ------------------------------------------------------------------ *)
(** ** Editing the form, and what the calculator suggests *)

Module FormMore.
Import Calculator RequestForm FormEdits.

Lemma drop_position_out {A} (l : list A) :
  forall (i index : Z),
    (index < i \/ i + Z.of_nat (List.length l) <= index)%Z ->
    drop_position index i l = l.
Proof.
  induction l as [| x l IH]; intros i index H; [reflexivity |].
  cbn [drop_position]. cbn [List.length] in H.
  destruct (Z.eqb_spec i index) as [-> | Hne]; [lia |].
  f_equal. apply IH. lia.
Qed.

Lemma drop_position_in {A} (l : list A) :
  forall (i index : Z),
    (i <= index < i + Z.of_nat (List.length l))%Z ->
    drop_position index i l
    = firstn (Z.to_nat (index - i)) l ++ skipn (S (Z.to_nat (index - i))) l.
Proof.
  induction l as [| x l IH]; intros i index H; [cbn in H; lia |].
  cbn [drop_position]. cbn [List.length] in H.
  destruct (Z.eqb_spec i index) as [-> | Hne].
  - rewrite Z.sub_diag. cbn [Z.to_nat firstn skipn app].
    apply drop_position_out. lia.
  - replace (Z.to_nat (index - i)) with (S (Z.to_nat (index - (i + 1)))) by lia.
    cbn [firstn skipn app]. f_equal. apply IH. lia.
Qed.

(** X26. Removing the entry at a position of the list of dependents,
    or of attachments, keeps the others in order and shortens the list
    by one; a position outside the list leaves it as it is.  A
    dependent just added goes last and is blank, so removing the last
    position undoes the addition, and a dependent left blank is not
    among the dependents a submission keeps.  Files chosen later go
    after the ones already attached. *)
Theorem form_lists_edit (dependents : list Dependent) (prev files : list File)
  (index : Z) :
  ((index < 0 \/ Z.of_nat (List.length dependents) <= index)%Z ->
   removeDependent index dependents = dependents)
  /\ ((0 <= index < Z.of_nat (List.length dependents))%Z ->
      removeDependent index dependents
      = firstn (Z.to_nat index) dependents ++ skipn (S (Z.to_nat index)) dependents
      /\ S (List.length (removeDependent index dependents)) = List.length dependents)
  /\ removeDependent (Z.of_nat (List.length dependents)) (addDependent dependents)
     = dependents
  /\ filter valid_dependent (addDependent dependents) = filter valid_dependent dependents
  /\ ((index < 0 \/ Z.of_nat (List.length prev) <= index)%Z ->
      removeAttachment index prev = prev)
  /\ ((0 <= index < Z.of_nat (List.length prev))%Z ->
      removeAttachment index prev
      = firstn (Z.to_nat index) prev ++ skipn (S (Z.to_nat index)) prev)
  /\ firstn (List.length prev) (addAttachments files prev) = prev
  /\ skipn (List.length prev) (addAttachments files prev) = files.
Proof.
  unfold removeDependent, removeAttachment, addDependent, addAttachments.
  split; [intros H; apply drop_position_out; lia |].
  split.
  { intros H. rewrite drop_position_in by lia. rewrite Z.sub_0_r.
    split; [reflexivity |].
    rewrite length_app, length_firstn, length_skipn. lia. }
  split.
  { rewrite drop_position_in by (rewrite length_app; cbn; lia).
    rewrite Z.sub_0_r, Nat2Z.id.
    rewrite firstn_app, Nat.sub_diag, firstn_all. cbn [firstn].
    rewrite app_nil_r.
    rewrite skipn_all2 by (rewrite length_app; cbn; lia).
    apply app_nil_r. }
  split.
  { rewrite filter_app. cbn. apply app_nil_r. }
  split; [intros H; apply drop_position_out; lia |].
  split; [intros H; rewrite drop_position_in by lia; now rewrite Z.sub_0_r |].
  split.
  - rewrite firstn_app, Nat.sub_diag, firstn_all. cbn [firstn]. apply app_nil_r.
  - rewrite skipn_app, Nat.sub_diag, skipn_all. reflexivity.
Qed.

Open Scope float_scope.

Lemma ltb_leb (x y : float) : (x <? y) = true -> (x <=? y) = true.
Proof.
  rewrite ltb_spec, leb_spec. unfold SFltb, SFleb.
  destruct (SFcompare (Prim2SF x) (Prim2SF y)) as [[] |]; auto.
Qed.

(** X27. The calculator never suggests an amount strictly below the
    floor other than zero: for every salary, NaN and the infinities
    included, a suggestion that compares below 2018.36 is 0, so a
    suggestion that is shown (it is above zero) is never below the
    floor.  The same holds for the amount the form displays. *)
Theorem suggestion_not_below_floor (salary : float) (type : jsstring) :
  ((calculateReimbursement salary type <? BASE_SALARY) = true ->
   calculateReimbursement salary type = 0)
  /\ ((0 <? calculateReimbursement salary type) = true ->
      (calculateReimbursement salary type <? BASE_SALARY) = false)
  /\ ((suggestedAmount salary type <? BASE_SALARY) = true ->
      suggestedAmount salary type = 0)
  /\ ((0 <? suggestedAmount salary type) = true ->
      (suggestedAmount salary type <? BASE_SALARY) = false).
Proof.
  assert (Hcalc : forall s, (calculateReimbursement s type <? BASE_SALARY) = true ->
                            calculateReimbursement s type = 0).
  { intros s. unfold calculateReimbursement.
    destruct (s <=? 0); [reflexivity |]. cbv zeta.
    destruct (s * SALARY_PERCENTAGE <=? BASE_SALARY) eqn:E.
    - intros H. vm_compute in H. discriminate H.
    - intros H. apply ltb_leb in H. congruence. }
  assert (Hshown : forall s, (0 <? calculateReimbursement s type) = true ->
                             (calculateReimbursement s type <? BASE_SALARY) = false).
  { intros s H.
    destruct (calculateReimbursement s type <? BASE_SALARY) eqn:E; [| reflexivity].
    rewrite (Hcalc s E) in H. vm_compute in H. discriminate H. }
  unfold suggestedAmount. auto.
Qed.

End FormMore.

(* ------------------------------------------------------------------ *)
(** ** Decisions, one after the other and on the dashboard *)

Module DecisionsMore.
Import RequestManagement HandlerSpec HandlerFacts HandlerMoreSpec UseRequests.
Import DashboardGestora ListingSpec Listing HookSpec HookMore DashboardLists.

(** X28. Once a manager's decision, an approval or a rejection, has
    gone through and the query that fetches the list again is
    answered, the request is in the list with its new status, and on
    the dashboard it is in the column of processed requests and no
    longer in the column of pending ones.  When that query is refused,
    the list, and with it both columns, is what it was before the
    decision, although the decision is stored. *)
Theorem decided_request_changes_column (requestId : jsstring) (st : target_status)
  (reason : option jsstring) (e : Env) (w : World) (token : jsstring)
  (p : users.Row) (r : requests.Row)
  (Hsession : session e = Some token)
  (Hviewer : profile e = Some p)
  (Hmanager : users.role p = gestora)
  (Hdecision : st = to_approved \/ st = to_rejected)
  (Hupdate : update_succeeds e w (body_of requestId st reason) r) :
  let w' := fst (updateRequestStatus requestId st reason e w) in
  let listed := hs_requests (hook w') in
  In r (requests_tbl (db w'))
  /\ requests.id r = requestId
  /\ requests.status r = status_of st
  /\ (db_fault e = None ->
        (exists rq, In rq listed /\ row rq = r)
        /\ (forall rq, In rq listed -> requests.id (row rq) = requestId ->
                       In rq (processedRequests listed)
                       /\ ~ In rq (pendingRequests listed)))
  /\ (forall msg, db_fault e = Some msg ->
        listed = hs_requests (hook w)
        /\ processedRequests listed = processedRequests (hs_requests (hook w))
        /\ pendingRequests listed = pendingRequests (hs_requests (hook w))).
Proof.
  cbv zeta.
  rewrite (updateRequestStatus_ok _ _ _ _ _ _ _ _ Hsession Hviewer Hupdate).
  cbn [fst].
  destruct (update_succeeds_inv e w _ r Hupdate) as (r0 & _ & _ & Hid & Hr & Hin).
  unfold world_decided.
  destruct (db_fault e) as [msg |] eqn:Hdb.
  - split; [exact Hin |]. split; [rewrite Hr; exact Hid |].
    split; [rewrite Hr; reflexivity |].
    split; [discriminate |].
    intros _ _. repeat split.
  - split; [exact Hin |]. split; [rewrite Hr; exact Hid |].
    split; [rewrite Hr; reflexivity |].
    split; [| discriminate].
    intros _. split.
    + exists (transform (join (users_tbl (db w)) r)).
      split; [| reflexivity].
      unfold world_updated, world_after_fetch.
      cbn [db hook hs_requests world_after_success add_events requests_tbl
           users_tbl started].
      apply in_map. apply in_map.
      apply (Permutation_in _ (order_desc_perm _)).
      unfold visible_rows. rewrite Hmanager. exact Hin.
    + intros rq Hin' Hid'.
      assert (Hst := listed_after_update _ _ _ _ _ _ _ Hin' Hid').
      unfold processedRequests, pendingRequests. rewrite !filter_In.
      unfold status_is. rewrite Hst.
      destruct Hdecision as [-> | ->].
      * split; [split; [exact Hin' | reflexivity] |]. intros [_ H]. discriminate H.
      * split; [split; [exact Hin' | reflexivity] |]. intros [_ H]. discriminate H.
Qed.

Lemma decided_request_changes_column_witness :
  let listed := hs_requests (hook (fst (updateRequestStatus (JS.lit "r1") to_approved
                                          None (Sample.env0 (Some Sample.gil))
                                          Sample.world0))) in
  map (fun rq => requests.id (row rq)) (pendingRequests listed) = []
  /\ (exists rq, In rq listed /\ requests.id (row rq) = JS.lit "r1"
                 /\ requests.status (row rq) = approved)
  /\ hs_requests (hook (fst (updateRequestStatus (JS.lit "r1") to_approved None
                               browser_cut_off Sample.world0))) = [].
Proof.
  cbv zeta. split; [reflexivity |]. split.
  - destruct (@decided_request_changes_column (JS.lit "r1") to_approved None
                (Sample.env0 (Some Sample.gil)) Sample.world0 (JS.lit "jwt") Sample.gil
                (apply_update {| upd_status := approved; upd_approved_at := 1000%N;
                                 upd_rejection_reason := None |} Sample.r1)
                eq_refl eq_refl eq_refl (or_introl eq_refl) (conj eq_refl eq_refl))
      as (_ & Hid & Hst & Hanswered & _).
    destruct (proj1 (Hanswered eq_refl)) as (rq & Hin & Hrow).
    exists rq. rewrite Hrow. split; [exact Hin |]. split; [exact Hid | exact Hst].
  - destruct (@decided_request_changes_column (JS.lit "r1") to_approved None
                browser_cut_off Sample.world0 (JS.lit "jwt") Sample.gil
                (apply_update {| upd_status := approved; upd_approved_at := 1000%N;
                                 upd_rejection_reason := None |} Sample.r1)
                eq_refl eq_refl eq_refl (or_introl eq_refl) (conj eq_refl eq_refl))
      as (_ & _ & _ & _ & Hrefused).
    exact (proj1 (Hrefused (JS.lit "connection refused") eq_refl)).
Defined.

(** X29. Decisions overwrite one another, the last one wins, and a
    reason outlives a later approval: after a rejection with a reason
    and then an approval of the same request, both successful, the
    request is approved, its [approved_at] is the time of the approval
    and its [rejection_reason] is still the reason of the rejection. *)
Theorem reject_then_approve (auth1 auth2 : option jsstring) (requestId reason : jsstring)
  (e1 e2 : Env) (w : World) (r0 : requests.Row)
  (Hauth1 : JS.truthy_opt auth1 = true)
  (Hauth2 : JS.truthy_opt auth2 = true)
  (Hreason : reason <> [])
  (Hstore1 : service_db_fault e1 = None)
  (Hstore2 : service_db_fault e2 = None)
  (Hone : filter (has_id requestId) (requests_tbl (db w)) = [r0]) :
  let w1 := fst (handler (post_of auth1 (body_of requestId to_rejected (Some reason)))
                   e1 w) in
  let out := handler (post_of auth2 (body_of requestId to_approved None)) e2 w1 in
  exists r2,
    snd out = Returned {| resp_status := 200;
                          resp_body :=
                            BodySuccess (Some r2)
                              (JS.lit "Request approved successfully") |}
    /\ filter (has_id requestId) (requests_tbl (db (fst out))) = [r2]
    /\ requests.status r2 = approved
    /\ requests.approved_at r2 = Some (now e2)
    /\ requests.rejection_reason r2 = Some reason
    /\ same_content r0 r2.
Proof.
  cbv zeta. unfold post_of.
  set (b1 := body_of requestId to_rejected (Some reason)).
  set (b2 := body_of requestId to_approved None).
  set (r1 := apply_update (updateData_of e1 b1) r0).
  assert (H1 : update_succeeds e1 w b1 r1).
  { split; [exact Hstore1 |]. unfold updated_rows.
    rewrite filter_update_rows. cbn [b1 body_of RequestManagement.requestId].
    now rewrite Hone. }
  rewrite (handler_success _ _ _ _ _ Hauth1 H1). cbn [fst].
  assert (Hone1 : filter (has_id requestId)
                    (requests_tbl (db (world_after_success e1 w b1))) = [r1]).
  { cbn [world_after_success db requests_tbl]. exact (proj2 H1). }
  set (r2 := apply_update (updateData_of e2 b2) r1).
  assert (H2 : update_succeeds e2 (world_after_success e1 w b1) b2 r2).
  { split; [exact Hstore2 |]. unfold updated_rows.
    rewrite filter_update_rows. cbn [b2 body_of RequestManagement.requestId].
    now rewrite Hone1. }
  rewrite (handler_success _ _ _ _ _ Hauth2 H2). cbn [fst snd].
  exists r2. split; [reflexivity |].
  split; [exact (proj2 H2) |].
  split; [reflexivity |]. split; [reflexivity |].
  split.
  - cbn. destruct reason; [congruence | reflexivity].
  - unfold same_content. cbn. repeat split.
Qed.

Lemma reject_then_approve_witness :
  let w1 := fst (handler (Sample.post WorkflowSpec.bearer "r1" to_rejected
                            (Some (JS.lit "sem recibo")))
                   (Sample.env0 (Some Sample.gil)) Sample.world0) in
  let w2 := fst (handler (Sample.post WorkflowSpec.bearer "r1" to_approved None)
                   (Sample.env0 (Some Sample.gil)) w1) in
  Sample.stored_status "r1" w2 = Some approved
  /\ Sample.stored_reason "r1" w2 = Some (Some (JS.lit "sem recibo"))
  /\ exists r2, filter (has_id (JS.lit "r1")) (requests_tbl (db w2)) = [r2]
                /\ requests.rejection_reason r2 = Some (JS.lit "sem recibo").
Proof.
  cbv zeta. split; [reflexivity |]. split; [reflexivity |].
  destruct (@reject_then_approve WorkflowSpec.bearer WorkflowSpec.bearer
              (JS.lit "r1") (JS.lit "sem recibo")
              (Sample.env0 (Some Sample.gil)) (Sample.env0 (Some Sample.gil))
              Sample.world0 Sample.r1
              eq_refl eq_refl ltac:(discriminate) eq_refl eq_refl eq_refl)
    as (r2 & _ & Hone & _ & _ & Hreason & _).
  exists r2. split; [exact Hone | exact Hreason].
Defined.

End DecisionsMore.
